(** * The execution engine of Cpp-Mastery-Hub

    A shallow embedding of [cpp-engine/src/compiler/execution_engine.cpp]
    (class [ExecutionEngine]) together with the parts of its environment the
    engine talks to: the JSON option object, the configuration singleton, the
    file system under [temp/], and the POSIX process primitives
    ([pipe], [fork], [execvp], [alarm], [waitpid], [kill], [read]).

    The engine's member functions are written in a small monad that threads
    the state of the operating system and records in a trace the system
    calls that act on processes, pipes and files.  A computation either
    returns, throws a [std::exception], blocks for ever inside a system
    call, or has its process terminated by a signal.

    What lies outside the engine is an [Env]: the configuration, the random
    device, the clock, which library and system calls fail, the signal
    dispositions of the server process, and the behaviour of every program
    [execvp] can start.  Calls to the logger have no effect on a run and are
    left out.  The vocabulary of events and child steps is that of a process
    runner in general (a pipe for standard input, [write], [setrlimit],
    SIGKILL), not only of the calls this engine makes. *)

From Stdlib Require Import String Ascii List ZArith Lia Bool DecimalString.
Import ListNotations.

Set Warnings "-register-all".

Local Open Scope string_scope.
Local Open Scope Z_scope.

(** ** Strings as the engine uses them *)

Module Str.

(** [std::string::find(pat)] from position 0; [None] stands for [npos]. *)
Fixpoint find_from (pat s : string) (i : nat) : option nat :=
  if String.prefix pat s then Some i
  else match s with
       | EmptyString => None
       | String _ s' => find_from pat s' (S i)
       end.

Definition find (pat s : string) : option nat := find_from pat s 0.

(** [s.find(pat) != std::string::npos] *)
Definition contains (pat s : string) : bool :=
  match find pat s with Some _ => true | None => false end.

Definition empty (s : string) : bool :=
  match s with EmptyString => true | String _ _ => false end.

(** [std::to_string(int)]: decimal digits, a leading minus sign for
    negative values. *)
Definition to_string (n : Z) : string := NilZero.string_of_int (Z.to_int n).

Definition newline : ascii := "010"%char.
Definition nul : ascii := "000"%char.
Definition slash : ascii := "/"%char.

(** The lines [std::getline] extracts from a stream over [s] until it
    fails: the text between newlines, with no line for the empty tail
    after a final newline. *)
Fixpoint getlines (s : string) : list string :=
  match s with
  | EmptyString => []
  | String c rest =>
      if Ascii.eqb c newline then EmptyString :: getlines rest
      else match getlines rest with
           | [] => [String c EmptyString]
           | l :: ls => String c l :: ls
           end
  end.

(** What [std::string::operator+=(const char* )] appends from a buffer:
    the bytes before the first NUL. *)
Fixpoint c_str (s : string) : string :=
  match s with
  | EmptyString => EmptyString
  | String c rest => if Ascii.eqb c nul then EmptyString else String c (c_str rest)
  end.

(** [std::filesystem::path(p).parent_path().string()] for a relative path
    without trailing separator: everything before the last slash. *)
Fixpoint parent_path (p : string) : string :=
  match p with
  | EmptyString => EmptyString
  | String c rest =>
      if contains "/" rest then String c (parent_path rest)
      else if Ascii.eqb c slash then EmptyString
      else parent_path rest
  end.

End Str.

(** ** The option object (nlohmann::json) *)

Inductive json : Type :=
| JNull
| JBool (b : bool)
| JNumber (n : Z)
| JString (s : string)
| JArray (items : list json)
| JObject (members : list (string * json)).

Module Json.

Definition type_name (j : json) : string :=
  match j with
  | JNull => "null"
  | JBool _ => "boolean"
  | JNumber _ => "number"
  | JString _ => "string"
  | JArray _ => "array"
  | JObject _ => "object"
  end.

Fixpoint lookup (key : string) (members : list (string * json)) : option json :=
  match members with
  | [] => None
  | (k, v) :: rest => if String.eqb k key then Some v else lookup key rest
  end.

(** The texts of the [type_error]s the library throws. *)
Definition type_error_306 (j : json) : string :=
  "[json.exception.type_error.306] cannot use value() with " ++ type_name j.

Definition type_error_302 (expected : string) (j : json) : string :=
  "[json.exception.type_error.302] type must be " ++ expected ++ ", but is " ++ type_name j.

(** [j.get<std::string>()]; [inl] carries the text of the exception. *)
Definition get_string (j : json) : string + string :=
  match j with
  | JString s => inr s
  | _ => inl (type_error_302 "string" j)
  end.

Definition get_bool (j : json) : string + bool :=
  match j with
  | JBool b => inr b
  | _ => inl (type_error_302 "boolean" j)
  end.

(** [j.value(key, default_value)] at type [std::string]. *)
Definition value_string (j : json) (key default_value : string) : string + string :=
  match j with
  | JObject members =>
      match lookup key members with
      | Some v => get_string v
      | None => inr default_value
      end
  | _ => inl (type_error_306 j)
  end.

(** [j.value(key, default_value)] at type [bool]. *)
Definition value_bool (j : json) (key : string) (default_value : bool) : string + bool :=
  match j with
  | JObject members =>
      match lookup key members with
      | Some v => get_bool v
      | None => inr default_value
      end
  | _ => inl (type_error_306 j)
  end.

(** [j.contains(key)]: false on anything but an object. *)
Definition contains (j : json) (key : string) : bool :=
  match j with
  | JObject members => match lookup key members with Some _ => true | None => false end
  | _ => false
  end.

(** [j[key]] once [contains] has answered yes. *)
Definition at_key (j : json) (key : string) : json :=
  match j with
  | JObject members => match lookup key members with Some v => v | None => JNull end
  | _ => JNull
  end.

Definition is_array (j : json) : bool :=
  match j with JArray _ => true | _ => false end.

Definition items (j : json) : list json :=
  match j with JArray l => l | _ => [] end.

End Json.

(** ** Results (execution_engine.hpp) *)

Record CompilationResult := {
  cr_success : bool;
  cr_executable_path : string;
  cr_compilation_time_ms : Z;
  cr_warnings : list string;
  cr_errors : list string;
  cr_compiler_output : string
}.

Record ExecutionResult := {
  er_success : bool;
  er_exit_code : Z;
  er_stdout : string;
  er_stderr : string;
  er_execution_time_ms : Z;
  er_memory_usage_kb : Z;
  er_cpu_time_ms : Z;
  er_error_message : string
}.

Record ProcessResult := {
  pr_exit_code : Z;
  pr_stdout : string;
  pr_stderr : string;
  pr_memory_usage_kb : Z;
  pr_cpu_time_ms : Z
}.

(** The member initialisers of the three structs. *)
Definition CompilationResult_default : CompilationResult :=
  {| cr_success := false; cr_executable_path := ""; cr_compilation_time_ms := 0;
     cr_warnings := []; cr_errors := []; cr_compiler_output := "" |}.

Definition ExecutionResult_default : ExecutionResult :=
  {| er_success := false; er_exit_code := 0; er_stdout := ""; er_stderr := "";
     er_execution_time_ms := 0; er_memory_usage_kb := 0; er_cpu_time_ms := 0;
     er_error_message := "" |}.

Definition ProcessResult_default : ProcessResult :=
  {| pr_exit_code := -1; pr_stdout := ""; pr_stderr := "";
     pr_memory_usage_kb := 0; pr_cpu_time_ms := 0 |}.

(** The boolean members of [ExecutionResult]: the only places where the
    outcome could carry a flag. *)
Definition ExecutionResult_flags : list (ExecutionResult -> bool) := [er_success].

(** ** Configuration (utils/config.hpp) *)

Record Config := {
  compiler_path : string;
  clang_path : string;
  default_compiler : string;
  cpp_standard : string;
  optimization_level : string;
  compilation_timeout : Z;
  sandbox_enabled : bool;
  execution_timeout : Z;
  max_memory_mb : Z;
  max_cpu_time : Z;
  docker_image : string
}.

(** [Config::setDefaults] in utils/config.cpp. *)
Definition Config_defaults : Config :=
  {| compiler_path := "/usr/bin/g++";
     clang_path := "/usr/bin/clang++";
     default_compiler := "g++";
     cpp_standard := "c++20";
     optimization_level := "O2";
     compilation_timeout := 30;
     sandbox_enabled := true;
     execution_timeout := 10;
     max_memory_mb := 512;
     max_cpu_time := 5;
     docker_image := "cpp-sandbox:latest" |}.

(** ** The operating system seen from the engine *)

Inductive Signal := SIGINT | SIGABRT | SIGKILL | SIGSEGV | SIGPIPE | SIGALRM | SIGTERM.

Definition signo (s : Signal) : Z :=
  match s with
  | SIGINT => 2 | SIGABRT => 6 | SIGKILL => 9 | SIGSEGV => 11
  | SIGPIPE => 13 | SIGALRM => 14 | SIGTERM => 15
  end.

(** What a process does when a signal arrives. *)
Inductive Disposition :=
| SigDefault            (* the default action; for the signals above: terminate *)
| SigIgnore
| SigHandlerRestart     (* a handler; interrupted system calls are restarted *)
| SigHandlerInterrupt.  (* a handler; interrupted system calls fail with EINTR *)

(** [setupSignalHandlers] of main.cpp, the only place of the repository that
    changes a disposition ([std::signal] installs restarting handlers). *)
Definition setupSignalHandlers (before : Signal -> Disposition) : Signal -> Disposition :=
  fun s =>
    match s with
    | SIGINT | SIGTERM | SIGABRT => SigHandlerRestart
    | SIGPIPE => SigIgnore
    | _ => before s
    end.

Definition server_signals : Signal -> Disposition :=
  setupSignalHandlers (fun _ => SigDefault).

(** How a process ends, and the status word [waitpid] stores for it. *)
Inductive Termination := Exited (code : Z) | Signaled (sig : Signal).

Definition wait_status (t : Termination) : Z :=
  match t with
  | Exited code => Z.shiftl (Z.land code 255) 8
  | Signaled sig => signo sig
  end.

(** The macro of <sys/wait.h>. *)
Definition WEXITSTATUS (status : Z) : Z := Z.land (Z.shiftr status 8) 255.

(** The three pipes a runner may set up, and the descriptors involved. *)
Inductive Chan := OutPipe | ErrPipe | InPipe.

Inductive Fd :=
| STDIN_FILENO | STDOUT_FILENO | STDERR_FILENO
| ReadEnd (c : Chan)      (* pipe[0] *)
| WriteEnd (c : Chan).    (* pipe[1] *)

Inductive Resource := RLIMIT_AS | RLIMIT_CPU.

(** What the forked child does before and at [execvp]. *)
Inductive ChildStep :=
| CClose (fd : Fd)
| CDup2 (oldfd newfd : Fd)
| CSetrlimit (r : Resource) (limit : Z)
| CExecvp (argv : list string)
| CExit (code : Z).

(** The system calls of the parent, as recorded in the trace. *)
Inductive Event :=
| EPipe (c : Chan) (ok : bool)
| EFork (pid : option Z) (child : list ChildStep)
| EClose (fd : Fd)
| EWrite (fd : Fd) (data : string)
| ERead (fd : Fd) (data : string)
| EAlarm (seconds : Z)
| EWaitpid (pid : Z)
| EKill (pid : Z) (sig : Signal)
| ECreateDirectories (path : string)
| EOpen (path : string) (ok : bool)
| EWriteFile (path : string) (data : string)
| ERemoveAll (path : string).

(** What the child has arranged for the program by the time of [execvp]:
    the bytes its descriptor 0 yields, and the resource limits in force. *)
Record Context := {
  stdin_bytes : string;
  limits : list (Resource * Z)
}.

(** The observable behaviour of an executed program none of whose writes
    blocks: what it writes on its standard output and standard error, and
    when and how it ends. *)
Record Behaviour := {
  lifetime : option nat;     (* seconds until it ends by itself; [None]: never *)
  ending : Termination;      (* how it ends when it does *)
  writes_stdout : string;
  writes_stderr : string;
  creates : list string;     (* files it leaves on disk *)
  ignores_sigterm : bool
}.

Record ChildProc := {
  cp_pid : Z;
  cp_behaviour : Behaviour;
  cp_killed_by : option Signal
}.

(** Everything outside the engine that decides a run. *)
Record Env := {
  config : Config;
  random_device : nat -> nat;             (* the successive values of dis(gen) *)
  clock_ms : nat -> Z;                    (* the clock, after so many system calls *)
  create_directories_error : option string;   (* what() of the filesystem_error *)
  ofstream_opens : bool;
  remove_all_error : option string;
  current_path : string + string;         (* [inl]: what() of the filesystem_error *)
  pipe_ok : Chan -> bool;
  fork_ok : bool;
  signals : Signal -> Disposition;
  server_stdin : string;                  (* what the server's own descriptor 0 yields *)
  programs : list string -> option (Context -> Behaviour)  (* what execvp(argv) runs *)
}.

(** The context of a child that changes nothing between [fork] and
    [execvp]: the standard input of the server, no limits. *)
Definition inherited (env : Env) : Context :=
  {| stdin_bytes := server_stdin env; limits := [] |}.

Record State := {
  fs : list string;            (* the paths that exist *)
  trace : list Event;          (* system calls so far, oldest first *)
  rng : nat;                   (* values drawn from the random device *)
  next_pid : Z;
  alarm_armed : Z;             (* seconds of the pending alarm, 0 for none *)
  child : option ChildProc;    (* the child not yet waited for *)
  pipe_out : string;           (* unread bytes in the two pipes *)
  pipe_err : string
}.

Definition initial_state : State :=
  {| fs := ["temp"; "cache"; "logs"]; trace := []; rng := 0%nat; next_pid := 1000;
     alarm_armed := 0; child := None; pipe_out := ""; pipe_err := "" |}.

Definition log (e : Event) (st : State) : State :=
  {| fs := fs st; trace := trace st ++ [e]; rng := rng st; next_pid := next_pid st;
     alarm_armed := alarm_armed st; child := child st;
     pipe_out := pipe_out st; pipe_err := pipe_err st |}.

Definition set_fs (f : list string) (st : State) : State :=
  {| fs := f; trace := trace st; rng := rng st; next_pid := next_pid st;
     alarm_armed := alarm_armed st; child := child st;
     pipe_out := pipe_out st; pipe_err := pipe_err st |}.

Definition set_rng (n : nat) (st : State) : State :=
  {| fs := fs st; trace := trace st; rng := n; next_pid := next_pid st;
     alarm_armed := alarm_armed st; child := child st;
     pipe_out := pipe_out st; pipe_err := pipe_err st |}.

Definition set_alarm (secs : Z) (st : State) : State :=
  {| fs := fs st; trace := trace st; rng := rng st; next_pid := next_pid st;
     alarm_armed := secs; child := child st;
     pipe_out := pipe_out st; pipe_err := pipe_err st |}.

Definition set_child (c : option ChildProc) (st : State) : State :=
  {| fs := fs st; trace := trace st; rng := rng st; next_pid := next_pid st;
     alarm_armed := alarm_armed st; child := c;
     pipe_out := pipe_out st; pipe_err := pipe_err st |}.

Definition set_pipe (c : Chan) (data : string) (st : State) : State :=
  {| fs := fs st; trace := trace st; rng := rng st; next_pid := next_pid st;
     alarm_armed := alarm_armed st; child := child st;
     pipe_out := match c with OutPipe => data | _ => pipe_out st end;
     pipe_err := match c with ErrPipe => data | _ => pipe_err st end |}.

Definition pipe_data (c : Chan) (st : State) : string :=
  match c with OutPipe => pipe_out st | ErrPipe => pipe_err st | InPipe => "" end.

(** A child is there, and [out] and [err] are what it has put into the
    two pipes. *)
Definition spawn (pid : Z) (b : Behaviour) (out err : string) (st : State) : State :=
  {| fs := fs st; trace := trace st; rng := rng st; next_pid := pid + 1;
     alarm_armed := alarm_armed st;
     child := Some {| cp_pid := pid; cp_behaviour := b; cp_killed_by := None |};
     pipe_out := out; pipe_err := err |}.

(** *** Paths *)

Module Fs.

Definition mem (p : string) (f : list string) : bool := existsb (String.eqb p) f.

Definition add (p : string) (f : list string) : list string :=
  if mem p f then f else f ++ [p].

(** [p] itself and the directories above it, outermost first. *)
Fixpoint chain (seen p : string) : list string :=
  match p with
  | EmptyString => [seen]
  | String c rest =>
      if Ascii.eqb c Str.slash then seen :: chain (seen ++ "/") rest
      else chain (seen ++ String c "") rest
  end.

Definition create_directories (p : string) (f : list string) : list string :=
  fold_left (fun acc d => add d acc) (chain "" p) f.

(** [q] is [p] or lies below it. *)
Definition under (p q : string) : bool :=
  String.eqb p q || String.prefix (p ++ "/") q.

Definition remove_all (p : string) (f : list string) : list string :=
  filter (fun q => negb (under p q)) f.

End Fs.

(** ** The monad of the engine *)

Inductive Outcome (A : Type) :=
| Returns (a : A)
| Throws (what : string)     (* a std::exception leaves the call *)
| Blocks                     (* the call never returns *)
| Killed (sig : Signal).     (* the calling process is terminated *)

Arguments Returns {A} a.
Arguments Throws {A} what.
Arguments Blocks {A}.
Arguments Killed {A} sig.

Definition M (A : Type) : Type := State -> Outcome A * State.

Definition ret {A} (a : A) : M A := fun st => (Returns a, st).

Definition bind {A B} (m : M A) (k : A -> M B) : M B :=
  fun st =>
    match m st with
    | (Returns a, st') => k a st'
    | (Throws what, st') => (Throws what, st')
    | (Blocks, st') => (Blocks, st')
    | (Killed sig, st') => (Killed sig, st')
    end.

Definition throw {A} (what : string) : M A := fun st => (Throws what, st).

(** [try { body } catch (const std::exception& e) { handler(e.what()) }] *)
Definition try_catch {A} (body : M A) (handler : string -> M A) : M A :=
  fun st =>
    match body st with
    | (Throws what, st') => handler what st'
    | r => r
    end.

(** A library call that reports failure by throwing. *)
Definition lift_throwing {A} (r : string + A) : M A :=
  match r with inl what => throw what | inr a => ret a end.

Declare Scope engine_scope.
Delimit Scope engine_scope with engine.
Notation "x <- c ;; k" := (bind c (fun x => k))
  (at level 100, c at next level, right associativity) : engine_scope.
Notation "c ;;; k" := (bind c (fun _ => k))
  (at level 100, right associativity) : engine_scope.
Local Open Scope engine_scope.

(** Bytes moved by one [read(fd, buffer, sizeof(buffer) - 1)]. *)
Definition buffer_room : nat := 4095.

Fixpoint take (n : nat) (s : string) : string :=
  match n, s with
  | S n', String c rest => String c (take n' rest)
  | _, _ => EmptyString
  end.

Fixpoint drop (n : nat) (s : string) : string :=
  match n, s with
  | S n', String _ rest => drop n' rest
  | _, _ => s
  end.

(** *** Pipes between the child and the parent *)

(** What a pipe holds before a [write] into it blocks (16 pages, the
    default of Linux).  The parent of this engine reads its pipes only
    after [waitpid] has returned, so a child that writes more than this
    into one of them never ends by itself. *)
Definition pipe_capacity : Z := 65536.

Definition fits (s : string) : bool := Z.of_nat (String.length s) <=? pipe_capacity.

(** The bytes that are in a pipe the child wrote [s] into. *)
Definition held (s : string) : string :=
  if fits s then s else take (Z.to_nat pipe_capacity) s.

(** The program stopped in a [write] that never completes. *)
Definition blocked_in_write (b : Behaviour) : Behaviour :=
  {| lifetime := None; ending := ending b;
     writes_stdout := writes_stdout b; writes_stderr := writes_stderr b;
     creates := creates b; ignores_sigterm := ignores_sigterm b |}.

(** The program as it runs with [out] and [err] written into the two
    pipes. *)
Definition behind_pipes (out err : string) (b : Behaviour) : Behaviour :=
  if fits out && fits err then b else blocked_in_write b.

Definition is_stdout (fd : Fd) : bool :=
  match fd with STDOUT_FILENO => true | _ => false end.

Definition is_stderr (fd : Fd) : bool :=
  match fd with STDERR_FILENO => true | _ => false end.

Definition Chan_eqb (a b : Chan) : bool :=
  match a, b with
  | OutPipe, OutPipe | ErrPipe, ErrPipe | InPipe, InPipe => true
  | _, _ => false
  end.

Definition exits_at_once (code : Z) : Behaviour :=
  {| lifetime := Some 0%nat; ending := Exited code; writes_stdout := ""; writes_stderr := "";
     creates := []; ignores_sigterm := false |}.

Definition ends_before (b : Behaviour) (seconds : Z) : bool :=
  match lifetime b with
  | Some d => Z.of_nat d <? seconds
  | None => false
  end.

(** Whether a signal sent with [kill] ends the child. *)
Definition fatal (sig : Signal) (b : Behaviour) : bool :=
  match sig with
  | SIGTERM => negb (ignores_sigterm b)
  | _ => true
  end.

Section Engine.

Variable env : Env.

(** *** System calls *)

Definition sys_pipe (c : Chan) : M bool :=
  fun st => (Returns (pipe_ok env c), log (EPipe c (pipe_ok env c)) st).

(** The child runs its steps up to the first [execvp] that finds a
    program, or to [exit].  A descriptor 0 that was redirected yields what
    is written into the pipe behind it; nothing here writes into a pipe
    from the parent's side, so it yields nothing. *)
Fixpoint child_behaviour (ctx : Context) (steps : list ChildStep) : Behaviour :=
  match steps with
  | [] => exits_at_once 0
  | CExecvp argv :: rest =>
      match programs env argv with
      | Some program => program ctx
      | None => child_behaviour ctx rest
      end
  | CExit code :: _ => exits_at_once code
  | CDup2 _ STDIN_FILENO :: rest =>
      child_behaviour {| stdin_bytes := ""; limits := limits ctx |} rest
  | CSetrlimit r limit :: rest =>
      child_behaviour {| stdin_bytes := stdin_bytes ctx; limits := (r, limit) :: limits ctx |} rest
  | _ :: rest => child_behaviour ctx rest
  end.

(** Where the descriptor picked by [is_fd] (1 or 2) of the child points
    when its program starts: [Some c] when the last [dup2] onto it named
    the write end of pipe [c], [None] when it is still the descriptor of
    the server or was closed. *)
Fixpoint points_to (is_fd : Fd -> bool) (steps : list ChildStep) (at_start : option Chan)
  : option Chan :=
  match steps with
  | [] => at_start
  | CDup2 oldfd newfd :: rest =>
      if is_fd newfd
      then points_to is_fd rest (match oldfd with WriteEnd c => Some c | _ => None end)
      else points_to is_fd rest at_start
  | CClose fd :: rest =>
      if is_fd fd then points_to is_fd rest None else points_to is_fd rest at_start
  | CExecvp argv :: rest =>
      match programs env argv with
      | Some _ => at_start
      | None => points_to is_fd rest at_start
      end
  | CExit _ :: _ => at_start
  | CSetrlimit _ _ :: rest => points_to is_fd rest at_start
  end.

Definition connects (is_fd : Fd -> bool) (c : Chan) (steps : list ChildStep) : bool :=
  match points_to is_fd steps None with
  | Some c' => Chan_eqb c' c
  | None => false
  end.

(** What the child writes into pipe [c]: the output of its program on the
    descriptors it has connected to that pipe. *)
Definition reaches (c : Chan) (steps : list ChildStep) (b : Behaviour) : string :=
  match connects is_stdout c steps, connects is_stderr c steps with
  | true, true => writes_stdout b ++ writes_stderr b
  | true, false => writes_stdout b
  | false, true => writes_stderr b
  | false, false => ""
  end.

(** [fork()]: [None] is the return value -1.  The child starts from the
    context it inherits.  What it writes into the two pipes, up to their
    capacity, and what it creates is in place by the time the parent looks
    at it, that is, after [waitpid]; a child that writes more than a pipe
    holds stays blocked in [write]. *)
Definition sys_fork (steps : list ChildStep) : M (option Z) :=
  fun st =>
    if fork_ok env then
      let pid := next_pid st in
      let program := child_behaviour (inherited env) steps in
      let out := reaches OutPipe steps program in
      let err := reaches ErrPipe steps program in
      let b := behind_pipes out err program in
      let st1 := spawn pid b (held out) (held err) (log (EFork (Some pid) steps) st) in
      (Returns (Some pid), set_fs (fold_left (fun acc p => Fs.add p acc) (creates b) (fs st1)) st1)
    else (Returns None, log (EFork None steps) st).

Definition sys_close (fd : Fd) : M unit :=
  fun st => (Returns tt, log (EClose fd) st).

(** [alarm(seconds)], the [int] argument converted to [unsigned]. *)
Definition sys_alarm (seconds : Z) : M unit :=
  fun st => (Returns tt, set_alarm (seconds mod 2 ^ 32) (log (EAlarm seconds) st)).

(** [waitpid(pid, &status, 0)]: [Some status] when the child is reaped,
    [None] for the return value -1. *)
Definition sys_waitpid (pid : Z) : M (option Z) :=
  fun st0 =>
    let st := log (EWaitpid pid) st0 in
    match child st with
    | None => (Returns None, st)
    | Some cp =>
        let b := cp_behaviour cp in
        let reaped status := (Returns (Some status), set_child None st) in
        let undisturbed :=
          match lifetime b with
          | Some _ => reaped (wait_status (ending b))
          | None => (Blocks, st)
          end in
        match cp_killed_by cp with
        | Some sig => reaped (signo sig)
        | None =>
            if (alarm_armed st =? 0) || ends_before b (alarm_armed st) then undisturbed
            else match signals env SIGALRM with
                 | SigDefault => (Killed SIGALRM, st)
                 | SigHandlerInterrupt => (Returns None, set_alarm 0 st)
                 | SigIgnore | SigHandlerRestart => undisturbed
                 end
        end
    end.

Definition sys_kill (pid : Z) (sig : Signal) : M unit :=
  fun st0 =>
    let st := log (EKill pid sig) st0 in
    match child st with
    | Some cp =>
        if fatal sig (cp_behaviour cp) then
          (Returns tt,
           set_child (Some {| cp_pid := cp_pid cp; cp_behaviour := cp_behaviour cp;
                              cp_killed_by := Some sig |}) st)
        else (Returns tt, st)
    | None => (Returns tt, st)
    end.

(** One [read] on the read end of a pipe whose writers are gone: the
    next bytes, at most [buffer_room] of them; the empty string is the
    return value 0. *)
Definition sys_read (c : Chan) : M string :=
  fun st =>
    let chunk := take buffer_room (pipe_data c st) in
    (Returns chunk,
     set_pipe c (drop buffer_room (pipe_data c st)) (log (ERead (ReadEnd c) chunk) st)).

Definition now : M Z :=
  fun st => (Returns (clock_ms env (List.length (trace st))), st).

Definition create_directories (p : string) : M unit :=
  fun st0 =>
    let st := log (ECreateDirectories p) st0 in
    match create_directories_error env with
    | Some what => (Throws what, st)
    | None => (Returns tt, set_fs (Fs.create_directories p (fs st)) st)
    end.

(** [std::ofstream file(path)] followed by [file.is_open()]. *)
Definition ofstream_open (path : string) : M bool :=
  fun st0 =>
    let st := log (EOpen path (ofstream_opens env)) st0 in
    if ofstream_opens env then (Returns true, set_fs (Fs.add path (fs st)) st)
    else (Returns false, st).

Definition ofstream_write (path data : string) : M unit :=
  fun st => (Returns tt, log (EWriteFile path data) st).

Definition fs_exists (p : string) : M bool :=
  fun st => (Returns (Fs.mem p (fs st)), st).

Definition remove_all (p : string) : M unit :=
  fun st0 =>
    let st := log (ERemoveAll p) st0 in
    match remove_all_error env with
    | Some what => (Throws what, st)
    | None => (Returns tt, set_fs (Fs.remove_all p (fs st)) st)
    end.

(** [std::filesystem::absolute(p)] *)
Definition absolute (p : string) : M string :=
  if String.prefix "/" p then ret p
  else cwd <- lift_throwing (current_path env) ;; ret (cwd ++ "/" ++ p).

(** *** ExecutionEngine *)

Definition hex_digit (n : nat) : ascii :=
  nth (n mod 16) (list_ascii_of_string "0123456789abcdef") "0"%char.

Fixpoint draw_hex (count pos : nat) : string :=
  match count with
  | O => EmptyString
  | S count' => String (hex_digit (random_device env pos)) (draw_hex count' (S pos))
  end.

Definition generateSessionId : M string :=
  fun st => (Returns (draw_hex 16 (rng st)), set_rng (rng st + 16) st).

Definition buildCompileCommand (source_file output_file compiler standard optimization : string)
    (debug_info : bool) (extra_flags : list string) : list string :=
  [ if String.eqb compiler "clang++" then clang_path (config env)
    else compiler_path (config env) ]
  ++ [ "-std=" ++ standard ]
  ++ [ "-" ++ optimization ]
  ++ (if debug_info then [ "-g" ] else [])
  ++ [ "-Wall"; "-Wextra"; "-pedantic" ]
  ++ extra_flags
  ++ [ source_file; "-o"; output_file ].

(** The child branch of [executeProcess], between [fork] and the end of
    the process. *)
Definition child_branch (args : list string) : list ChildStep :=
  [ CClose (ReadEnd OutPipe); CClose (ReadEnd ErrPipe);
    CDup2 (WriteEnd OutPipe) STDOUT_FILENO; CDup2 (WriteEnd ErrPipe) STDERR_FILENO;
    CClose (WriteEnd OutPipe); CClose (WriteEnd ErrPipe);
    CExecvp args; CExit 127 ].

(** [while ((bytes_read = read(...)) > 0) { buffer[bytes_read] = 0; out += buffer; }]
    The loop ends at the first empty read; [fuel] bounds the number of
    reads. *)
Fixpoint read_loop (fuel : nat) (c : Chan) (acc : string) : M string :=
  match fuel with
  | O => ret acc
  | S fuel' =>
      chunk <- sys_read c ;;
      if Str.empty chunk then ret acc
      else read_loop fuel' c (acc ++ Str.c_str chunk)
  end.

(** Every read but the last removes at least one byte, so one read more
    than there are bytes reaches the empty read. *)
Definition read_output (c : Chan) : M string :=
  fun st => read_loop (S (String.length (pipe_data c st))) c "" st.

Definition with_output (code : Z) (out err : string) : ProcessResult :=
  {| pr_exit_code := code; pr_stdout := out; pr_stderr := err;
     pr_memory_usage_kb := 0; pr_cpu_time_ms := 0 |}.

Definition executeProcess (args : list string) (timeout_seconds : Z) : M ProcessResult :=
  let result := ProcessResult_default in
  match args with
  | [] => ret result
  | _ :: _ =>
      ok_out <- sys_pipe OutPipe ;;
      if negb ok_out then ret result else
      ok_err <- sys_pipe ErrPipe ;;
      if negb ok_err then ret result else
      pid <- sys_fork (child_branch args) ;;
      match pid with
      | None =>
          sys_close (ReadEnd OutPipe) ;;; sys_close (WriteEnd OutPipe) ;;;
          sys_close (ReadEnd ErrPipe) ;;; sys_close (WriteEnd ErrPipe) ;;;
          ret result
      | Some pid =>
          sys_close (WriteEnd OutPipe) ;;;
          sys_close (WriteEnd ErrPipe) ;;;
          sys_alarm timeout_seconds ;;;
          wait_result <- sys_waitpid pid ;;
          sys_alarm 0 ;;;
          exit_code <- match wait_result with
                       | None =>
                           sys_kill pid SIGTERM ;;;
                           _ <- sys_waitpid pid ;;
                           ret (-1)
                       | Some status => ret (WEXITSTATUS status)
                       end ;;
          out <- read_output OutPipe ;;
          err <- read_output ErrPipe ;;
          sys_close (ReadEnd OutPipe) ;;;
          sys_close (ReadEnd ErrPipe) ;;;
          ret (with_output exit_code out err)
      end
  end.

Definition executeDirectly (executable_path input : string) (options : json) : M ProcessResult :=
  let args := [executable_path] in
  executeProcess args (execution_timeout (config env)).

Definition executeInSandbox (executable_path input : string) (options : json) : M ProcessResult :=
  mount <- absolute executable_path ;;
  let docker_args :=
    [ "docker"; "run"; "--rm"; "-i";
      "--memory=" ++ Str.to_string (max_memory_mb (config env)) ++ "m";
      "--cpus=" ++ Str.to_string (max_cpu_time (config env));
      "--network=none";
      "--user=nobody";
      "-v"; mount ++ ":/app/program:ro";
      docker_image (config env);
      "/app/program" ] in
  executeDirectly executable_path input options.

(** The check [initialize] makes when the sandbox is enabled; the result is
    only logged. *)
Definition initializeDocker : M bool :=
  try_catch
    (docker_check <- executeProcess ["docker"; "--version"] 5 ;;
     if negb (pr_exit_code docker_check =? 0) then ret false
     else
       image_check <-
         executeProcess ["docker"; "images"; "-q"; docker_image (config env)] 5 ;;
       if Str.empty (pr_stdout image_check) then ret false
       else ret true)
    (fun what => ret false).

Definition classify (lists : list string * list string) (line : string)
  : list string * list string :=
  if Str.contains "warning:" line then ((fst lists ++ [line])%list, snd lists)
  else if Str.contains "error:" line then (fst lists, (snd lists ++ [line])%list)
  else lists.

(** The two output vectors are returned as a pair (warnings, errors). *)
Definition parseCompilerMessages (compiler_output : string) (warnings errors : list string)
  : list string * list string :=
  fold_left classify (Str.getlines compiler_output) (warnings, errors).

Definition cleanupSession (session_dir : string) : M unit :=
  try_catch
    (present <- fs_exists session_dir ;;
     if present then remove_all session_dir else ret tt)
    (fun what => ret tt).

(** [for (const auto& flag : options["flags"]) extra_flags.push_back(flag.get<std::string>());] *)
Fixpoint collect_flags (flags : list json) : string + list string :=
  match flags with
  | [] => inr []
  | flag :: rest =>
      match Json.get_string flag with
      | inl what => inl what
      | inr s =>
          match collect_flags rest with
          | inl what => inl what
          | inr ss => inr (s :: ss)
          end
      end
  end.

Definition push_error (result : CompilationResult) (message : string) : CompilationResult :=
  {| cr_success := cr_success result;
     cr_executable_path := cr_executable_path result;
     cr_compilation_time_ms := cr_compilation_time_ms result;
     cr_warnings := cr_warnings result;
     cr_errors := (cr_errors result ++ [message])%list;
     cr_compiler_output := cr_compiler_output result |}.

(** No statement between the first line of the [try] block and the call
    of [executeProcess] changes [result], and nothing after that call is
    modelled as throwing, so the handler sees [result] as initialised. *)
Definition compile (code : string) (options : json) : M CompilationResult :=
  let result := CompilationResult_default in
  start_time <- now ;;
  try_catch
    (session_id <- generateSessionId ;;
     let work_dir := "temp/" ++ session_id in
     create_directories work_dir ;;;
     let source_file := work_dir ++ "/main.cpp" in
     opened <- ofstream_open source_file ;;
     if negb opened then ret (push_error result "Failed to create source file")
     else
       ofstream_write source_file code ;;;
       compiler <- lift_throwing
         (Json.value_string options "compiler" (default_compiler (config env))) ;;
       standard <- lift_throwing
         (Json.value_string options "standard" (cpp_standard (config env))) ;;
       optimization <- lift_throwing
         (Json.value_string options "optimization" (optimization_level (config env))) ;;
       debug_info <- lift_throwing (Json.value_bool options "debug" false) ;;
       extra_flags <-
         (if Json.contains options "flags" && Json.is_array (Json.at_key options "flags")
          then lift_throwing (collect_flags (Json.items (Json.at_key options "flags")))
          else ret []) ;;
       let compile_args :=
         buildCompileCommand source_file (work_dir ++ "/main") compiler standard
                             optimization debug_info extra_flags in
       compile_result <- executeProcess compile_args (compilation_timeout (config env)) ;;
       end_time <- now ;;
       let compiler_output := pr_stderr compile_result ++ pr_stdout compile_result in
       let messages := parseCompilerMessages compiler_output (cr_warnings result) (cr_errors result) in
       if pr_exit_code compile_result =? 0 then
         ret {| cr_success := true;
                cr_executable_path := work_dir ++ "/main";
                cr_compilation_time_ms := end_time - start_time;
                cr_warnings := fst messages;
                cr_errors := snd messages;
                cr_compiler_output := compiler_output |}
       else
         ret {| cr_success := false;
                cr_executable_path := cr_executable_path result;
                cr_compilation_time_ms := end_time - start_time;
                cr_warnings := fst messages;
                cr_errors := snd messages;
                cr_compiler_output := compiler_output |})
    (fun what => ret (push_error result ("Internal compilation error: " ++ what))).

Definition with_error_message (result : ExecutionResult) (message : string) : ExecutionResult :=
  {| er_success := er_success result;
     er_exit_code := er_exit_code result;
     er_stdout := er_stdout result;
     er_stderr := er_stderr result;
     er_execution_time_ms := er_execution_time_ms result;
     er_memory_usage_kb := er_memory_usage_kb result;
     er_cpu_time_ms := er_cpu_time_ms result;
     er_error_message := message |}.

(** ["Compilation failed"] followed by a newline and the text of each
    compilation error. *)
Definition compilation_failed (errors : list string) : string :=
  fold_left (fun message error => message ++ String Str.newline error) errors
            "Compilation failed".

Definition execute (code input : string) (options : json) : M ExecutionResult :=
  let result := ExecutionResult_default in
  try_catch
    (compile_result <- compile code options ;;
     if negb (cr_success compile_result) then
       ret (with_error_message result (compilation_failed (cr_errors compile_result)))
     else
       start_time <- now ;;
       exec_result <-
         (if sandbox_enabled (config env)
          then executeInSandbox (cr_executable_path compile_result) input options
          else executeDirectly (cr_executable_path compile_result) input options) ;;
       end_time <- now ;;
       let success := pr_exit_code exec_result =? 0 in
       let error_message :=
         if negb success && Str.empty (pr_stderr exec_result)
         then "Program exited with code " ++ Str.to_string (pr_exit_code exec_result)
         else er_error_message result in
       cleanupSession (Str.parent_path (cr_executable_path compile_result)) ;;;
       ret {| er_success := success;
              er_exit_code := pr_exit_code exec_result;
              er_stdout := pr_stdout exec_result;
              er_stderr := pr_stderr exec_result;
              er_execution_time_ms := end_time - start_time;
              er_memory_usage_kb := pr_memory_usage_kb exec_result;
              er_cpu_time_ms := pr_cpu_time_ms exec_result;
              er_error_message := error_message |})
    (fun what => ret (with_error_message result ("Internal execution error: " ++ what))).

End Engine.

(** ** Vocabulary of the properties *)

(** [st'] continues the trace of [st] with events that all satisfy [P]. *)
Definition extends (P : Event -> Prop) (st st' : State) : Prop :=
  exists evs, trace st' = (trace st ++ evs)%list /\ Forall P evs.

(** Every path of [st] still exists in [st']. *)
Definition grows (st st' : State) : Prop :=
  forall p, Fs.mem p (fs st) = true -> Fs.mem p (fs st') = true.

(** Whatever the start state, [m] moves it along [R]. *)
Definition respects {A} (R : State -> State -> Prop) (m : M A) : Prop :=
  forall st, R st (snd (m st)).

(** Whenever [m] returns, the value it returns satisfies [Q]. *)
Definition ensures {A} (Q : A -> Prop) (m : M A) : Prop :=
  forall st a st', m st = (Returns a, st') -> Q a.

(** The shapes of the system calls the engine makes. *)
Inductive engine_event : Event -> Prop :=
| ee_pipe_out ok : engine_event (EPipe OutPipe ok)
| ee_pipe_err ok : engine_event (EPipe ErrPipe ok)
| ee_fork pid args : engine_event (EFork pid (child_branch args))
| ee_close fd : engine_event (EClose fd)
| ee_read c data : engine_event (ERead (ReadEnd c) data)
| ee_alarm seconds : engine_event (EAlarm seconds)
| ee_waitpid pid : engine_event (EWaitpid pid)
| ee_kill pid : engine_event (EKill pid SIGTERM)
| ee_create_directories p : engine_event (ECreateDirectories p)
| ee_open p ok : engine_event (EOpen p ok)
| ee_write_file p data : engine_event (EWriteFile p data)
| ee_remove_all p : engine_event (ERemoveAll p).

Definition is_removal (e : Event) : bool :=
  match e with ERemoveAll _ => true | _ => false end.

Definition is_fork (e : Event) : bool :=
  match e with EFork _ _ => true | _ => false end.

(** The child connects its standard input to something. *)
Definition redirects_stdin (s : ChildStep) : bool :=
  match s with CDup2 _ STDIN_FILENO => true | _ => false end.

(** The child installs a resource limit. *)
Definition sets_limit (s : ChildStep) : bool :=
  match s with CSetrlimit _ _ => true | _ => false end.

(** The event sets up or feeds a standard input for the child. *)
Definition feeds_stdin (e : Event) : bool :=
  match e with
  | EPipe InPipe _ => true
  | EWrite _ _ => true
  | EFork _ steps => existsb redirects_stdin steps
  | _ => false
  end.

(** The event installs a memory or CPU ceiling on the child. *)
Definition installs_limit (e : Event) : bool :=
  match e with
  | EFork _ steps => existsb sets_limit steps
  | _ => false
  end.

(** The event forces the child to end. *)
Definition is_sigkill (e : Event) : bool :=
  match e with EKill _ SIGKILL => true | _ => false end.

(** The same environment with the sandbox switched on or off. *)
Definition with_sandbox (enabled : bool) (env : Env) : Env :=
  {| config :=
       {| compiler_path := compiler_path (config env);
          clang_path := clang_path (config env);
          default_compiler := default_compiler (config env);
          cpp_standard := cpp_standard (config env);
          optimization_level := optimization_level (config env);
          compilation_timeout := compilation_timeout (config env);
          sandbox_enabled := enabled;
          execution_timeout := execution_timeout (config env);
          max_memory_mb := max_memory_mb (config env);
          max_cpu_time := max_cpu_time (config env);
          docker_image := docker_image (config env) |};
     random_device := random_device env;
     clock_ms := clock_ms env;
     create_directories_error := create_directories_error env;
     ofstream_opens := ofstream_opens env;
     remove_all_error := remove_all_error env;
     current_path := current_path env;
     pipe_ok := pipe_ok env;
     fork_ok := fork_ok env;
     signals := signals env;
     server_stdin := server_stdin env;
     programs := programs env |}.

(** A boolean member of the outcome that is set on every run made with the
    sandbox requested and carried out on the host. *)
Definition records_degraded_isolation (flag : ExecutionResult -> bool) : Prop :=
  forall env code input options st r st',
    sandbox_enabled (config env) = true ->
    execute env code input options st = (Returns r, st') ->
    flag r = true.

(** ** Sample runs *)

Module Sample.

Definition program (life : option nat) (e : Termination) (out err : string)
    (files : list string) (deaf : bool) : Behaviour :=
  {| lifetime := life; ending := e; writes_stdout := out; writes_stderr := err;
     creates := files; ignores_sigterm := deaf |}.

(** The random device yields 0, 1, 2, ...: the first session is
    [0123456789abcdef]. *)
Definition session : string := "temp/0123456789abcdef".

(** A machine on which every system call succeeds, docker is not
    installed and the server has an empty standard input; a command line of
    one word runs [user], any longer one runs [compiler]. *)
Definition machine (cfg : Config) (sig : Signal -> Disposition)
    (compiler : Behaviour) (user : Context -> Behaviour) : Env :=
  {| config := cfg;
     random_device := fun n => n;
     clock_ms := fun n => Z.of_nat n;
     create_directories_error := None;
     ofstream_opens := true;
     remove_all_error := None;
     current_path := inr "/srv/engine";
     pipe_ok := fun _ => true;
     fork_ok := true;
     signals := sig;
     server_stdin := "";
     programs := fun argv =>
                   match argv with
                   | [] => None
                   | [_] => Some user
                   | command :: _ =>
                       if String.eqb command "docker" then None else Some (fun _ => compiler)
                   end |}.

(** g++ accepting the source: it exits 0 and leaves the binary. *)
Definition gxx_ok : Behaviour :=
  program (Some 1%nat) (Exited 0) "" "" [session ++ "/main"] false.

(** g++ rejecting the source with the given diagnostics on stderr. *)
Definition gxx_fails (diagnostics : string) : Behaviour :=
  program (Some 1%nat) (Exited 1) "" diagnostics [] false.

Definition missing_semicolon : string :=
  "main.cpp:4:44: error: expected ';' before 'return'" ++ String Str.newline
  "    4 |             std::cout << 1" ++ String Str.newline "".

(** What g++ prints for [#error warning: do not build this]. *)
Definition error_directive : string :=
  "main.cpp:1:2: error: #error warning: do not build this" ++ String Str.newline "".

Definition hello : Behaviour := program (Some 0%nat) (Exited 0) "Hello, World!" "" [] false.
Definition exits_3 : Behaviour := program (Some 0%nat) (Exited 3) "" "" [] false.
Definition complains : Behaviour := program (Some 0%nat) (Exited 3) "" "bad input" [] false.

(** [while (true) {}] *)
Definition loops : Behaviour := program None (Exited 0) "" "" [] false.

(** [signal(SIGTERM, SIG_IGN); while (true) {}] *)
Definition loops_deaf : Behaviour := program None (Exited 0) "" "" [] true.

(** [int x; std::cout << "Enter number: "; std::cin >> x;
    std::cout << "You entered: " << x << std::endl;] with a number on its
    standard input; without one the extraction fails and [x] is 0. *)
Definition reads_number (ctx : Context) : Behaviour :=
  program (Some 0%nat) (Exited 0)
          ("Enter number: You entered: "
             ++ (if Str.empty (stdin_bytes ctx) then "0"
                 else match Str.getlines (stdin_bytes ctx) with
                      | number :: _ => number
                      | [] => "0"
                      end)
             ++ String Str.newline "")
          "" [] false.

(** [std::vector<int> huge_vector(1000000000);] inside [try], as in the
    test HandleResourceLimits: 4 GB are needed; under a smaller limit on
    the address space the allocation throws. *)
Definition allocates_4GB (ctx : Context) : Behaviour :=
  if existsb (fun limit => match limit with
                           | (RLIMIT_AS, bytes) => bytes <? 4000000000
                           | _ => false
                           end) (limits ctx)
  then program (Some 0%nat) (Exited 0)
               ("Allocation failed: std::bad_alloc" ++ String Str.newline "") "" [] false
  else program (Some 1%nat) (Exited 0)
               ("Allocated successfully" ++ String Str.newline "") "" [] false.

(** The server as main.cpp sets it up, with the default configuration,
    running a program that pays no attention to its context... *)
Definition server (compiler user : Behaviour) : Env :=
  machine Config_defaults server_signals compiler (fun _ => user).

(** ...or one that does. *)
Definition server_running (compiler : Behaviour) (user : Context -> Behaviour) : Env :=
  machine Config_defaults server_signals compiler user.

(** The same with a SIGALRM handler that interrupts [waitpid]. *)
Definition server_with_alarm_handler (compiler user : Behaviour) : Env :=
  machine Config_defaults
          (fun s => match s with SIGALRM => SigHandlerInterrupt | _ => server_signals s end)
          compiler (fun _ => user).

Definition source : string := "int main() { return 0; }".

End Sample.

(** ** Start-up of the engine (execution_engine.cpp, [initialize] and its helpers) *)

Section Startup.

Variable env : Env.

(** [for (const auto& dir : directories) if (!exists(dir)) create_directories(dir);] *)
Fixpoint create_missing (directories : list string) : M unit :=
  match directories with
  | [] => ret tt
  | dir :: rest =>
      present <- fs_exists dir ;;
      (if negb present then create_directories env dir else ret tt) ;;;
      create_missing rest
  end.

Definition createDirectories : M unit :=
  create_missing ["temp"; "cache"; "logs"].

(** Only the absence of [compiler_path] fails the check; that of
    [clang_path] is logged. *)
Definition validateCompilers : M bool :=
  gxx <- fs_exists (compiler_path (config env)) ;;
  if negb gxx then ret false
  else
    clang <- fs_exists (clang_path (config env)) ;;
    ret true.

Definition dquote : ascii := "034"%char.

(** The raw string literal of [testCompilation]. *)
Definition test_code : string :=
  String Str.newline "#include <iostream>"
  ++ String Str.newline "int main() {"
  ++ String Str.newline "    std::cout << " ++ String dquote "Hello, World!" ++ String dquote " << std::endl;"
  ++ String Str.newline "    return 0;"
  ++ String Str.newline "}"
  ++ String Str.newline "".

(** [nlohmann::json options;] is the value [null]. *)
Definition testCompilation : M bool :=
  try_catch
    (let options := JNull in
     result <- compile env test_code options ;;
     if negb (cr_success result) then ret false else ret true)
    (fun what => ret false).

(** The member [initialized_] is passed in, and its value after the call
    is returned beside the result. *)
Definition initialize (initialized_ : bool) : M (bool * bool) :=
  if initialized_ then ret (true, initialized_)
  else
    try_catch
      (createDirectories ;;;
       valid <- validateCompilers ;;
       if negb valid then ret (false, initialized_)
       else
         (if sandbox_enabled (config env)
          then docker <- initializeDocker env ;; ret tt
          else ret tt) ;;;
         tested <- testCompilation ;;
         if negb tested then ret (false, initialized_)
         else ret (true, true))
      (fun what => ret (false, initialized_)).

End Startup.

(** ** More vocabulary *)

(** The characters a session id is made of. *)
Definition hex_alphabet : list ascii := list_ascii_of_string "0123456789abcdef".

(** The process an event starts, if it starts one, is started by the
    command line [argv] satisfying [ok]. *)
Definition starts_only (ok : list string -> Prop) (e : Event) : Prop :=
  forall pid steps, e = EFork pid steps -> exists argv, steps = child_branch argv /\ ok argv.

(** A command line of one of the two configured compilers for the files
    of a session: its first word is the configured path of g++ or of
    clang++, and its last three words are the source file
    [temp/<id>/main.cpp], [-o] and the output file [temp/<id>/main] of one
    and the same session id drawn from the random device. *)
Definition compiler_command (env : Env) (argv : list string) : Prop :=
  exists exe middle n,
    argv = exe :: List.app middle ["temp/" ++ draw_hex env 16 n ++ "/main.cpp"; "-o";
                                   "temp/" ++ draw_hex env 16 n ++ "/main"] /\
    (exe = compiler_path (config env) \/ exe = clang_path (config env)).

(** The state after start-up on a machine that has the compiler. *)
Definition with_file (path : string) (st : State) : State :=
  set_fs (Fs.add path (fs st)) st.

(** The same environment on which [pipe] and [fork] fail as given. *)
Definition with_syscalls (pipes : Chan -> bool) (forks : bool) (env : Env) : Env :=
  {| config := config env;
     random_device := random_device env;
     clock_ms := clock_ms env;
     create_directories_error := create_directories_error env;
     ofstream_opens := ofstream_opens env;
     remove_all_error := remove_all_error env;
     current_path := current_path env;
     pipe_ok := pipes;
     fork_ok := forks;
     signals := signals env;
     server_stdin := server_stdin env;
     programs := programs env |}.


(** What a step that only adds to the trace leaves alone: the child, the
    alarm and the files. *)
Definition undisturbed (a b : State) : Prop :=
  child b = child a /\ alarm_armed b = alarm_armed a /\ fs b = fs a /\
  exists evs, trace b = (trace a ++ evs)%list.

(** No child waits to be reaped and no alarm is pending. *)
Definition idle (st : State) : Prop := child st = None /\ alarm_armed st = 0.

(** The same environment on which creating a directory and opening a
    file for writing fail as given. *)
Definition with_filesystem (directories : option string) (opens : bool) (env : Env) : Env :=
  {| config := config env;
     random_device := random_device env;
     clock_ms := clock_ms env;
     create_directories_error := directories;
     ofstream_opens := opens;
     remove_all_error := remove_all_error env;
     current_path := current_path env;
     pipe_ok := pipe_ok env;
     fork_ok := fork_ok env;
     signals := signals env;
     server_stdin := server_stdin env;
     programs := programs env |}.

(** The binary of a session: [temp/<id>/main] for an id drawn from the
    random device. *)
Definition session_binary (env : Env) (argv : list string) : Prop :=
  exists n, argv = ["temp/" ++ draw_hex env 16 n ++ "/main"].

(** ** The HTTP handlers of the engine (server.cpp) *)

(** [j.value(key, default_value)] at type [json]. *)
Definition value_json (j : json) (key : string) (default_value : json) : string + json :=
  match j with
  | JObject members =>
      match Json.lookup key members with
      | Some v => inr v
      | None => inr default_value
      end
  | _ => inl (Json.type_error_306 j)
  end.

(** What a handler reads of the request and writes of the response.  The
    body of a response is kept as the JSON value that [dump] is applied
    to. *)
Record Request := { req_body : string }.

Record Response := {
  res_status : Z;
  res_body : json;
  res_content_type : string
}.

Section Handlers.

Variable env : Env.

(** The library calls of the handlers: [json::parse] ([inl]: a
    [parse_error] is thrown), [basic_json::dump], which throws a type error
    on a string that is not UTF-8 ([Some]: the text of the exception), and
    the system clock after so many system calls. *)
Variable json_parse : string -> string + json.
Variable dump_throws : json -> option string.
Variable system_clock_ms : nat -> Z.

(** [res.set_content(j.dump(2), "application/json")] *)
Definition set_content_json (res : Response) (j : json) : M Response :=
  match dump_throws j with
  | Some what => throw what
  | None => ret {| res_status := res_status res; res_body := j;
                   res_content_type := "application/json" |}
  end.

Definition sendErrorResponse (res : Response) (status_code : Z) (message : string)
  : M Response :=
  fun st =>
    let error :=
      JObject [ ("error", JBool true);
                ("status_code", JNumber status_code);
                ("message", JString message);
                ("timestamp", JNumber (system_clock_ms (List.length (trace st)))) ] in
    set_content_json {| res_status := status_code; res_body := res_body res;
                        res_content_type := res_content_type res |} error st.

Definition strings (l : list string) : json := JArray (map JString l).

Definition compile_response (result : CompilationResult) : json :=
  JObject [ ("success", JBool (cr_success result));
            ("executable_path", JString (cr_executable_path result));
            ("compilation_time_ms", JNumber (cr_compilation_time_ms result));
            ("warnings", strings (cr_warnings result));
            ("errors", strings (cr_errors result));
            ("compiler_output", JString (cr_compiler_output result)) ].

(** The object of [handleExecute], with the member [error] added when the
    run did not succeed. *)
Definition execute_response (result : ExecutionResult) : json :=
  JObject ([ ("success", JBool (er_success result));
             ("exit_code", JNumber (er_exit_code result));
             ("stdout", JString (er_stdout result));
             ("stderr", JString (er_stderr result));
             ("execution_time_ms", JNumber (er_execution_time_ms result));
             ("memory_usage_kb", JNumber (er_memory_usage_kb result));
             ("cpu_time_ms", JNumber (er_cpu_time_ms result)) ]
           ++ (if negb (er_success result)
               then [ ("error", JString (er_error_message result)) ]
               else []))%list.

(** The clause for [json::parse_error] catches what [json::parse] throws;
    every other exception of the [try] block (a type error of the JSON
    library) goes to the clause for [std::exception]. *)
Definition handleCompile (req : Request) (res : Response) : M Response :=
  match json_parse (req_body req) with
  | inl parse_error => sendErrorResponse res 400 "Invalid JSON in request body"
  | inr request_json =>
      try_catch
        (if negb (Json.contains request_json "code") then
           sendErrorResponse res 400 "Missing 'code' field in request body"
         else
           code <- lift_throwing (Json.get_string (Json.at_key request_json "code")) ;;
           options <- lift_throwing (value_json request_json "options" (JObject [])) ;;
           result <- compile env code options ;;
           set_content_json res (compile_response result))
        (fun what => sendErrorResponse res 500 ("Compilation failed: " ++ what))
  end.

Definition handleExecute (req : Request) (res : Response) : M Response :=
  match json_parse (req_body req) with
  | inl parse_error => sendErrorResponse res 400 "Invalid JSON in request body"
  | inr request_json =>
      try_catch
        (if negb (Json.contains request_json "code") then
           sendErrorResponse res 400 "Missing 'code' field in request body"
         else
           code <- lift_throwing (Json.get_string (Json.at_key request_json "code")) ;;
           input <- lift_throwing (Json.value_string request_json "input" "") ;;
           options <- lift_throwing (value_json request_json "options" (JObject [])) ;;
           result <- execute env code input options ;;
           set_content_json res (execute_response result))
        (fun what => sendErrorResponse res 500 ("Execution failed: " ++ what))
  end.

End Handlers.

(** A request the handlers turn down before they call the engine: its
    body is no JSON, or has no member [code], or one that is no string. *)
Definition turned_down (json_parse : string -> string + json) (req : Request) : Prop :=
  match json_parse (req_body req) with
  | inl _ => True
  | inr request_json =>
      Json.contains request_json "code" = false \/
      (forall code, Json.at_key request_json "code" <> JString code)
  end.

(** A response as the HTTP library hands it to a handler. *)
Definition fresh_response : Response :=
  {| res_status := -1; res_body := JNull; res_content_type := "" |}.

(** The same environment with the given answer of
    [std::filesystem::current_path]. *)
Definition with_filesystem_cwd (cwd : string + string) (env : Env) : Env :=
  {| config := config env;
     random_device := random_device env;
     clock_ms := clock_ms env;
     create_directories_error := create_directories_error env;
     ofstream_opens := ofstream_opens env;
     remove_all_error := remove_all_error env;
     current_path := cwd;
     pipe_ok := pipe_ok env;
     fork_ok := fork_ok env;
     signals := signals env;
     server_stdin := server_stdin env;
     programs := programs env |}.

Fixpoint many (n : nat) (c : ascii) : string :=
  match n with
  | O => EmptyString
  | S n' => String c (many n' c)
  end.

(** [for (int i = 0; i < 70000; ++i) std::cout << 'x';] *)
Definition floods : Behaviour :=
  Sample.program (Some 0%nat) (Exited 0) (many (Z.to_nat 70000) "x") "" [] false.

(** * Properties *)

(** ** Strings *)

Lemma append_assoc (a b c : string) : (a ++ b) ++ c = a ++ (b ++ c).
Proof. induction a as [|x a IH]; simpl; [reflexivity | now rewrite IH]. Qed.

Lemma append_nil_r (a : string) : a ++ "" = a.
Proof. induction a as [|x a IH]; simpl; [reflexivity | now rewrite IH]. Qed.

Lemma prefix_iff (p s : string) :
  String.prefix p s = true <-> exists t, s = p ++ t.
Proof.
  revert s; induction p as [|a p IH]; intros s.
  - split; [intros _; exists s; reflexivity | intros _; destruct s; reflexivity].
  - destruct s as [|b s]; simpl.
    + split; [discriminate | intros [t Ht]; discriminate].
    + destruct (ascii_dec a b) as [->|Hab].
      * rewrite IH. split; intros [t Ht]; exists t; [now rewrite Ht | now inversion Ht].
      * split; [discriminate | intros [t Ht]; congruence].
Qed.

Lemma find_from_occurrence (pat s : string) (i j : nat) :
  Str.find_from pat s i = Some j -> exists pre post, s = pre ++ pat ++ post.
Proof.
  revert i; induction s as [|c s IH]; intros i; cbn [Str.find_from].
  - destruct (String.prefix pat "") eqn:E; [|discriminate].
    intros _. apply prefix_iff in E. destruct E as [t Ht]. exists "", t. exact Ht.
  - destruct (String.prefix pat (String c s)) eqn:E.
    + intros _. apply prefix_iff in E. destruct E as [t Ht]. exists "", t. exact Ht.
    + intros H. apply IH in H. destruct H as (pre & post & ->).
      exists (String c pre), post. reflexivity.
Qed.

Lemma find_from_finds (pat pre post : string) (i : nat) :
  Str.find_from pat (pre ++ pat ++ post) i <> None.
Proof.
  revert i; induction pre as [|c pre IH]; intros i.
  - assert (E : String.prefix pat (pat ++ post) = true)
      by (apply prefix_iff; exists post; reflexivity).
    change ("" ++ pat ++ post) with (pat ++ post).
    destruct (pat ++ post); cbn [Str.find_from]; rewrite E; discriminate.
  - change (String c pre ++ pat ++ post) with (String c (pre ++ pat ++ post)).
    cbn [Str.find_from].
    destruct (String.prefix pat (String c (pre ++ pat ++ post))); [discriminate | apply IH].
Qed.

(** [contains] is the substring test. *)
Lemma contains_iff (pat s : string) :
  Str.contains pat s = true <-> exists pre post, s = pre ++ pat ++ post.
Proof.
  unfold Str.contains, Str.find. split.
  - destruct (Str.find_from pat s 0) eqn:E; [|discriminate].
    intros _. eapply find_from_occurrence; eassumption.
  - intros (pre & post & ->).
    destruct (Str.find_from pat (pre ++ pat ++ post) 0) eqn:E; [reflexivity|].
    exfalso. eapply find_from_finds; eassumption.
Qed.

Lemma empty_iff (s : string) : Str.empty s = true <-> s = "".
Proof. destruct s; simpl; split; congruence. Qed.

Example to_string_zero : Str.to_string 0 = "0".
Proof. reflexivity. Qed.

Example to_string_segv : Str.to_string 139 = "139".
Proof. reflexivity. Qed.

Example to_string_sentinel : Str.to_string (-1) = "-1".
Proof. reflexivity. Qed.

Example getlines_blank_line :
  Str.getlines ("a" ++ String Str.newline (String Str.newline "b")) = ["a"; ""; "b"].
Proof. reflexivity. Qed.

Example getlines_final_newline : Str.getlines (String "a" (String Str.newline "")) = ["a"].
Proof. reflexivity. Qed.

Example parent_path_of_binary : Str.parent_path "temp/0123456789abcdef/main" = Sample.session.
Proof. reflexivity. Qed.

Example WEXITSTATUS_exit_3 : WEXITSTATUS (wait_status (Exited 3)) = 3.
Proof. reflexivity. Qed.

Example WEXITSTATUS_segfault : WEXITSTATUS (wait_status (Signaled SIGSEGV)) = 0.
Proof. reflexivity. Qed.

(** ** The monad *)

Lemma bind_returns {A B} (m : M A) (k : A -> M B) st b st' :
  bind m k st = (Returns b, st') ->
  exists a s, m st = (Returns a, s) /\ k a s = (Returns b, st').
Proof.
  unfold bind. destruct (m st) as [[a| | |] s]; try discriminate.
  intros H. exists a, s. split; [reflexivity | exact H].
Qed.

Lemma try_catch_returns {A} (body : M A) (handler : string -> M A) st a st' :
  try_catch body handler st = (Returns a, st') ->
  body st = (Returns a, st') \/
  exists what s, body st = (Throws what, s) /\ handler what s = (Returns a, st').
Proof.
  unfold try_catch. destruct (body st) as [[x| | |] s]; try discriminate.
  - intros H. left. exact H.
  - intros H. right. eauto.
Qed.

Lemma lift_throwing_returns {A} (r : string + A) st a st' :
  lift_throwing r st = (Returns a, st') -> r = inr a /\ st' = st.
Proof. destruct r; cbn; intros H; inversion H; auto. Qed.

Lemma ret_returns {A} (x a : A) st st' :
  ret x st = (Returns a, st') -> a = x /\ st' = st.
Proof. cbv [ret]; intros H; inversion H; auto. Qed.

(** ** The process runner on an empty command line *)

(** C9: called with an empty argument vector, the process runner returns a
    result with exit code -1 and empty standard output and standard error,
    and it makes no system call at all: the state, and with it the trace
    and the table of children, is the one it was given, so no child is
    spawned. *)
Theorem executeProcess_empty_args (env : Env) (timeout_seconds : Z) (st : State) :
  executeProcess env [] timeout_seconds st =
    (Returns {| pr_exit_code := -1; pr_stdout := ""; pr_stderr := "";
                pr_memory_usage_kb := 0; pr_cpu_time_ms := 0 |},
     st).
Proof. reflexivity. Qed.

(** ** The coordinator *)

Lemma cleanupSession_returns (env : Env) (dir : string) (st : State) :
  exists st', cleanupSession env dir st = (Returns tt, st').
Proof.
  unfold cleanupSession, try_catch, bind, fs_exists, remove_all, ret.
  destruct (Fs.mem dir (fs st)); [|eauto].
  destruct (remove_all_error env); eauto.
Qed.

Lemma compilation_failed_append (errors : list string) (message : string) :
  fold_left (fun message error => message ++ String Str.newline error) errors message =
  message ++ fold_right (fun error rest => String Str.newline error ++ rest) "" errors.
Proof.
  revert message; induction errors as [|e errors IH]; intros message; simpl.
  - now rewrite append_nil_r.
  - rewrite IH, append_assoc. reflexivity.
Qed.

Lemma compilation_failed_carries (errors : list string) (error : string) :
  In error errors -> Str.contains error (compilation_failed errors) = true.
Proof.
  unfold compilation_failed. intros Hin. apply contains_iff.
  generalize "Compilation failed" as message.
  induction errors as [|e errors IH]; intros message; [contradiction|].
  destruct Hin as [->|Hin].
  - simpl. rewrite compilation_failed_append.
    exists (message ++ String Str.newline ""),
           (fold_right (fun error rest => String Str.newline error ++ rest) "" errors).
    rewrite !append_assoc. reflexivity.
  - simpl. apply IH. exact Hin.
Qed.

(** C6, as the code has it: when compilation fails, [execute] returns a
    result with [success = false] whose error message is "Compilation
    failed" followed by the entries of the [errors] of the compilation, and
    by nothing else: the warnings and the compiler output are not in the
    result, whose other members are the initial ones (empty standard output
    and standard error).  And it stops there: the state it leaves is the
    state [compile] left, so nothing is spawned or run after the
    compiler. *)
Theorem execute_skips_failed_compilation
    (env : Env) (code input : string) (options : json) (st : State)
    (cr : CompilationResult) (st1 : State) :
  compile env code options st = (Returns cr, st1) ->
  cr_success cr = false ->
  exists r,
    execute env code input options st = (Returns r, st1) /\
    er_success r = false /\
    er_error_message r = compilation_failed (cr_errors cr) /\
    (forall error, In error (cr_errors cr) -> Str.contains error (er_error_message r) = true) /\
    r = with_error_message ExecutionResult_default (compilation_failed (cr_errors cr)).
Proof.
  intros Hcompile Hfailed.
  exists (with_error_message ExecutionResult_default (compilation_failed (cr_errors cr))).
  split; [|split; [reflexivity|split; [reflexivity|split; [|reflexivity]]]].
  - cbv beta delta [execute try_catch bind] iota zeta. rewrite Hcompile, Hfailed. reflexivity.
  - intros error Hin. apply compilation_failed_carries. exact Hin.
Qed.

(** The session of a missing semicolon: the compiler exits 1, the run
    reports the diagnostic and starts one process only. *)
Lemma execute_skips_failed_compilation_witness :
  exists r st1,
    execute (Sample.server (Sample.gxx_fails Sample.missing_semicolon) Sample.hello)
            Sample.source "" (JObject []) initial_state = (Returns r, st1) /\
    er_success r = false /\
    Str.contains "main.cpp:4:44: error: expected ';' before 'return'" (er_error_message r) = true /\
    List.length (filter is_fork (trace st1)) = 1%nat.
Proof.
  pose (env := Sample.server (Sample.gxx_fails Sample.missing_semicolon) Sample.hello).
  edestruct (execute_skips_failed_compilation env Sample.source "" (JObject []) initial_state)
    as (r & Hrun & Hfalse & Hmessage & Hcarries & _).
  - vm_compute. reflexivity.
  - reflexivity.
  - exists r. eexists. split; [exact Hrun|]. split; [exact Hfalse|]. split.
    + apply Hcarries. simpl. left. reflexivity.
    + reflexivity.
Defined.

(** C6 as stated fails: g++ rejects [#error warning: do not build this]
    with a diagnostic that [compile] files under the warnings, so the
    failed compilation has no entry in [errors]; the result of [execute]
    says "Compilation failed" and carries nothing of what the compiler
    said. *)
Lemma execute_failed_compilation_drops_diagnostics :
  exists cr st1 r,
    compile (Sample.server (Sample.gxx_fails Sample.error_directive) Sample.hello)
            Sample.source (JObject []) initial_state = (Returns cr, st1) /\
    cr_success cr = false /\
    cr_compiler_output cr = Sample.error_directive /\
    cr_warnings cr = ["main.cpp:1:2: error: #error warning: do not build this"] /\
    execute (Sample.server (Sample.gxx_fails Sample.error_directive) Sample.hello)
            Sample.source "" (JObject []) initial_state = (Returns r, st1) /\
    er_success r = false /\
    er_error_message r = "Compilation failed" /\
    Str.contains "do not build this" (er_error_message r) = false /\
    er_stdout r = "" /\ er_stderr r = "".
Proof.
  eexists. eexists. eexists. split; [vm_compute; reflexivity|].
  split; [reflexivity|]. split; [vm_compute; reflexivity|]. split; [vm_compute; reflexivity|].
  split; [vm_compute; reflexivity|].
  split; [reflexivity|]. split; [reflexivity|]. split; [vm_compute; reflexivity|].
  split; reflexivity.
Qed.

(** C10: on the path where compilation succeeded and the program was run
    and waited for, a nonzero exit code together with an empty standard
    error yields the error message "Program exited with code " followed by
    the exit code in decimal; an exit code of 0, or a non-empty standard
    error, leaves the error message empty. *)
Theorem execute_error_message
    (env : Env) (code input : string) (options : json) (st : State)
    (cr : CompilationResult) (st1 : State) (pr : ProcessResult) (st2 : State) :
  compile env code options st = (Returns cr, st1) ->
  cr_success cr = true ->
  (if sandbox_enabled (config env)
   then executeInSandbox env (cr_executable_path cr) input options
   else executeDirectly env (cr_executable_path cr) input options) st1 = (Returns pr, st2) ->
  exists r st3,
    execute env code input options st = (Returns r, st3) /\
    er_exit_code r = pr_exit_code pr /\
    er_stderr r = pr_stderr pr /\
    (pr_exit_code pr <> 0 -> pr_stderr pr = "" ->
     er_error_message r = "Program exited with code " ++ Str.to_string (pr_exit_code pr)) /\
    (pr_exit_code pr = 0 \/ pr_stderr pr <> "" -> er_error_message r = "").
Proof.
  intros Hcompile Hsuccess Hrun.
  destruct (cleanupSession_returns env (Str.parent_path (cr_executable_path cr)) st2)
    as [st3 Hclean].
  eexists. exists st3. split.
  - cbv beta delta [execute try_catch bind now] iota zeta.
    rewrite Hcompile, Hsuccess. cbv beta iota delta [negb].
    rewrite Hrun. cbv beta iota. rewrite Hclean. reflexivity.
  - cbn [er_exit_code er_stderr er_error_message]. repeat split.
    + intros Hcode Herr. rewrite Herr.
      apply Z.eqb_neq in Hcode. rewrite Hcode. reflexivity.
    + intros [Hcode|Herr].
      * rewrite Hcode. reflexivity.
      * destruct (pr_stderr pr); [congruence|].
        cbn. rewrite andb_false_r. reflexivity.
Qed.

(** A program that exits with status 3 and prints nothing. *)
Lemma execute_error_message_witness :
  exists r st3,
    execute (Sample.server Sample.gxx_ok Sample.exits_3)
            Sample.source "" (JObject []) initial_state = (Returns r, st3) /\
    er_exit_code r = 3 /\
    er_error_message r = "Program exited with code 3".
Proof.
  pose (env := Sample.server Sample.gxx_ok Sample.exits_3).
  edestruct (execute_error_message env Sample.source "" (JObject []) initial_state)
    as (r & st3 & Hrun & Hcode & Herr & Hnonzero & _).
  - vm_compute. reflexivity.
  - reflexivity.
  - vm_compute. reflexivity.
  - exists r, st3. split; [exact Hrun|]. split; [exact Hcode|].
    apply Hnonzero; [discriminate | reflexivity].
Defined.

(** The same exit status with a complaint on standard error: the error
    message stays empty. *)
Example execute_error_message_with_stderr :
  exists r st3,
    execute (Sample.server Sample.gxx_ok Sample.complains)
            Sample.source "" (JObject []) initial_state = (Returns r, st3) /\
    er_exit_code r = 3 /\
    er_stderr r = "bad input" /\
    er_error_message r = "".
Proof.
  eexists. eexists. split; [vm_compute; reflexivity|].
  split; [vm_compute; reflexivity|]. split; vm_compute; reflexivity.
Qed.

(** ** Compilation *)

Ltac invert_run :=
  repeat match goal with
  | H : bind _ _ _ = (Returns _, _) |- _ =>
      let a := fresh "a" in let s := fresh "s" in
      let H1 := fresh "H" in let H2 := fresh "H" in
      apply bind_returns in H; destruct H as (a & s & H1 & H2)
  | H : ret _ _ = (Returns _, _) |- _ => apply ret_returns in H; destruct H; subst
  | H : lift_throwing _ _ = (Returns _, _) |- _ =>
      apply lift_throwing_returns in H; destruct H; subst
  | H : now _ _ = (Returns _, _) |- _ => cbv [now] in H; inversion H; subst; clear H
  end.

Lemma Fs_mem_add (q p : string) (f : list string) :
  Fs.mem q (Fs.add p f) = Fs.mem q f || String.eqb q p.
Proof.
  unfold Fs.add. destruct (Fs.mem p f) eqn:E.
  - destruct (String.eqb_spec q p) as [->|]; [now rewrite E | now rewrite orb_false_r].
  - unfold Fs.mem. rewrite existsb_app. simpl. now rewrite orb_false_r.
Qed.

Lemma Fs_mem_fold_add (l f : list string) (q : string) :
  In q l \/ Fs.mem q f = true ->
  Fs.mem q (fold_left (fun acc d => Fs.add d acc) l f) = true.
Proof.
  revert f; induction l as [|d l IH]; intros f [Hin|Hmem]; simpl.
  - contradiction.
  - exact Hmem.
  - apply IH. destruct Hin as [->|Hin]; [right | now left].
    rewrite Fs_mem_add, String.eqb_refl. apply orb_true_r.
  - apply IH. right. rewrite Fs_mem_add, Hmem. reflexivity.
Qed.

Lemma Fs_chain_last (seen p : string) : In (seen ++ p) (Fs.chain seen p).
Proof.
  revert seen; induction p as [|c p IH]; intros seen; simpl.
  - left. symmetry. apply append_nil_r.
  - destruct (Ascii.eqb_spec c Str.slash) as [->|_].
    + right. specialize (IH (seen ++ "/")). rewrite append_assoc in IH. exact IH.
    + specialize (IH (seen ++ String c "")). rewrite append_assoc in IH. exact IH.
Qed.

Lemma Fs_mem_create_directories (p : string) (f : list string) :
  Fs.mem p (Fs.create_directories p f) = true.
Proof.
  unfold Fs.create_directories. apply Fs_mem_fold_add. left.
  exact (Fs_chain_last "" p).
Qed.

Lemma generateSessionId_returns (env : Env) st a s :
  generateSessionId env st = (Returns a, s) ->
  a = draw_hex env 16 (rng st) /\ s = set_rng (rng st + 16) st.
Proof. unfold generateSessionId. intros H. injection H as <- <-. auto. Qed.

Lemma create_directories_returns (env : Env) p st a s :
  create_directories env p st = (Returns a, s) ->
  s = set_fs (Fs.create_directories p (fs st)) (log (ECreateDirectories p) st).
Proof.
  unfold create_directories. destruct (create_directories_error env); [discriminate|].
  intros H. injection H as _ <-. reflexivity.
Qed.

Lemma ofstream_open_returns (env : Env) p st s :
  ofstream_open env p st = (Returns true, s) ->
  s = set_fs (Fs.add p (fs (log (EOpen p true) st))) (log (EOpen p true) st).
Proof.
  unfold ofstream_open. destruct (ofstream_opens env); intros H.
  - injection H as <-. reflexivity.
  - discriminate.
Qed.

Lemma ofstream_write_returns p data st a s :
  ofstream_write p data st = (Returns a, s) -> s = log (EWriteFile p data) st.
Proof. unfold ofstream_write. intros H. injection H as _ <-. reflexivity. Qed.

Lemma compile_cases (env : Env) (code : string) (options : json) (st : State)
    (cr : CompilationResult) (st' : State) :
  compile env code options st = (Returns cr, st') ->
  (exists message, cr = push_error CompilationResult_default message) \/
  (exists args pr sa,
     executeProcess env args (compilation_timeout (config env)) sa = (Returns pr, st') /\
     Fs.mem ("temp/" ++ draw_hex env 16 (rng st)) (fs sa) = true /\
     extends (fun e => is_removal e = false /\ is_fork e = false) st sa /\
     cr_success cr = (pr_exit_code pr =? 0) /\
     cr_executable_path cr =
       (if pr_exit_code pr =? 0 then "temp/" ++ draw_hex env 16 (rng st) ++ "/main" else "") /\
     cr_compiler_output cr = pr_stderr pr ++ pr_stdout pr /\
     (cr_warnings cr, cr_errors cr) = parseCompilerMessages (cr_compiler_output cr) [] []).
Proof.
  unfold compile. cbv zeta. intros H.
  invert_run.
  (* the handler, or the body of the [try] block *)
  match goal with H : try_catch _ _ _ = _ |- _ =>
    apply try_catch_returns in H; destruct H as [H | (what & s1 & _ & H)] end.
  2:{ invert_run. left. eauto. }
  invert_run.
  (* the source file that cannot be opened *)
  match goal with H : (if negb ?b then _ else _) _ = _ |- _ => destruct b; cbn [negb] in H end.
  2:{ invert_run. left. eauto. }
  invert_run.
  (* reading the flags leaves the state alone *)
  match goal with
  | H : (if ?b && ?c then _ else _) ?before = (Returns _, ?after) |- _ =>
      assert (after = before) as -> by (destruct (b && c); invert_run; reflexivity);
      clear H
  end.
  (* the session directory and the source file *)
  repeat match goal with
  | H : generateSessionId _ _ = _ |- _ =>
      apply generateSessionId_returns in H; destruct H as [Hid ->]; rewrite <- Hid; clear Hid
  | H : create_directories _ _ _ = _ |- _ => apply create_directories_returns in H; subst
  | H : ofstream_open _ _ _ = _ |- _ => apply ofstream_open_returns in H; subst
  | H : ofstream_write _ _ _ = _ |- _ => apply ofstream_write_returns in H; subst
  end.
  (* the compiler *)
  match goal with
  | Hrun : executeProcess env ?args _ ?sa = (Returns ?pr, ?sb),
    Hret : (if pr_exit_code ?pr =? 0 then _ else _) ?sb = (Returns cr, st') |- _ =>
      right; exists args, pr, sa;
      assert (st' = sb) as -> by (destruct (pr_exit_code pr =? 0); invert_run; reflexivity);
      split; [exact Hrun|]
  end.
  split.
  { cbn [fs log set_fs set_rng]. rewrite Fs_mem_add, Fs_mem_create_directories. reflexivity. }
  split.
  { eexists. cbn [trace fs log set_fs set_rng]. rewrite <- !app_assoc. split; [reflexivity|].
    repeat constructor. }
  match goal with
  | Hret : (if ?c then _ else _) _ = (Returns cr, _) |- _ => destruct c
  end; invert_run;
    cbn [cr_success cr_executable_path cr_compiler_output cr_warnings cr_errors
         CompilationResult_default];
    (split; [reflexivity|]); (split; [now rewrite ?append_assoc|]); (split; [reflexivity|]);
    symmetry; apply surjective_pairing.
Qed.





(** C8: in every result [compile] returns, the executable path is non-empty
    exactly when [success] is true; the results of the failure paths (the
    source file that cannot be created, the exception caught inside
    [compile], a compiler that exits with a nonzero code) all carry the
    empty path. *)
Theorem compile_artifact_iff_success
    (env : Env) (code : string) (options : json) (st : State)
    (cr : CompilationResult) (st' : State) :
  compile env code options st = (Returns cr, st') ->
  (cr_executable_path cr <> "" <-> cr_success cr = true).
Proof.
  intros H. apply compile_cases in H.
  destruct H as [[message ->] | (args & pr & sa & _ & _ & _ & Hsuccess & Hpath & _)].
  - cbn. split; [congruence | discriminate].
  - rewrite Hsuccess, Hpath. destruct (pr_exit_code pr =? 0).
    + split; [reflexivity | discriminate].
    + split; [congruence | discriminate].
Qed.

(** The options are [null]: [value()] throws, the exception is caught
    inside [compile], and the result has neither success nor a path. *)
Lemma compile_artifact_iff_success_witness :
  exists cr st',
    compile (Sample.server Sample.gxx_ok Sample.hello) Sample.source JNull initial_state
      = (Returns cr, st') /\
    (exists what, cr_errors cr = ["Internal compilation error: " ++ what]) /\
    cr_success cr = false /\
    (cr_executable_path cr <> "" <-> cr_success cr = true).
Proof.
  eexists. eexists. split; [vm_compute; reflexivity|].
  split; [eexists; cbn; reflexivity|]. split; [vm_compute; reflexivity|].
  eapply (compile_artifact_iff_success (Sample.server Sample.gxx_ok Sample.hello)
            Sample.source JNull initial_state).
  vm_compute. reflexivity.
Defined.

(** The same on the path where the compiler accepts the source. *)
Example compile_artifact_on_success :
  exists cr st',
    compile (Sample.server Sample.gxx_ok Sample.hello) Sample.source (JObject []) initial_state
      = (Returns cr, st') /\
    cr_success cr = true /\
    cr_executable_path cr = "temp/0123456789abcdef/main".
Proof. eexists. eexists. split; [vm_compute; reflexivity|]. split; vm_compute; reflexivity. Qed.

Lemma compile_never_throws (env : Env) (code : string) (options : json) (st : State)
    (what : string) (st' : State) :
  compile env code options st <> (Throws what, st').
Proof.
  unfold compile. cbv zeta. unfold bind at 1. cbv [now]. unfold try_catch.
  match goal with
  | |- (let (o, s) := ?body in _) <> _ => destruct body as [[a|w| |sig] s1]
  end; cbv [ret]; discriminate.
Qed.

(** ** Relations every step respects *)

Section Respect.

Variable R : State -> State -> Prop.
Hypothesis R_refl : forall st, R st st.
Hypothesis R_trans : forall a b c, R a b -> R b c -> R a c.

Lemma respects_ret {A} (a : A) : respects R (ret a).
Proof. intros st. apply R_refl. Qed.

Lemma respects_throw {A} (what : string) : respects R (@throw A what).
Proof. intros st. apply R_refl. Qed.

Lemma respects_lift_throwing {A} (r : string + A) : respects R (lift_throwing r).
Proof. destruct r; [apply respects_throw | apply respects_ret]. Qed.

Lemma respects_bind {A B} (m : M A) (k : A -> M B) :
  respects R m -> (forall a, respects R (k a)) -> respects R (bind m k).
Proof.
  intros Hm Hk st. unfold bind. specialize (Hm st).
  destruct (m st) as [[a|what| |sig] s]; cbn [snd] in *; try exact Hm.
  eapply R_trans; [exact Hm | apply Hk].
Qed.

Lemma respects_try_catch {A} (body : M A) (handler : string -> M A) :
  respects R body -> (forall what, respects R (handler what)) ->
  respects R (try_catch body handler).
Proof.
  intros Hbody Hhandler st. unfold try_catch. specialize (Hbody st).
  destruct (body st) as [[a|what| |sig] s]; cbn [snd] in *; try exact Hbody.
  eapply R_trans; [exact Hbody | apply Hhandler].
Qed.

Lemma respects_if {A} (b : bool) (m1 m2 : M A) :
  respects R m1 -> respects R m2 -> respects R (if b then m1 else m2).
Proof. destruct b; auto. Qed.

Variable env : Env.

Lemma respects_now : respects R (now env).
Proof. intros st. apply R_refl. Qed.

Lemma respects_fs_exists (p : string) : respects R (fs_exists p).
Proof. intros st. apply R_refl. Qed.


Ltac respects_step R :=
  lazymatch goal with
  | |- respects R (bind _ _) => apply respects_bind; [|intros ?]
  | |- respects R (try_catch _ _) => apply respects_try_catch; [|intros ?]
  | |- respects R (if _ then _ else _) => apply respects_if
  | |- respects R (ret _) => apply respects_ret
  | |- respects R (lift_throwing _) => apply respects_lift_throwing
  | |- respects R (now _) => apply respects_now
  | |- respects R (fs_exists _) => apply respects_fs_exists
  | |- respects R (match ?x with _ => _ end) => destruct x
  end.

(** The system calls of the process runner. *)
Hypothesis R_pipe_out : respects R (sys_pipe env OutPipe).
Hypothesis R_pipe_err : respects R (sys_pipe env ErrPipe).
Hypothesis R_fork : forall args, respects R (sys_fork env (child_branch args)).
Hypothesis R_close : forall fd, respects R (sys_close fd).
Hypothesis R_alarm : forall seconds, respects R (sys_alarm seconds).
Hypothesis R_waitpid : forall pid, respects R (sys_waitpid env pid).
Hypothesis R_kill : forall pid, respects R (sys_kill pid SIGTERM).
Hypothesis R_read : forall c, respects R (sys_read c).

Lemma respects_read_loop (fuel : nat) (c : Chan) (acc : string) :
  respects R (sys_read c) -> respects R (read_loop fuel c acc).
Proof.
  intros Hread. revert acc; induction fuel as [|fuel IH]; intros acc; cbn [read_loop].
  - apply respects_ret.
  - apply respects_bind; [exact Hread|]. intros chunk.
    apply respects_if; [apply respects_ret | apply IH].
Qed.

Lemma respects_read_output (c : Chan) :
  respects R (sys_read c) -> respects R (read_output c).
Proof. intros Hread st. unfold read_output. apply respects_read_loop. exact Hread. Qed.

Lemma respects_executeProcess (args : list string) (timeout_seconds : Z) :
  respects R (executeProcess env args timeout_seconds).
Proof.
  unfold executeProcess. destruct args as [|arg args]; [apply respects_ret|].
  repeat first [respects_step R | solve [auto using respects_read_output]].
Qed.

Lemma respects_executeDirectly (path input : string) (options : json) :
  respects R (executeDirectly env path input options).
Proof. apply respects_executeProcess. Qed.

Lemma respects_executeInSandbox (path input : string) (options : json) :
  respects R (executeInSandbox env path input options).
Proof.
  unfold executeInSandbox. apply respects_bind.
  - unfold absolute. apply respects_if; [apply respects_ret|].
    apply respects_bind; [apply respects_lift_throwing | intros ?; apply respects_ret].
  - intros mount. cbv zeta. apply respects_executeDirectly.
Qed.

(** The calls [compile] adds. *)
Hypothesis R_session : respects R (generateSessionId env).
Hypothesis R_create_directories : forall p, respects R (create_directories env p).
Hypothesis R_open : forall p, respects R (ofstream_open env p).
Hypothesis R_write : forall p data, respects R (ofstream_write p data).

Lemma respects_compile (code : string) (options : json) :
  respects R (compile env code options).
Proof.
  unfold compile. cbv zeta.
  repeat first [respects_step R | solve [auto using respects_executeProcess]].
Qed.

(** The call [cleanupSession] adds. *)
Hypothesis R_remove_all : forall p, respects R (remove_all env p).

Lemma respects_cleanupSession (dir : string) : respects R (cleanupSession env dir).
Proof.
  unfold cleanupSession.
  apply respects_try_catch; [|intros ?; apply respects_ret].
  apply respects_bind; [apply respects_fs_exists | intros ?].
  apply respects_if; [apply R_remove_all | apply respects_ret].
Qed.

Lemma respects_execute (code input : string) (options : json) :
  respects R (execute env code input options).
Proof.
  unfold execute. cbv zeta.
  repeat first [respects_step R | solve [auto using respects_compile, respects_cleanupSession, respects_executeInSandbox, respects_executeDirectly]].
Qed.

End Respect.

(** ** What the engine asks of the operating system *)

Lemma extends_refl (P : Event -> Prop) (st : State) : extends P st st.
Proof. exists []. split; [now rewrite app_nil_r | constructor]. Qed.

Lemma extends_trans (P : Event -> Prop) (a b c : State) :
  extends P a b -> extends P b c -> extends P a c.
Proof.
  intros (e1 & H1 & F1) (e2 & H2 & F2). exists (e1 ++ e2)%list. split.
  - now rewrite H2, H1, app_assoc.
  - apply Forall_app. auto.
Qed.

Lemma extends_weaken (P Q : Event -> Prop) (a b : State) :
  (forall e, P e -> Q e) -> extends P a b -> extends Q a b.
Proof.
  intros HPQ (evs & H & F). exists evs. split; [exact H|].
  eapply Forall_impl; eassumption.
Qed.

Lemma extends_one (P : Event -> Prop) (st st' : State) (e : Event) :
  P e -> trace st' = (trace st ++ [e])%list -> extends P st st'.
Proof. intros HP H. exists [e]. split; [exact H | repeat constructor; exact HP]. Qed.

Section Events.

Variable P : Event -> Prop.
Variable env : Env.

Hypothesis P_quiet : forall e, engine_event e -> is_removal e = false -> P e.

Ltac one_event :=
  eapply extends_one; [apply P_quiet; [constructor | reflexivity] | reflexivity].

Lemma sys_pipe_out_extends : respects (extends P) (sys_pipe env OutPipe).
Proof. intros st. one_event. Qed.

Lemma sys_pipe_err_extends : respects (extends P) (sys_pipe env ErrPipe).
Proof. intros st. one_event. Qed.

Lemma sys_fork_extends (args : list string) :
  respects (extends P) (sys_fork env (child_branch args)).
Proof. intros st. unfold sys_fork. destruct (fork_ok env); one_event. Qed.

Lemma sys_close_extends (fd : Fd) : respects (extends P) (sys_close fd).
Proof. intros st. one_event. Qed.

Lemma sys_alarm_extends (seconds : Z) : respects (extends P) (sys_alarm seconds).
Proof. intros st. one_event. Qed.

Lemma sys_waitpid_extends (pid : Z) : respects (extends P) (sys_waitpid env pid).
Proof.
  intros st. unfold sys_waitpid. cbv zeta.
  destruct (child (log (EWaitpid pid) st)) as [cp|]; [|one_event].
  destruct (cp_killed_by cp); [one_event|].
  destruct (_ || _); [destruct (lifetime _); one_event|].
  destruct (signals env SIGALRM); try destruct (lifetime _); one_event.
Qed.

Lemma sys_kill_extends (pid : Z) : respects (extends P) (sys_kill pid SIGTERM).
Proof.
  intros st. unfold sys_kill. cbv zeta.
  destruct (child (log (EKill pid SIGTERM) st)) as [cp|]; [|one_event].
  destruct (fatal SIGTERM (cp_behaviour cp)); one_event.
Qed.

Lemma sys_read_extends (c : Chan) : respects (extends P) (sys_read c).
Proof. intros st. one_event. Qed.

Lemma generateSessionId_extends : respects (extends P) (generateSessionId env).
Proof. intros st. exists []. split; [cbn; now rewrite app_nil_r | constructor]. Qed.

Lemma create_directories_extends (p : string) :
  respects (extends P) (create_directories env p).
Proof.
  intros st. unfold create_directories. cbv zeta.
  destruct (create_directories_error env); one_event.
Qed.

Lemma ofstream_open_extends (p : string) : respects (extends P) (ofstream_open env p).
Proof.
  intros st. unfold ofstream_open. cbv zeta. destruct (ofstream_opens env); one_event.
Qed.

Lemma ofstream_write_extends (p data : string) :
  respects (extends P) (ofstream_write p data).
Proof. intros st. one_event. Qed.

Lemma executeProcess_extends (args : list string) (timeout_seconds : Z) :
  respects (extends P) (executeProcess env args timeout_seconds).
Proof.
  apply respects_executeProcess;
    [exact (extends_refl P) | exact (extends_trans P) | ..];
    auto using sys_pipe_out_extends, sys_pipe_err_extends, sys_fork_extends,
      sys_close_extends, sys_alarm_extends, sys_waitpid_extends, sys_kill_extends,
      sys_read_extends.
Qed.

Lemma compile_extends (code : string) (options : json) :
  respects (extends P) (compile env code options).
Proof.
  apply respects_compile;
    [exact (extends_refl P) | exact (extends_trans P) | ..];
    auto using sys_pipe_out_extends, sys_pipe_err_extends, sys_fork_extends,
      sys_close_extends, sys_alarm_extends, sys_waitpid_extends, sys_kill_extends,
      sys_read_extends, generateSessionId_extends, create_directories_extends,
      ofstream_open_extends, ofstream_write_extends.
Qed.

Lemma run_stage_extends (path input : string) (options : json) :
  respects (extends P)
    (if sandbox_enabled (config env)
     then executeInSandbox env path input options
     else executeDirectly env path input options).
Proof.
  apply respects_if;
    [apply respects_executeInSandbox | apply respects_executeDirectly];
    try exact (extends_refl P); try exact (extends_trans P);
    auto using sys_pipe_out_extends, sys_pipe_err_extends, sys_fork_extends,
      sys_close_extends, sys_alarm_extends, sys_waitpid_extends, sys_kill_extends,
      sys_read_extends.
Qed.

Hypothesis P_removal : forall p, P (ERemoveAll p).

Lemma remove_all_extends (p : string) : respects (extends P) (remove_all env p).
Proof.
  intros st. unfold remove_all. cbv zeta.
  destruct (remove_all_error env);
    (eapply extends_one; [apply P_removal | reflexivity]).
Qed.

Lemma execute_extends (code input : string) (options : json) :
  respects (extends P) (execute env code input options).
Proof.
  apply respects_execute;
    [exact (extends_refl P) | exact (extends_trans P) | ..];
    auto using sys_pipe_out_extends, sys_pipe_err_extends, sys_fork_extends,
      sys_close_extends, sys_alarm_extends, sys_waitpid_extends, sys_kill_extends,
      sys_read_extends, generateSessionId_extends, create_directories_extends,
      ofstream_open_extends, ofstream_write_extends, remove_all_extends.
Qed.

End Events.

(** Every system call of [execute] has one of the shapes of [engine_event]. *)
Lemma execute_events (env : Env) (code input : string) (options : json) :
  respects (extends engine_event) (execute env code input options).
Proof. apply execute_extends; [auto | constructor]. Qed.

Lemma executeProcess_events (env : Env) (args : list string) (timeout_seconds : Z) :
  respects (extends engine_event) (executeProcess env args timeout_seconds).
Proof. apply executeProcess_extends. auto. Qed.

(** [compile] and the run of the program remove nothing. *)
Lemma compile_removes_nothing (env : Env) (code : string) (options : json) :
  respects (extends (fun e => is_removal e = false)) (compile env code options).
Proof. apply compile_extends. auto. Qed.

(** ** The file system under temp/ *)

Lemma grows_refl (st : State) : grows st st.
Proof. intros p H. exact H. Qed.

Lemma grows_trans (a b c : State) : grows a b -> grows b c -> grows a c.
Proof. intros Hab Hbc p H. apply Hbc, Hab, H. Qed.

Lemma grows_same_fs (st st' : State) : fs st' = fs st -> grows st st'.
Proof. intros H p Hp. now rewrite H. Qed.

Section Grows.

Variable env : Env.

Ltac same_fs := apply grows_same_fs; reflexivity.

Lemma sys_fork_grows (steps : list ChildStep) : respects grows (sys_fork env steps).
Proof.
  intros st. unfold sys_fork. destruct (fork_ok env); [|same_fs].
  intros p Hp. cbn [snd fs set_fs spawn log]. apply Fs_mem_fold_add. right. exact Hp.
Qed.

Lemma sys_waitpid_grows (pid : Z) : respects grows (sys_waitpid env pid).
Proof.
  intros st. unfold sys_waitpid. cbv zeta.
  destruct (child (log (EWaitpid pid) st)) as [cp|]; [|same_fs].
  destruct (cp_killed_by cp); [same_fs|].
  destruct (_ || _); [destruct (lifetime _); same_fs|].
  destruct (signals env SIGALRM); try destruct (lifetime _); same_fs.
Qed.

Lemma sys_kill_grows (pid : Z) (sig : Signal) : respects grows (sys_kill pid sig).
Proof.
  intros st. unfold sys_kill. cbv zeta.
  destruct (child (log (EKill pid sig) st)) as [cp|]; [|same_fs].
  destruct (fatal sig (cp_behaviour cp)); same_fs.
Qed.

Lemma create_directories_grows (p : string) : respects grows (create_directories env p).
Proof.
  intros st. unfold create_directories. cbv zeta.
  destruct (create_directories_error env); [same_fs|].
  intros q Hq. cbn [snd fs set_fs log]. apply Fs_mem_fold_add. right. exact Hq.
Qed.

Lemma ofstream_open_grows (p : string) : respects grows (ofstream_open env p).
Proof.
  intros st. unfold ofstream_open. cbv zeta. destruct (ofstream_opens env); [|same_fs].
  intros q Hq. cbn [snd fs set_fs log]. rewrite Fs_mem_add, Hq. reflexivity.
Qed.

Lemma executeProcess_grows (args : list string) (timeout_seconds : Z) :
  respects grows (executeProcess env args timeout_seconds).
Proof.
  apply respects_executeProcess;
    [exact grows_refl | exact grows_trans | ..];
    auto using sys_fork_grows, sys_waitpid_grows, sys_kill_grows;
    intros; intros st; same_fs.
Qed.

Lemma run_stage_grows (path input : string) (options : json) :
  respects grows
    (if sandbox_enabled (config env)
     then executeInSandbox env path input options
     else executeDirectly env path input options).
Proof.
  apply respects_if;
    [apply respects_executeInSandbox | apply respects_executeDirectly];
    try exact grows_refl; try exact grows_trans;
    auto using sys_fork_grows, sys_waitpid_grows, sys_kill_grows;
    intros; intros st; same_fs.
Qed.

End Grows.

Lemma parent_path_of_main (dir : string) : Str.parent_path (dir ++ "/main") = dir.
Proof.
  induction dir as [|c dir IH].
  - reflexivity.
  - change (String c dir ++ "/main") with (String c (dir ++ "/main")).
    cbn [Str.parent_path].
    assert (H : Str.contains "/" (dir ++ "/main") = true)
      by (apply contains_iff; exists dir, "main"; reflexivity).
    rewrite H, IH. reflexivity.
Qed.

Lemma Fs_mem_remove_all (p q : string) (f : list string) :
  Fs.under p q = true -> Fs.mem q (Fs.remove_all p f) = false.
Proof.
  intros Hunder. unfold Fs.mem, Fs.remove_all.
  induction f as [|x f IH]; [reflexivity|].
  cbn [filter]. destruct (Fs.under p x) eqn:Hx; cbn [negb]; [exact IH|].
  cbn [existsb]. rewrite IH, orb_false_r.
  destruct (String.eqb_spec q x) as [->|]; congruence.
Qed.

(** When the directory is there, [cleanupSession] issues one [remove_all],
    and unless that call fails nothing is left at or below the directory. *)
Lemma cleanupSession_removes (env : Env) (dir : string) (st : State) :
  Fs.mem dir (fs st) = true ->
  exists st',
    cleanupSession env dir st = (Returns tt, st') /\
    trace st' = (trace st ++ [ERemoveAll dir])%list /\
    (remove_all_error env = None ->
     forall q, Fs.under dir q = true -> Fs.mem q (fs st') = false).
Proof.
  intros Hdir. unfold cleanupSession, try_catch, bind, fs_exists, remove_all, ret.
  rewrite Hdir. destruct (remove_all_error env) as [what|].
  - eexists. split; [reflexivity|]. split; [reflexivity | discriminate].
  - eexists. split; [reflexivity|]. split; [reflexivity|].
    intros _ q Hq. cbn [fs set_fs log]. apply Fs_mem_remove_all. exact Hq.
Qed.

(** C5, as the code has it: on the path where compilation succeeds and the
    program is run and waited for, the session directory exists when
    [compile] returns, no system call of [compile] or of the run removes
    anything, and [execute] ends with exactly one [remove_all] of the
    session directory, after which (unless that call fails) nothing is left
    at or below it. [compile] on its own removes nothing
    ([compile_removes_nothing]). *)
Theorem execute_removes_session_after_run
    (env : Env) (code input : string) (options : json) (st : State)
    (cr : CompilationResult) (st1 : State) (pr : ProcessResult) (st2 : State) :
  compile env code options st = (Returns cr, st1) ->
  cr_success cr = true ->
  (if sandbox_enabled (config env)
   then executeInSandbox env (cr_executable_path cr) input options
   else executeDirectly env (cr_executable_path cr) input options) st1 = (Returns pr, st2) ->
  Fs.mem ("temp/" ++ draw_hex env 16 (rng st)) (fs st1) = true /\
  extends (fun e => is_removal e = false) st st2 /\
  exists r st3,
    execute env code input options st = (Returns r, st3) /\
    trace st3 = (trace st2 ++ [ERemoveAll ("temp/" ++ draw_hex env 16 (rng st))])%list /\
    (remove_all_error env = None ->
     forall q, Fs.under ("temp/" ++ draw_hex env 16 (rng st)) q = true ->
               Fs.mem q (fs st3) = false).
Proof.
  intros Hcompile Hsuccess Hrun.
  set (dir := "temp/" ++ draw_hex env 16 (rng st)).
  assert (Hdir1 : Fs.mem dir (fs st1) = true /\ cr_executable_path cr = dir ++ "/main").
  { destruct (compile_cases _ _ _ _ _ _ Hcompile)
      as [[message ->] | (args & p & sa & Hp & Hsa & _ & Hs & Hpath & _)];
      [discriminate Hsuccess|].
    rewrite Hsuccess in Hs. rewrite <- Hs in Hpath. split.
    - pose proof (executeProcess_grows env args (compilation_timeout (config env)) sa) as G.
      rewrite Hp in G. apply G. exact Hsa.
    - rewrite Hpath. unfold dir. now rewrite append_assoc. }
  destruct Hdir1 as [Hdir1 Hpath].
  assert (Hdir2 : Fs.mem dir (fs st2) = true).
  { pose proof (run_stage_grows env (cr_executable_path cr) input options st1) as G.
    rewrite Hrun in G. apply G. exact Hdir1. }
  split; [exact Hdir1|]. split.
  { eapply extends_trans.
    - pose proof (compile_removes_nothing env code options st) as E.
      rewrite Hcompile in E. exact E.
    - pose proof (run_stage_extends (fun e => is_removal e = false) env
                    (fun e _ H => H) (cr_executable_path cr) input options st1) as E.
      rewrite Hrun in E. exact E. }
  destruct (cleanupSession_removes env dir st2 Hdir2) as (st3 & Hclean & Htrace & Hgone).
  eexists. exists st3. split; [|split; assumption].
  cbv beta delta [execute try_catch bind now] iota zeta.
  rewrite Hcompile, Hsuccess. cbv beta iota delta [negb].
  rewrite Hrun. cbv beta iota. rewrite Hpath, parent_path_of_main, Hclean. reflexivity.
Qed.

(** A run of "Hello, World!": afterwards the session directory, the source
    and the binary are gone, and one [remove_all] was issued. *)
Lemma execute_removes_session_after_run_witness :
  exists r st3,
    execute (Sample.server Sample.gxx_ok Sample.hello)
            Sample.source "" (JObject []) initial_state = (Returns r, st3) /\
    er_stdout r = "Hello, World!" /\
    filter is_removal (trace st3) = [ERemoveAll Sample.session] /\
    (forall q, Fs.under Sample.session q = true -> Fs.mem q (fs st3) = false).
Proof.
  pose (env := Sample.server Sample.gxx_ok Sample.hello).
  edestruct (execute_removes_session_after_run env Sample.source "" (JObject []) initial_state)
    as (_ & _ & r & st3 & Hrun & Htrace & Hgone).
  - vm_compute. reflexivity.
  - reflexivity.
  - vm_compute. reflexivity.
  - exists r, st3. split; [exact Hrun|].
    split; [vm_compute in Hrun; injection Hrun as <- _; reflexivity|].
    split; [rewrite Htrace; vm_compute; reflexivity|].
    exact (Hgone eq_refl).
Defined.

(** C5 as stated fails: a call of [compile] leaves its session directory,
    with the source and the binary in it, on disk. *)
Lemma compile_leaves_session_directory :
  exists cr st',
    compile (Sample.server Sample.gxx_ok Sample.hello)
            Sample.source (JObject []) initial_state = (Returns cr, st') /\
    Fs.mem Sample.session (fs initial_state) = false /\
    Fs.mem Sample.session (fs st') = true /\
    Fs.mem (Sample.session ++ "/main.cpp") (fs st') = true /\
    filter is_removal (trace st') = [].
Proof.
  eexists. eexists. split; [vm_compute; reflexivity|].
  split; [vm_compute; reflexivity|]. split; [vm_compute; reflexivity|].
  split; vm_compute; reflexivity.
Qed.

(** The early return of [execute] on a failed compilation skips
    [cleanupSession]: the session directory of the missing semicolon stays
    on disk. *)
Example execute_failed_compilation_leaves_session :
  exists r st',
    execute (Sample.server (Sample.gxx_fails Sample.missing_semicolon) Sample.hello)
            Sample.source "" (JObject []) initial_state = (Returns r, st') /\
    er_success r = false /\
    Fs.mem Sample.session (fs st') = true /\
    filter is_removal (trace st') = [].
Proof.
  eexists. eexists. split; [vm_compute; reflexivity|].
  split; [vm_compute; reflexivity|]. split; vm_compute; reflexivity.
Qed.

(** ** What reaches the child, and what does not *)

Lemma ensures_ret {A} (Q : A -> Prop) (a : A) : Q a -> ensures Q (ret a).
Proof. intros HQ st x st' H. apply ret_returns in H. destruct H as [-> _]. exact HQ. Qed.

Lemma ensures_bind_with {A B} (Qa : A -> Prop) (Q : B -> Prop) (m : M A) (k : A -> M B) :
  ensures Qa m -> (forall a, Qa a -> ensures Q (k a)) -> ensures Q (bind m k).
Proof.
  intros Hm Hk st b st' H. apply bind_returns in H. destruct H as (a & s & H1 & H2).
  eapply Hk; [eapply Hm; exact H1 | exact H2].
Qed.

Lemma ensures_bind {A B} (Q : B -> Prop) (m : M A) (k : A -> M B) :
  (forall a, ensures Q (k a)) -> ensures Q (bind m k).
Proof.
  intros Hk. apply (ensures_bind_with (fun _ => True)); [intros st a st' _; exact I | auto].
Qed.

Lemma ensures_try_catch {A} (Q : A -> Prop) (body : M A) (handler : string -> M A) :
  ensures Q body -> (forall what, ensures Q (handler what)) ->
  ensures Q (try_catch body handler).
Proof.
  intros Hbody Hhandler st a st' H. apply try_catch_returns in H.
  destruct H as [H | (what & s & _ & H)]; [eapply Hbody | eapply Hhandler]; exact H.
Qed.

Lemma ensures_if {A} (Q : A -> Prop) (b : bool) (m1 m2 : M A) :
  ensures Q m1 -> ensures Q m2 -> ensures Q (if b then m1 else m2).
Proof. destruct b; auto. Qed.

Ltac ensures_step :=
  lazymatch goal with
  | |- ensures _ (bind _ _) => apply ensures_bind; intros ?
  | |- ensures _ (try_catch _ _) => apply ensures_try_catch; [|intros ?]
  | |- ensures _ (if _ then _ else _) => apply ensures_if
  | |- ensures _ (ret _) => apply ensures_ret
  | |- ensures _ (match ?x with _ => _ end) => destruct x
  end.

(** The process runner never fills in the two usage fields. *)
Lemma executeProcess_reports_no_usage (env : Env) (args : list string) (timeout_seconds : Z) :
  ensures (fun pr => pr_memory_usage_kb pr = 0 /\ pr_cpu_time_ms pr = 0)
          (executeProcess env args timeout_seconds).
Proof.
  unfold executeProcess. destruct args as [|arg args].
  - apply ensures_ret. split; reflexivity.
  - repeat ensures_step; split; reflexivity.
Qed.

Lemma run_stage_reports_no_usage (env : Env) (path input : string) (options : json) :
  ensures (fun pr => pr_memory_usage_kb pr = 0 /\ pr_cpu_time_ms pr = 0)
          (if sandbox_enabled (config env)
           then executeInSandbox env path input options
           else executeDirectly env path input options).
Proof.
  apply ensures_if.
  - unfold executeInSandbox. apply ensures_bind. intros mount.
    apply executeProcess_reports_no_usage.
  - apply executeProcess_reports_no_usage.
Qed.

Lemma execute_reports_no_usage (env : Env) (code input : string) (options : json) :
  ensures (fun r => er_memory_usage_kb r = 0 /\ er_cpu_time_ms r = 0)
          (execute env code input options).
Proof.
  unfold execute. cbv zeta.
  apply ensures_try_catch; [|intros what; apply ensures_ret; split; reflexivity].
  apply ensures_bind. intros cr.
  apply ensures_if; [apply ensures_ret; split; reflexivity|].
  apply ensures_bind. intros start_time.
  eapply ensures_bind_with; [apply run_stage_reports_no_usage|].
  intros pr [Hmemory Hcpu].
  repeat ensures_step. cbn [er_memory_usage_kb er_cpu_time_ms]. split; assumption.
Qed.

(** C2, at any input: the text given as standard input does not enter the
    run.  [execute] with that text is, result and trace, [execute] with the
    empty text, and among its system calls there is no pipe for a standard
    input, no write, and no child that connects its descriptor 0 to
    anything: the program reads whatever the server itself has as standard
    input. *)
Theorem execute_ignores_input
    (env : Env) (code input : string) (options : json) (st : State) :
  execute env code input options st = execute env code "" options st /\
  extends (fun e => feeds_stdin e = false) st (snd (execute env code input options st)).
Proof.
  split; [reflexivity|].
  eapply extends_weaken; [|apply execute_events].
  intros e He. destruct He; reflexivity.
Qed.

(** C3, at any program: no memory or CPU ceiling is installed.  The child
    goes from [fork] to [execvp] through [close] and [dup2] only, and every
    result [execute] returns carries 0 in both usage fields; the result has
    no field for a violated limit. *)
Theorem execute_installs_no_limit
    (env : Env) (code input : string) (options : json) (st : State) :
  extends (fun e => installs_limit e = false) st (snd (execute env code input options st)) /\
  ensures (fun r => er_memory_usage_kb r = 0 /\ er_cpu_time_ms r = 0)
          (execute env code input options).
Proof.
  split; [|apply execute_reports_no_usage].
  eapply extends_weaken; [|apply execute_events].
  intros e He. destruct He; reflexivity.
Qed.

(** The child of the engine starts its program in the context it
    inherited. *)
Lemma child_branch_behaviour (env : Env) (ctx : Context) (args : list string) :
  child_behaviour env ctx (child_branch args) =
    match programs env args with
    | Some program => program ctx
    | None => exits_at_once 127
    end.
Proof. reflexivity. Qed.

(** The test HandleInputOutput: the program asks for a number and the
    request gives "42"; had the text reached its standard input it would
    print 42, but it reads the (empty) standard input of the server. *)
Example execute_does_not_deliver_input :
  writes_stdout (Sample.reads_number {| stdin_bytes := "42" ++ String Str.newline "";
                                        limits := [] |})
    = "Enter number: You entered: 42" ++ String Str.newline "" /\
  exists r st',
    execute (Sample.server_running Sample.gxx_ok Sample.reads_number)
            Sample.source ("42" ++ String Str.newline "") (JObject []) initial_state
      = (Returns r, st') /\
    er_stdout r = "Enter number: You entered: 0" ++ String Str.newline "".
Proof.
  split; [vm_compute; reflexivity|].
  eexists. eexists. split; vm_compute; reflexivity.
Qed.

(** The test HandleResourceLimits: under a limit of [max_memory_mb]
    megabytes on its address space the allocation of 4 GB would fail; the
    engine installs none, the allocation succeeds, and the result reports
    a successful run that used 0 kB. *)
Example execute_runs_without_ceiling :
  writes_stdout (Sample.allocates_4GB
                   {| stdin_bytes := "";
                      limits := [(RLIMIT_AS, max_memory_mb Config_defaults * 1024 * 1024)] |})
    = "Allocation failed: std::bad_alloc" ++ String Str.newline "" /\
  exists r st',
    execute (Sample.server_running Sample.gxx_ok Sample.allocates_4GB)
            Sample.source "" (JObject []) initial_state = (Returns r, st') /\
    er_success r = true /\
    er_stdout r = "Allocated successfully" ++ String Str.newline "" /\
    er_memory_usage_kb r = 0.
Proof.
  split; [vm_compute; reflexivity|].
  eexists. eexists. split; [vm_compute; reflexivity|].
  split; [vm_compute; reflexivity|]. split; vm_compute; reflexivity.
Qed.

(** ** The timeout *)

Lemma sys_waitpid_alarm (env : Env) (pid : Z) (st : State) (cp : ChildProc) :
  child st = Some cp -> cp_killed_by cp = None ->
  alarm_armed st <> 0 -> ends_before (cp_behaviour cp) (alarm_armed st) = false ->
  sys_waitpid env pid st =
    match signals env SIGALRM with
    | SigDefault => (Killed SIGALRM, log (EWaitpid pid) st)
    | SigHandlerInterrupt => (Returns None, set_alarm 0 (log (EWaitpid pid) st))
    | _ =>
        match lifetime (cp_behaviour cp) with
        | Some _ => (Returns (Some (wait_status (ending (cp_behaviour cp)))),
                     set_child None (log (EWaitpid pid) st))
        | None => (Blocks, log (EWaitpid pid) st)
        end
    end.
Proof.
  intros Hchild Halive Harmed Hlate. unfold sys_waitpid. cbv zeta.
  change (child (log (EWaitpid pid) st)) with (child st).
  change (alarm_armed (log (EWaitpid pid) st)) with (alarm_armed st).
  rewrite Hchild, Halive, Hlate.
  replace (alarm_armed st =? 0) with false by (symmetry; apply Z.eqb_neq; exact Harmed).
  cbn [orb]. destruct (signals env SIGALRM); reflexivity.
Qed.

Lemma sys_waitpid_forever (env : Env) (pid : Z) (st : State) (cp : ChildProc) :
  child st = Some cp -> cp_killed_by cp = None ->
  alarm_armed st = 0 -> lifetime (cp_behaviour cp) = None ->
  sys_waitpid env pid st = (Blocks, log (EWaitpid pid) st).
Proof.
  intros Hchild Halive Hquiet Hloops. unfold sys_waitpid. cbv zeta.
  change (child (log (EWaitpid pid) st)) with (child st).
  change (alarm_armed (log (EWaitpid pid) st)) with (alarm_armed st).
  rewrite Hchild, Halive, Hquiet, Hloops. reflexivity.
Qed.

Lemma sys_kill_deaf (pid : Z) (st : State) (cp : ChildProc) :
  child st = Some cp -> ignores_sigterm (cp_behaviour cp) = true ->
  sys_kill pid SIGTERM st = (Returns tt, log (EKill pid SIGTERM) st).
Proof.
  intros Hchild Hdeaf. unfold sys_kill. cbv zeta.
  change (child (log (EKill pid SIGTERM) st)) with (child st).
  rewrite Hchild. unfold fatal. rewrite Hdeaf. reflexivity.
Qed.

(** The child of the engine connects its standard output to the first
    pipe and its standard error to the second. *)
Lemma child_branch_reaches (env : Env) (args : list string) (b : Behaviour) :
  reaches env OutPipe (child_branch args) b = writes_stdout b /\
  reaches env ErrPipe (child_branch args) b = writes_stderr b.
Proof.
  unfold reaches, connects. cbn [child_branch points_to is_stdout is_stderr].
  destruct (programs env args); split; reflexivity.
Qed.

Lemma ends_before_behind_pipes (out err : string) (b : Behaviour) (seconds : Z) :
  ends_before b seconds = false -> ends_before (behind_pipes out err b) seconds = false.
Proof. unfold behind_pipes. destruct (fits out && fits err); [auto | reflexivity]. Qed.

Lemma lifetime_behind_pipes (out err : string) (b : Behaviour) :
  lifetime b = None -> lifetime (behind_pipes out err b) = None.
Proof. unfold behind_pipes. destruct (fits out && fits err); [auto | reflexivity]. Qed.

Lemma ignores_sigterm_behind_pipes (out err : string) (b : Behaviour) :
  ignores_sigterm (behind_pipes out err b) = ignores_sigterm b.
Proof. unfold behind_pipes. destruct (fits out && fits err); reflexivity. Qed.

Lemma behind_pipes_fits (out err : string) (b : Behaviour) :
  fits out = true -> fits err = true -> behind_pipes out err b = b.
Proof. intros Ho He. unfold behind_pipes. rewrite Ho, He. reflexivity. Qed.

Lemma held_fits (s : string) : fits s = true -> held s = s.
Proof. intros H. unfold held. rewrite H. reflexivity. Qed.

(** C1, where it fails: a child that has not ended by the deadline, in a
    process whose SIGALRM disposition is the default one (the dispositions
    of main.cpp), or a child that never ends and ignores SIGTERM under any
    disposition.  The process runner does not return: the alarm terminates
    the calling process, or the runner stays in [waitpid]; and it never
    sends SIGKILL. *)
Theorem executeProcess_timeout_does_not_return
    (env : Env) (args : list string) (timeout_seconds : Z) (st : State)
    (program : Context -> Behaviour) (b : Behaviour) :
  args <> [] ->
  pipe_ok env OutPipe = true -> pipe_ok env ErrPipe = true -> fork_ok env = true ->
  programs env args = Some program ->
  program (inherited env) = b ->
  0 < timeout_seconds < 2 ^ 32 ->
  ends_before b timeout_seconds = false ->
  signals env SIGALRM = SigDefault \/ (lifetime b = None /\ ignores_sigterm b = true) ->
  exists o st',
    executeProcess env args timeout_seconds st = (o, st') /\
    (o = Killed SIGALRM \/ o = Blocks) /\
    extends (fun e => is_sigkill e = false) st st'.
Proof.
  intros Hargs Hout Herr Hfork Hprogram Hb Hrange Hlate Hcase.
  assert (Hevents : extends (fun e => is_sigkill e = false) st
                      (snd (executeProcess env args timeout_seconds st))).
  { eapply extends_weaken; [|apply executeProcess_events].
    intros e He. destruct He; reflexivity. }
  destruct (executeProcess env args timeout_seconds st) as [o st'] eqn:Hrun.
  exists o, st'. split; [reflexivity|]. split; [|exact Hevents].
  clear Hevents. revert Hrun.
  destruct args as [|arg args]; [contradiction|].
  unfold executeProcess.
  cbv beta iota zeta delta [bind sys_pipe sys_fork sys_close sys_alarm ret negb].
  rewrite Hout, Herr, Hfork.
  rewrite child_branch_behaviour, Hprogram, Hb.
  destruct (child_branch_reaches env (arg :: args) b) as [Hreach_out Hreach_err].
  rewrite Hreach_out, Hreach_err. clear Hreach_out Hreach_err.
  (* the program behind the two pipes: blocked in [write], or as it is *)
  assert (Hlate' : ends_before (behind_pipes (writes_stdout b) (writes_stderr b) b)
                               timeout_seconds = false)
    by (apply ends_before_behind_pipes; exact Hlate).
  assert (Hcase' : signals env SIGALRM = SigDefault \/
                   (lifetime (behind_pipes (writes_stdout b) (writes_stderr b) b) = None /\
                    ignores_sigterm (behind_pipes (writes_stdout b) (writes_stderr b) b) = true)).
  { destruct Hcase as [Hdefault | [Hloops Hdeaf]]; [left; exact Hdefault | right].
    split; [apply lifetime_behind_pipes; exact Hloops|].
    rewrite ignores_sigterm_behind_pipes. exact Hdeaf. }
  generalize (held (writes_stdout b)) (held (writes_stderr b)). intros held_out held_err.
  clear Hlate Hcase Hb Hprogram. revert Hlate' Hcase'.
  generalize (behind_pipes (writes_stdout b) (writes_stderr b) b). clear b.
  intros b Hlate Hcase.
  generalize (next_pid (log (EPipe ErrPipe true) (log (EPipe OutPipe true) st))).
  intros pid.
  match goal with |- context [sys_waitpid env pid ?s] => set (s0 := s) end.
  pose (cp := {| cp_pid := pid; cp_behaviour := b; cp_killed_by := None |}).
  assert (Hchild : child s0 = Some cp) by reflexivity.
  assert (Harmed : alarm_armed s0 = timeout_seconds) by (apply Z.mod_small; lia).
  clearbody s0.
  rewrite (sys_waitpid_alarm env pid s0 cp Hchild eq_refl)
    by (rewrite Harmed; first [lia | exact Hlate]).
  destruct (signals env SIGALRM) eqn:Hsignal.
  - intros H. injection H as <- _. left. reflexivity.
  - destruct Hcase as [Hdefault | [Hloops Hdeaf]]; [discriminate Hdefault|].
    cbn [cp cp_behaviour]. rewrite Hloops.
    intros H. injection H as <- _. right. reflexivity.
  - destruct Hcase as [Hdefault | [Hloops Hdeaf]]; [discriminate Hdefault|].
    cbn [cp cp_behaviour]. rewrite Hloops.
    intros H. injection H as <- _. right. reflexivity.
  - destruct Hcase as [Hdefault | [Hloops Hdeaf]]; [discriminate Hdefault|].
    cbv beta iota.
    set (s1 := set_alarm (0 mod 2 ^ 32) (log (EAlarm 0) (set_alarm 0 (log (EWaitpid pid) s0)))).
    assert (Hchild1 : child s1 = Some cp) by exact Hchild.
    assert (Hquiet : alarm_armed s1 = 0) by reflexivity.
    clearbody s1.
    rewrite (sys_kill_deaf pid s1 cp Hchild1 Hdeaf).
    rewrite (sys_waitpid_forever env pid (log (EKill pid SIGTERM) s1) cp Hchild1 eq_refl Hquiet Hloops).
    intros H. injection H as <- _. right. reflexivity.
Qed.

(** [while (true) {}] under the dispositions of main.cpp and the default
    execution timeout of 10 seconds. *)
Lemma executeProcess_timeout_does_not_return_witness :
  exists st',
    executeProcess (Sample.server Sample.gxx_ok Sample.loops)
                   [Sample.session ++ "/main"] 10 initial_state = (Killed SIGALRM, st') /\
    filter (fun e => match e with EKill _ _ => true | _ => false end) (trace st') = [].
Proof.
  pose (env := Sample.server Sample.gxx_ok Sample.loops).
  destruct (executeProcess_timeout_does_not_return env [Sample.session ++ "/main"] 10
              initial_state (fun _ => Sample.loops) Sample.loops)
    as (o & st' & Hrun & Houtcome & _).
  - discriminate.
  - reflexivity.
  - reflexivity.
  - reflexivity.
  - reflexivity.
  - reflexivity.
  - split; reflexivity.
  - reflexivity.
  - left. reflexivity.
  - exists st'. vm_compute in Hrun. injection Hrun as <- <-.
    split; [reflexivity | vm_compute; reflexivity].
Defined.

(** The three ways a deadline ends in [execute].  Under the dispositions of
    main.cpp the alarm terminates the server. *)
Example execute_loop_kills_server :
  fst (execute (Sample.server Sample.gxx_ok Sample.loops)
               Sample.source "" (JObject []) initial_state) = Killed SIGALRM.
Proof. vm_compute. reflexivity. Qed.

(** With a handler that interrupts [waitpid], a program that ignores
    SIGTERM keeps [execute] in the second [waitpid] for ever. *)
Example execute_deaf_loop_blocks :
  fst (execute (Sample.server_with_alarm_handler Sample.gxx_ok Sample.loops_deaf)
               Sample.source "" (JObject []) initial_state) = Blocks.
Proof. vm_compute. reflexivity. Qed.

(** With such a handler and a program that dies of SIGTERM, the run ends
    with exit code -1 after one SIGTERM. *)
Example execute_loop_with_alarm_handler :
  exists r st',
    execute (Sample.server_with_alarm_handler Sample.gxx_ok Sample.loops)
            Sample.source "" (JObject []) initial_state = (Returns r, st') /\
    er_exit_code r = -1 /\
    er_error_message r = "Program exited with code -1" /\
    filter (fun e => match e with EKill _ _ => true | _ => false end) (trace st')
      = [EKill 1001 SIGTERM].
Proof.
  eexists. eexists. split; [vm_compute; reflexivity|].
  split; [vm_compute; reflexivity|]. split; vm_compute; reflexivity.
Qed.

(** ** The sandbox *)

Lemma executeInSandbox_is_executeDirectly
    (env : Env) (path input : string) (options : json) (st : State) (cwd : string) :
  current_path env = inr cwd ->
  executeInSandbox env path input options st = executeDirectly env path input options st.
Proof.
  intros Hcwd. unfold executeInSandbox, absolute.
  destruct (String.prefix "/" path).
  - reflexivity.
  - unfold bind at 1. unfold bind at 1. rewrite Hcwd. reflexivity.
Qed.

(** C4, as the code has it: when the sandbox is enabled and its backend
    is unavailable (the check of [initializeDocker] reports false: docker is
    not installed, or the image is missing), and the absolute path of the
    binary can be determined (the current directory is there, so that
    [std::filesystem::absolute] does not throw), the program is run on the
    host by the process runner, on its own command line and under the
    execution timeout, and the whole run (outcome, result, system calls,
    files) is the run made with the sandbox disabled.  The result has no
    member that tells the two apart. *)
Theorem execute_sandbox_runs_on_host
    (env : Env) (code input : string) (options : json) (st st0 : State) (cwd : string) :
  fst (initializeDocker (with_sandbox true env) st0) = Returns false ->
  current_path env = inr cwd ->
  execute (with_sandbox true env) code input options st =
  execute (with_sandbox false env) code input options st /\
  forall path st1,
    executeInSandbox (with_sandbox true env) path input options st1 =
    executeProcess (with_sandbox true env) [path] (execution_timeout (config env)) st1.
Proof.
  intros Hunavailable Hcwd. split.
  - unfold execute. cbv zeta. unfold try_catch. unfold bind at 1 6.
    change (compile (with_sandbox true env) code options st)
      with (compile (with_sandbox false env) code options st).
    destruct (compile (with_sandbox false env) code options st) as [[cr|what| |sig] st1];
      try reflexivity.
    destruct (negb (cr_success cr)); [reflexivity|].
    unfold bind at 1 5. cbv [now]. cbv beta iota. unfold bind at 1 4.
    change (sandbox_enabled (config (with_sandbox true env))) with true.
    change (sandbox_enabled (config (with_sandbox false env))) with false.
    cbv iota.
    rewrite (executeInSandbox_is_executeDirectly (with_sandbox true env) _ _ _ _ cwd Hcwd).
    reflexivity.
  - intros path st1.
    rewrite (executeInSandbox_is_executeDirectly (with_sandbox true env) _ _ _ _ cwd Hcwd).
    reflexivity.
Qed.

(** On the sample machine the sandbox backend is unavailable: [execvp]
    finds no docker, the child exits with 127. *)
Example initializeDocker_unavailable :
  fst (initializeDocker (Sample.server Sample.gxx_ok Sample.hello) initial_state)
    = Returns false.
Proof. vm_compute. reflexivity. Qed.

(** A Hello-World run with the sandbox enabled: the binary is started on
    the host, by the same command line as with the sandbox disabled. *)
Lemma execute_sandbox_runs_on_host_witness :
  execute (with_sandbox true (Sample.server Sample.gxx_ok Sample.hello))
          Sample.source "" (JObject []) initial_state =
  execute (with_sandbox false (Sample.server Sample.gxx_ok Sample.hello))
          Sample.source "" (JObject []) initial_state /\
  In (EFork (Some 1001) (child_branch [Sample.session ++ "/main"]))
     (trace (snd (execute (with_sandbox true (Sample.server Sample.gxx_ok Sample.hello))
                          Sample.source "" (JObject []) initial_state))).
Proof.
  split.
  - apply (execute_sandbox_runs_on_host (Sample.server Sample.gxx_ok Sample.hello)
             Sample.source "" (JObject []) initial_state initial_state "/srv/engine").
    + vm_compute. reflexivity.
    + reflexivity.
  - vm_compute. repeat (first [left; reflexivity | right]).
Defined.

(** C4 as stated fails: in a run with the sandbox enabled (the default
    configuration) that was carried out on the host, no boolean member of
    the result is set; the result has no member that records the
    isolation used. *)
Lemma sandboxed_run_sets_no_flag :
  sandbox_enabled (config (Sample.server Sample.gxx_ok Sample.exits_3)) = true /\
  (exists r st',
     execute (Sample.server Sample.gxx_ok Sample.exits_3)
             Sample.source "" (JObject []) initial_state = (Returns r, st') /\
     In (EFork (Some 1001) (child_branch [Sample.session ++ "/main"])) (trace st') /\
     Forall (fun flag => flag r = false) ExecutionResult_flags) /\
  ~ (exists flag, In flag ExecutionResult_flags /\ records_degraded_isolation flag).
Proof.
  split; [reflexivity|]. split.
  - eexists. eexists. split; [vm_compute; reflexivity|]. split.
    + vm_compute. repeat (first [left; reflexivity | right]).
    + repeat constructor.
  - intros (flag & Hin & Hrecords).
    destruct Hin as [<- | []].
    assert (Hrun : exists r st',
               execute (Sample.server Sample.gxx_ok Sample.exits_3)
                       Sample.source "" (JObject []) initial_state = (Returns r, st') /\
               er_success r = false).
    { eexists. eexists. split; vm_compute; reflexivity. }
    destruct Hrun as (r & st' & Hrun & Hfalse).
    apply Hrecords in Hrun; [congruence | reflexivity].
Qed.

(** ** Reading the pipes *)

Lemma take_drop (n : nat) (s : string) : take n s ++ drop n s = s.
Proof.
  revert s; induction n as [|n IH]; intros [|c s]; cbn; try reflexivity.
  now rewrite IH.
Qed.

Lemma length_drop (n : nat) (s : string) :
  String.length (drop n s) = (String.length s - n)%nat.
Proof.
  revert s; induction n as [|n IH]; intros [|c s]; cbn; try reflexivity.
  apply IH.
Qed.

Lemma c_str_take (n : nat) (s : string) : Str.c_str s = s -> Str.c_str (take n s) = take n s.
Proof.
  revert s; induction n as [|n IH]; intros [|c s]; cbn; try reflexivity.
  destruct (Ascii.eqb c Str.nul); [discriminate|].
  intros H. injection H as H. now rewrite IH.
Qed.

Lemma c_str_drop (n : nat) (s : string) : Str.c_str s = s -> Str.c_str (drop n s) = drop n s.
Proof.
  revert s; induction n as [|n IH]; intros [|c s]; cbn; try (intros H; exact H).
  destruct (Ascii.eqb c Str.nul); [discriminate|].
  intros H. injection H as H. now apply IH.
Qed.

Lemma pipe_data_set_pipe (c : Chan) (data : string) (st : State) :
  pipe_data c (set_pipe c data st) = match c with InPipe => "" | _ => data end.
Proof. destruct c; reflexivity. Qed.

(** With more fuel than there are bytes, the loop ends on an empty read,
    leaves the pipe empty, and, when no byte is NUL, has appended exactly
    the bytes that were in the pipe. *)
Lemma read_loop_drains (fuel : nat) (c : Chan) (acc : string) (st : State) :
  (String.length (pipe_data c st) < fuel)%nat ->
  exists out st',
    read_loop fuel c acc st = (Returns out, st') /\
    pipe_data c st' = "" /\
    (Str.c_str (pipe_data c st) = pipe_data c st -> out = acc ++ pipe_data c st).
Proof.
  revert acc st; induction fuel as [|fuel IH]; intros acc st Hfuel; [inversion Hfuel|].
  cbn [read_loop]. unfold bind, sys_read.
  set (data := pipe_data c st) in *.
  set (st1 := set_pipe c (drop buffer_room data) (log (ERead (ReadEnd c) (take buffer_room data)) st)).
  assert (Hst1 : pipe_data c st1 = match c with InPipe => "" | _ => drop buffer_room data end)
    by apply pipe_data_set_pipe.
  destruct (take buffer_room data) as [|x chunk] eqn:Hchunk.
  - cbn [Str.empty]. exists acc, st1. split; [reflexivity|].
    assert (Hdata : data = "").
    { destruct data; [reflexivity | discriminate Hchunk]. }
    split.
    + rewrite Hst1, Hdata. destruct c; reflexivity.
    + intros _. rewrite Hdata. symmetry. apply append_nil_r.
  - cbn [Str.empty].
    assert (Hrest : pipe_data c st1 = drop buffer_room data).
    { rewrite Hst1. destruct c; reflexivity. }
    destruct (IH (acc ++ Str.c_str (String x chunk)) st1) as (out & st' & Hrun & Hempty & Hout).
    + rewrite Hrest, length_drop.
      assert (String.length data <> 0)%nat by (destruct data; [discriminate Hchunk | discriminate]).
      unfold buffer_room. lia.
    + exists out, st'. split; [exact Hrun|]. split; [exact Hempty|].
      intros Hclean. rewrite Hout.
      * rewrite Hrest, <- Hchunk, (c_str_take _ _ Hclean), append_assoc, take_drop. reflexivity.
      * rewrite Hrest. apply c_str_drop. exact Hclean.
Qed.

Lemma read_output_drains (c : Chan) (st : State) :
  exists out st',
    read_output c st = (Returns out, st') /\
    pipe_data c st' = "" /\
    (Str.c_str (pipe_data c st) = pipe_data c st -> out = pipe_data c st).
Proof.
  unfold read_output.
  destruct (read_loop_drains (S (String.length (pipe_data c st))) c "" st) as (out & st' & H);
    [lia | exists out, st'; exact H].
Qed.

Example read_output_cuts_at_nul :
  fst (read_output OutPipe (set_pipe OutPipe ("ab" ++ String Str.nul "cd") initial_state))
    = Returns "ab".
Proof. vm_compute. reflexivity. Qed.

(** ** A child that ends in time *)



Lemma sys_waitpid_reaps (env : Env) (pid : Z) (st : State) (cp : ChildProc) (d : nat) :
  child st = Some cp -> cp_killed_by cp = None ->
  lifetime (cp_behaviour cp) = Some d ->
  alarm_armed st = 0 \/ Z.of_nat d < alarm_armed st ->
  sys_waitpid env pid st =
    (Returns (Some (wait_status (ending (cp_behaviour cp)))),
     set_child None (log (EWaitpid pid) st)).
Proof.
  intros Hchild Halive Hlife Hintime. unfold sys_waitpid. cbv zeta.
  change (child (log (EWaitpid pid) st)) with (child st).
  change (alarm_armed (log (EWaitpid pid) st)) with (alarm_armed st).
  rewrite Hchild, Halive. unfold ends_before. rewrite Hlife.
  destruct Hintime as [Hnone | Hearly].
  - rewrite Hnone. reflexivity.
  - apply Z.ltb_lt in Hearly. rewrite Hearly, orb_true_r. reflexivity.
Qed.

(** Reading one pipe leaves the child and the other pipe as they are. *)
Lemma read_output_frame (c : Chan) (st : State) :
  child (snd (read_output c st)) = child st /\
  (c <> ErrPipe -> pipe_err (snd (read_output c st)) = pipe_err st).
Proof.
  apply (respects_read_output
           (fun a b => child b = child a /\ (c <> ErrPipe -> pipe_err b = pipe_err a))).
  - intros a. split; reflexivity.
  - intros x y z [H1 H2] [H3 H4]. split; [congruence|].
    intros Hc. rewrite (H4 Hc). apply H2. exact Hc.
  - intros s. split; [reflexivity|]. intros Hc. destruct c; [reflexivity | contradiction | reflexivity].
Qed.

(** * Further properties of the engine *)

(** ** The process runner when a system call fails *)

(** X1: when [pipe] fails, for the first or for the second pipe, the
    process runner returns the result it started with (exit code -1, no
    output) and goes no further: no [fork], and no [close] either, so the
    two descriptors of a first pipe that was opened stay open. *)
Theorem executeProcess_pipe_failure
    (env : Env) (args : list string) (timeout_seconds : Z) (st : State) :
  args <> [] ->
  pipe_ok env OutPipe = false \/ pipe_ok env ErrPipe = false ->
  exists st',
    executeProcess env args timeout_seconds st = (Returns ProcessResult_default, st') /\
    trace st' = (trace st ++
                   (if pipe_ok env OutPipe
                    then [EPipe OutPipe true; EPipe ErrPipe false]
                    else [EPipe OutPipe false]))%list /\
    child st' = child st.
Proof.
  intros Hargs Hfail. destruct args as [|arg args]; [contradiction|].
  unfold executeProcess, bind, sys_pipe, ret.
  destruct (pipe_ok env OutPipe) eqn:Hout; cbn [negb].
  - destruct Hfail as [Hfail | Hfail]; [discriminate Hfail|].
    rewrite Hfail. cbn [negb]. eexists. split; [reflexivity|].
    cbn [trace child log]. rewrite <- app_assoc. split; reflexivity.
  - eexists. split; [reflexivity|]. split; reflexivity.
Qed.

(** The second pipe cannot be opened: the runner returns -1 and leaves the
    first pipe as it is. *)
Lemma executeProcess_pipe_failure_witness :
  exists st',
    executeProcess (with_syscalls (fun c => match c with ErrPipe => false | _ => true end) true
                                  (Sample.server Sample.gxx_ok Sample.hello))
                   [Sample.session ++ "/main"] 10 initial_state
      = (Returns ProcessResult_default, st') /\
    trace st' = [EPipe OutPipe true; EPipe ErrPipe false].
Proof.
  pose (env := with_syscalls (fun c => match c with ErrPipe => false | _ => true end) true
                             (Sample.server Sample.gxx_ok Sample.hello)).
  destruct (executeProcess_pipe_failure env [Sample.session ++ "/main"] 10 initial_state)
    as (st' & Hrun & Htrace & _).
  - discriminate.
  - right. reflexivity.
  - exists st'. split; [exact Hrun | exact Htrace].
Defined.

(** X2: when [fork] fails, the runner closes the four descriptors of the
    two pipes and returns the result it started with; it arms no alarm,
    waits for nothing and reads nothing. *)
Theorem executeProcess_fork_failure
    (env : Env) (args : list string) (timeout_seconds : Z) (st : State) :
  args <> [] ->
  pipe_ok env OutPipe = true -> pipe_ok env ErrPipe = true -> fork_ok env = false ->
  exists st',
    executeProcess env args timeout_seconds st = (Returns ProcessResult_default, st') /\
    trace st' = (trace st ++
                   [EPipe OutPipe true; EPipe ErrPipe true; EFork None (child_branch args);
                    EClose (ReadEnd OutPipe); EClose (WriteEnd OutPipe);
                    EClose (ReadEnd ErrPipe); EClose (WriteEnd ErrPipe)])%list /\
    child st' = child st /\
    alarm_armed st' = alarm_armed st.
Proof.
  intros Hargs Hout Herr Hfork. destruct args as [|arg args]; [contradiction|].
  unfold executeProcess, bind, sys_pipe, sys_fork, sys_close, ret.
  rewrite Hout, Herr, Hfork. cbn [negb].
  eexists. split; [reflexivity|].
  cbn [trace child alarm_armed log]. rewrite <- !app_assoc.
  split; [reflexivity|]. split; reflexivity.
Qed.

(** The process table is full: one [fork] that fails, four [close]s. *)
Lemma executeProcess_fork_failure_witness :
  exists st',
    executeProcess (with_syscalls (fun _ => true) false (Sample.server Sample.gxx_ok Sample.hello))
                   ["/usr/bin/g++"; "main.cpp"] 30 initial_state
      = (Returns ProcessResult_default, st') /\
    List.length (filter (fun e => match e with EClose _ => true | _ => false end) (trace st'))
      = 4%nat /\
    child st' = None.
Proof.
  pose (env := with_syscalls (fun _ => true) false (Sample.server Sample.gxx_ok Sample.hello)).
  destruct (executeProcess_fork_failure env ["/usr/bin/g++"; "main.cpp"] 30 initial_state)
    as (st' & Hrun & Htrace & Hchild & _).
  - discriminate.
  - reflexivity.
  - reflexivity.
  - reflexivity.
  - exists st'. split; [exact Hrun|]. split; [rewrite Htrace; reflexivity | exact Hchild].
Defined.

(** ** A child that ends before the deadline *)

Lemma undisturbed_refl (a : State) : undisturbed a a.
Proof. repeat split. exists []. now rewrite app_nil_r. Qed.

Lemma undisturbed_trans (a b c : State) : undisturbed a b -> undisturbed b c -> undisturbed a c.
Proof.
  intros (H1 & H2 & H3 & e1 & H4) (K1 & K2 & K3 & e2 & K4).
  repeat split; try congruence.
  exists (e1 ++ e2)%list. now rewrite K4, H4, app_assoc.
Qed.

Lemma read_output_undisturbed (c : Chan) : respects undisturbed (read_output c).
Proof.
  apply (respects_read_output undisturbed undisturbed_refl undisturbed_trans).
  intros st. repeat split. eexists. reflexivity.
Qed.

(** The run of the process runner whose child, whatever it is (the
    program, or the child itself when [execvp] fails), writes no more than
    the two pipes hold and ends in time. *)
Lemma executeProcess_child_ends
    (env : Env) (args : list string) (timeout_seconds : Z) (st : State)
    (b : Behaviour) (d : nat) :
  args <> [] ->
  pipe_ok env OutPipe = true -> pipe_ok env ErrPipe = true -> fork_ok env = true ->
  child_behaviour env (inherited env) (child_branch args) = b ->
  fits (writes_stdout b) = true -> fits (writes_stderr b) = true ->
  lifetime b = Some d ->
  timeout_seconds mod 2 ^ 32 = 0 \/ Z.of_nat d < timeout_seconds mod 2 ^ 32 ->
  exists out err st',
    executeProcess env args timeout_seconds st =
      (Returns (with_output (WEXITSTATUS (wait_status (ending b))) out err), st') /\
    (Str.c_str (writes_stdout b) = writes_stdout b -> out = writes_stdout b) /\
    (Str.c_str (writes_stderr b) = writes_stderr b -> err = writes_stderr b) /\
    child st' = None /\
    alarm_armed st' = 0 /\
    In (EFork (Some (next_pid st)) (child_branch args)) (trace st').
Proof.
  intros Hargs Hout Herr Hfork Hb Hfits_out Hfits_err Hlife Hintime.
  destruct args as [|arg args]; [contradiction|].
  unfold executeProcess.
  cbv beta iota zeta delta [bind sys_pipe sys_fork sys_close sys_alarm ret negb].
  rewrite Hout, Herr, Hfork, Hb.
  destruct (child_branch_reaches env (arg :: args) b) as [Hreach_out Hreach_err].
  rewrite Hreach_out, Hreach_err.
  rewrite (behind_pipes_fits _ _ b Hfits_out Hfits_err).
  rewrite (held_fits _ Hfits_out), (held_fits _ Hfits_err).
  change (next_pid (log (EPipe ErrPipe true) (log (EPipe OutPipe true) st))) with (next_pid st).
  set (pid := next_pid st).
  match goal with |- context [sys_waitpid env pid ?s] => set (s0 := s) end.
  pose (cp := {| cp_pid := pid; cp_behaviour := b; cp_killed_by := None |}).
  assert (Hchild : child s0 = Some cp) by reflexivity.
  assert (Harmed : alarm_armed s0 = timeout_seconds mod 2 ^ 32) by reflexivity.
  assert (Hpo : pipe_out s0 = writes_stdout b) by reflexivity.
  assert (Hpe : pipe_err s0 = writes_stderr b) by reflexivity.
  assert (Htrace : In (EFork (Some pid) (child_branch (arg :: args))) (trace s0)).
  { cbn [s0 trace log set_alarm set_fs spawn]. rewrite !in_app_iff. cbn [In]. tauto. }
  clearbody s0.
  rewrite (sys_waitpid_reaps env pid s0 cp d Hchild eq_refl Hlife)
    by (rewrite Harmed; exact Hintime).
  cbv beta iota.
  set (s1 := set_alarm (0 mod 2 ^ 32) (log (EAlarm 0) (set_child None (log (EWaitpid pid) s0)))).
  assert (Hpo1 : pipe_data OutPipe s1 = writes_stdout b) by exact Hpo.
  assert (Hpe1 : pipe_data ErrPipe s1 = writes_stderr b) by exact Hpe.
  assert (Hchild1 : child s1 = None) by reflexivity.
  assert (Hquiet1 : alarm_armed s1 = 0) by reflexivity.
  assert (Htrace1 : In (EFork (Some pid) (child_branch (arg :: args))) (trace s1)).
  { cbn [s1 trace log set_alarm set_child]. rewrite !in_app_iff. tauto. }
  clearbody s1.
  destruct (read_output_drains OutPipe s1) as (out & s2 & Hread_out & _ & Hout_data).
  rewrite Hread_out.
  assert (Hframe : child s2 = child s1 /\ pipe_err s2 = pipe_err s1).
  { pose proof (read_output_frame OutPipe s1) as F. rewrite Hread_out in F.
    destruct F as [F1 F2]. split; [exact F1 | apply F2; discriminate]. }
  destruct Hframe as [Hchild2 Hpe2].
  pose proof (read_output_undisturbed OutPipe s1) as U2. rewrite Hread_out in U2.
  destruct U2 as (_ & Hquiet2 & _ & evs2 & Htrace2). cbn [snd] in *.
  destruct (read_output_drains ErrPipe s2) as (err & s3 & Hread_err & _ & Herr_data).
  rewrite Hread_err.
  pose proof (read_output_undisturbed ErrPipe s2) as U3. rewrite Hread_err in U3.
  destruct U3 as (Hchild3 & Hquiet3 & _ & evs3 & Htrace3). cbn [snd] in *.
  exists out, err. eexists. split; [reflexivity|].
  cbn [child alarm_armed trace log]. split; [|split; [|split; [|split]]].
  - intros Hclean. rewrite <- Hpo1 in Hclean |- *. apply Hout_data. exact Hclean.
  - intros Hclean. change (pipe_data ErrPipe s2) with (pipe_err s2) in Herr_data.
    rewrite Hpe2 in Herr_data. change (pipe_err s1) with (pipe_data ErrPipe s1) in Herr_data.
    rewrite Hpe1 in Herr_data. apply Herr_data. exact Hclean.
  - congruence.
  - congruence.
  - rewrite Htrace3, Htrace2, !in_app_iff. tauto.
Qed.

(** X3: a command line for which [execvp] finds no program.  The pipes and
    the fork succeed, the child reaches [exit(127)], and the runner returns
    exit code 127 with empty standard output and standard error, under
    every timeout; the failure to start the program is reported in no other
    way. *)
Theorem executeProcess_command_not_found
    (env : Env) (args : list string) (timeout_seconds : Z) (st : State) :
  args <> [] ->
  pipe_ok env OutPipe = true -> pipe_ok env ErrPipe = true -> fork_ok env = true ->
  programs env args = None ->
  exists st',
    executeProcess env args timeout_seconds st =
      (Returns {| pr_exit_code := 127; pr_stdout := ""; pr_stderr := "";
                  pr_memory_usage_kb := 0; pr_cpu_time_ms := 0 |}, st') /\
    In (EFork (Some (next_pid st)) (child_branch args)) (trace st') /\
    child st' = None.
Proof.
  intros Hargs Hout Herr Hfork Hnone.
  destruct (executeProcess_child_ends env args timeout_seconds st (exits_at_once 127) 0
              Hargs Hout Herr Hfork)
    as (out & err & st' & Hrun & Ho & He & Hchild & _ & Htrace).
  - rewrite child_branch_behaviour, Hnone. reflexivity.
  - reflexivity.
  - reflexivity.
  - reflexivity.
  - assert (0 <= timeout_seconds mod 2 ^ 32) by (apply Z.mod_pos_bound; lia).
    change (Z.of_nat 0) with 0. lia.
  - exists st'. rewrite Hrun, (Ho eq_refl), (He eq_refl).
    split; [reflexivity|]. split; [exact Htrace | exact Hchild].
Qed.

(** docker is not installed on the sample machine: asking for its version
    yields exit code 127. *)
Lemma executeProcess_command_not_found_witness :
  exists st',
    executeProcess (Sample.server Sample.gxx_ok Sample.hello) ["docker"; "--version"] 5
                   initial_state
      = (Returns (with_output 127 "" ""), st') /\
    child st' = None.
Proof.
  pose (env := Sample.server Sample.gxx_ok Sample.hello).
  destruct (executeProcess_command_not_found env ["docker"; "--version"] 5 initial_state)
    as (st' & Hrun & _ & Hchild).
  - discriminate.
  - reflexivity.
  - reflexivity.
  - reflexivity.
  - reflexivity.
  - exists st'. split; [exact Hrun | exact Hchild].
Defined.



(** ** What the runner reports, and what it leaves behind *)

Lemma WEXITSTATUS_range (status : Z) : 0 <= WEXITSTATUS status <= 255.
Proof.
  unfold WEXITSTATUS.
  change (Z.land (Z.shiftr status 8) 255) with (Z.land (Z.shiftr status 8) (Z.ones 8)).
  rewrite Z.land_ones by lia.
  pose proof (Z.mod_pos_bound (Z.shiftr status 8) (2 ^ 8)). lia.
Qed.

(** X5: the exit code the process runner returns is -1 (nothing was run,
    or the wait failed) or the low byte [WEXITSTATUS] extracts, between 0
    and 255; no other value, and in particular no negative signal number,
    ever leaves it. *)
Theorem executeProcess_exit_code_range
    (env : Env) (args : list string) (timeout_seconds : Z) (st : State)
    (pr : ProcessResult) (st' : State) :
  executeProcess env args timeout_seconds st = (Returns pr, st') ->
  pr_exit_code pr = -1 \/ 0 <= pr_exit_code pr <= 255.
Proof.
  revert st pr st'.
  change (ensures (fun pr => pr_exit_code pr = -1 \/ 0 <= pr_exit_code pr <= 255)
                  (executeProcess env args timeout_seconds)).
  unfold executeProcess. destruct args as [|arg args]; [apply ensures_ret; left; reflexivity|].
  apply ensures_bind; intros ok_out.
  apply ensures_if; [apply ensures_ret; left; reflexivity|].
  apply ensures_bind; intros ok_err.
  apply ensures_if; [apply ensures_ret; left; reflexivity|].
  apply ensures_bind; intros [pid|].
  2:{ repeat ensures_step. left. reflexivity. }
  do 3 (apply ensures_bind; intros ?).
  apply ensures_bind; intros wait_result.
  apply ensures_bind; intros ?.
  apply (ensures_bind_with (fun code => code = -1 \/ 0 <= code <= 255)).
  - destruct wait_result as [status|].
    + apply ensures_ret. right. apply WEXITSTATUS_range.
    + repeat ensures_step. left. reflexivity.
  - intros code Hcode. repeat ensures_step. exact Hcode.
Qed.

(** A program that calls [exit(259)]: the status keeps the low byte, and
    the runner reports 3. *)
Lemma executeProcess_exit_code_range_witness :
  exists pr st',
    executeProcess (Sample.server Sample.gxx_ok
                      (Sample.program (Some 0%nat) (Exited 259) "" "" [] false))
                   [Sample.session ++ "/main"] 10 initial_state = (Returns pr, st') /\
    pr_exit_code pr = 3 /\
    (pr_exit_code pr = -1 \/ 0 <= pr_exit_code pr <= 255).
Proof.
  eexists. eexists. split; [vm_compute; reflexivity|]. split; [reflexivity|].
  eapply (executeProcess_exit_code_range
            (Sample.server Sample.gxx_ok (Sample.program (Some 0%nat) (Exited 259) "" "" [] false))
            [Sample.session ++ "/main"] 10 initial_state).
  vm_compute. reflexivity.
Defined.

Lemma compilation_failed_not_empty (errors : list string) : compilation_failed errors <> "".
Proof.
  unfold compilation_failed. rewrite compilation_failed_append. discriminate.
Qed.

(** X6: a result of [execute] that reports a failure says why: its error
    message or its standard error is not empty.  The message is empty only
    when the program itself wrote to standard error and exited with a
    nonzero code. *)
Theorem execute_failure_is_explained
    (env : Env) (code input : string) (options : json) (st : State)
    (r : ExecutionResult) (st' : State) :
  execute env code input options st = (Returns r, st') ->
  er_success r = false ->
  er_error_message r <> "" \/ (er_stderr r <> "" /\ er_exit_code r <> 0).
Proof.
  revert st r st'.
  change (ensures (fun r => er_success r = false ->
                            er_error_message r <> "" \/ (er_stderr r <> "" /\ er_exit_code r <> 0))
                  (execute env code input options)).
  unfold execute. cbv zeta.
  apply ensures_try_catch; [|intros what; apply ensures_ret; intros _; left; discriminate].
  apply ensures_bind; intros cr.
  apply ensures_if.
  { apply ensures_ret. intros _. left. apply compilation_failed_not_empty. }
  apply ensures_bind; intros start_time.
  apply ensures_bind; intros pr.
  apply ensures_bind; intros end_time.
  apply ensures_bind; intros ?.
  apply ensures_ret.
  cbn [er_success er_error_message er_stderr er_exit_code].
  intros Hfailed. rewrite Hfailed. cbn [negb andb].
  destruct (pr_stderr pr) as [|c rest]; cbn [Str.empty].
  - left. discriminate.
  - right. split; [discriminate|]. apply Z.eqb_neq. exact Hfailed.
Qed.

(** The program complains on standard error and exits with 3: the error
    message is empty, the standard error is not. *)
Lemma execute_failure_is_explained_witness :
  exists r st',
    execute (Sample.server Sample.gxx_ok Sample.complains)
            Sample.source "" (JObject []) initial_state = (Returns r, st') /\
    er_error_message r = "" /\
    (er_error_message r <> "" \/ (er_stderr r <> "" /\ er_exit_code r <> 0)).
Proof.
  eexists. eexists. split; [vm_compute; reflexivity|]. split; [reflexivity|].
  eapply (execute_failure_is_explained (Sample.server Sample.gxx_ok Sample.complains)
            Sample.source "" (JObject []) initial_state).
  - vm_compute. reflexivity.
  - reflexivity.
Defined.

(** What a [waitpid] that returns leaves: a reaped child when it yields a
    status, and a reaped child in any case when no alarm is pending. *)
Lemma sys_waitpid_returns (env : Env) (pid : Z) (st : State) (w : option Z) (s : State) :
  sys_waitpid env pid st = (Returns w, s) ->
  (w <> None -> child s = None /\ alarm_armed s = alarm_armed st) /\
  (alarm_armed st = 0 -> child s = None /\ alarm_armed s = 0).
Proof.
  unfold sys_waitpid. cbv zeta.
  change (child (log (EWaitpid pid) st)) with (child st).
  change (alarm_armed (log (EWaitpid pid) st)) with (alarm_armed st).
  destruct (child st) as [cp|] eqn:Hchild.
  2:{ intros H. injection H as <- <-. split; [congruence|]. intros Hq. split; [exact Hchild | exact Hq]. }
  destruct (cp_killed_by cp).
  { intros H. injection H as <- <-. split; intros Hq; split; try reflexivity. exact Hq. }
  destruct (alarm_armed st =? 0) eqn:Hzero; cbn [orb].
  - apply Z.eqb_eq in Hzero.
    destruct (lifetime (cp_behaviour cp)); [|discriminate].
    intros H. injection H as <- <-. split; intros Hq; split; try reflexivity. exact Hzero.
  - apply Z.eqb_neq in Hzero.
    destruct (ends_before (cp_behaviour cp) (alarm_armed st)).
    + destruct (lifetime (cp_behaviour cp)); [|discriminate].
      intros H. injection H as <- <-. split; intros Hq; [split; reflexivity | contradiction].
    + destruct (signals env SIGALRM); try discriminate.
      * destruct (lifetime (cp_behaviour cp)); [|discriminate].
        intros H. injection H as <- <-. split; intros Hq; [split; reflexivity | contradiction].
      * destruct (lifetime (cp_behaviour cp)); [|discriminate].
        intros H. injection H as <- <-. split; intros Hq; [split; reflexivity | contradiction].
      * intros H. injection H as <- <-. split; intros Hq; [congruence | contradiction].
Qed.

Lemma sys_kill_alarm (pid : Z) (sig : Signal) (st : State) :
  alarm_armed (snd (sys_kill pid sig st)) = alarm_armed st.
Proof.
  unfold sys_kill. cbv zeta.
  destruct (child (log (EKill pid sig) st)) as [cp|]; [|reflexivity].
  destruct (fatal sig (cp_behaviour cp)); reflexivity.
Qed.

Lemma sys_pipe_undisturbed (env : Env) (c : Chan) : respects undisturbed (sys_pipe env c).
Proof. intros st. repeat split. eexists. reflexivity. Qed.

Lemma sys_close_undisturbed (fd : Fd) : respects undisturbed (sys_close fd).
Proof. intros st. repeat split. eexists. reflexivity. Qed.

Lemma sys_fork_fails (env : Env) (steps : list ChildStep) (st s : State) :
  sys_fork env steps st = (Returns None, s) -> undisturbed st s.
Proof.
  unfold sys_fork. destruct (fork_ok env); [discriminate|].
  intros H. injection H as <-. repeat split. eexists. reflexivity.
Qed.

Lemma undisturbed_idle (a b : State) : undisturbed a b -> idle a -> idle b.
Proof. intros (H1 & H2 & _) [I1 I2]. split; congruence. Qed.

Ltac follow H U :=
  lazymatch type of H with
  | sys_pipe ?env ?c ?st = _ => pose proof (sys_pipe_undisturbed env c st) as U
  | sys_close ?fd ?st = _ => pose proof (sys_close_undisturbed fd st) as U
  | read_output ?c ?st = _ => pose proof (read_output_undisturbed c st) as U
  end;
  rewrite H in U; cbn [snd] in U.

(** X7: whenever the process runner returns, it has waited for the child
    it forked and cancelled the alarm it armed: started with no child and
    no pending alarm, it ends with no child and no pending alarm, on every
    path (failed pipe, failed fork, normal end, interrupted wait). *)
Theorem executeProcess_leaves_nothing_pending
    (env : Env) (args : list string) (timeout_seconds : Z) (st : State)
    (pr : ProcessResult) (st' : State) :
  child st = None -> alarm_armed st = 0 ->
  executeProcess env args timeout_seconds st = (Returns pr, st') ->
  child st' = None /\ alarm_armed st' = 0.
Proof.
  intros Hchild Hquiet H.
  assert (I0 : idle st) by (split; assumption). clear Hchild Hquiet.
  change (idle st').
  destruct args as [|arg args].
  { injection H as _ <-. exact I0. }
  unfold executeProcess in H.
  apply bind_returns in H. destruct H as (ok_out & s1 & E1 & H). follow E1 U1.
  assert (I1 : idle s1) by (eapply undisturbed_idle; eassumption).
  destruct ok_out; cbn [negb] in H.
  2:{ apply ret_returns in H. destruct H as [_ ->]. exact I1. }
  apply bind_returns in H. destruct H as (ok_err & s2 & E2 & H). follow E2 U2.
  assert (I2 : idle s2) by (eapply undisturbed_idle; eassumption).
  destruct ok_err; cbn [negb] in H.
  2:{ apply ret_returns in H. destruct H as [_ ->]. exact I2. }
  apply bind_returns in H. destruct H as ([pid|] & s3 & E3 & H).
  - (* the parent after a successful fork *)
    apply bind_returns in H. destruct H as (? & s4 & _ & H).
    apply bind_returns in H. destruct H as (? & s5 & _ & H).
    apply bind_returns in H. destruct H as (? & s6 & _ & H).
    apply bind_returns in H. destruct H as (w & s7 & Ewait & H).
    apply bind_returns in H. destruct H as (? & s8 & Ealarm & H).
    apply bind_returns in H. destruct H as (code & s9 & Ecode & H).
    assert (Hs8 : s8 = set_alarm (0 mod 2 ^ 32) (log (EAlarm 0) s7))
      by (unfold sys_alarm in Ealarm; congruence).
    subst s8. clear Ealarm.
    assert (I9 : idle s9).
    { destruct w as [status|].
      - apply ret_returns in Ecode. destruct Ecode as [_ ->].
        apply sys_waitpid_returns in Ewait. destruct Ewait as [Hreaped _].
        destruct Hreaped as [Hnone _]; [discriminate|].
        split; [exact Hnone | reflexivity].
      - apply bind_returns in Ecode. destruct Ecode as (? & sk & Ekill & Ecode).
        apply bind_returns in Ecode. destruct Ecode as (w2 & sw & Ewait2 & Ecode).
        apply ret_returns in Ecode. destruct Ecode as [_ ->].
        apply sys_waitpid_returns in Ewait2. destruct Ewait2 as [_ Hquiet].
        apply Hquiet.
        pose proof (sys_kill_alarm pid SIGTERM
                      (set_alarm (0 mod 2 ^ 32) (log (EAlarm 0) s7))) as K.
        rewrite Ekill in K. exact K. }
    apply bind_returns in H. destruct H as (out & s10 & E10 & H). follow E10 U10.
    apply bind_returns in H. destruct H as (err & s11 & E11 & H). follow E11 U11.
    apply bind_returns in H. destruct H as (? & s12 & E12 & H). follow E12 U12.
    apply bind_returns in H. destruct H as (? & s13 & E13 & H). follow E13 U13.
    apply ret_returns in H. destruct H as [_ ->].
    repeat (eapply undisturbed_idle; [eassumption|]). assumption.
  - (* fork failed *)
    apply sys_fork_fails in E3.
    apply bind_returns in H. destruct H as (? & s4 & E4 & H). follow E4 U4.
    apply bind_returns in H. destruct H as (? & s5 & E5 & H). follow E5 U5.
    apply bind_returns in H. destruct H as (? & s6 & E6 & H). follow E6 U6.
    apply bind_returns in H. destruct H as (? & s7 & E7 & H). follow E7 U7.
    apply ret_returns in H. destruct H as [_ ->].
    repeat (eapply undisturbed_idle; [eassumption|]). assumption.
Qed.

(** A program that never ends and dies of SIGTERM, under a SIGALRM handler
    that interrupts [waitpid]: the runner returns -1, and the child has been
    reaped by the second [waitpid]. *)
Lemma executeProcess_leaves_nothing_pending_witness :
  exists pr st',
    executeProcess (Sample.server_with_alarm_handler Sample.gxx_ok Sample.loops)
                   [Sample.session ++ "/main"] 10 initial_state = (Returns pr, st') /\
    pr_exit_code pr = -1 /\
    child st' = None /\ alarm_armed st' = 0.
Proof.
  eexists. eexists. split; [vm_compute; reflexivity|]. split; [reflexivity|].
  eapply (executeProcess_leaves_nothing_pending
            (Sample.server_with_alarm_handler Sample.gxx_ok Sample.loops)
            [Sample.session ++ "/main"] 10 initial_state).
  - reflexivity.
  - reflexivity.
  - vm_compute. reflexivity.
Defined.

(** ** Session ids *)

Lemma hex_digit_in (n : nat) : In (hex_digit n) hex_alphabet.
Proof.
  unfold hex_digit, hex_alphabet. apply nth_In.
  change (List.length (list_ascii_of_string "0123456789abcdef")) with 16%nat.
  apply Nat.mod_upper_bound. discriminate.
Qed.

Lemma draw_hex_spec (env : Env) (count pos : nat) :
  String.length (draw_hex env count pos) = count /\
  Forall (fun c => In c hex_alphabet) (list_ascii_of_string (draw_hex env count pos)).
Proof.
  revert pos; induction count as [|count IH]; intros pos; cbn.
  - split; [reflexivity | constructor].
  - destruct (IH (S pos)) as [Hlen Hall]. split; [now rewrite Hlen|].
    constructor; [apply hex_digit_in | exact Hall].
Qed.

(** X8: whatever the random device yields, [generateSessionId] returns a
    string of exactly 16 characters, each one of [0123456789abcdef] (so
    never a slash or a dot: the working directory [temp/<id>] lies directly
    under [temp]), and it makes no system call. *)
Theorem generateSessionId_hex16 (env : Env) (st : State) :
  exists id st',
    generateSessionId env st = (Returns id, st') /\
    String.length id = 16%nat /\
    Forall (fun c => In c hex_alphabet) (list_ascii_of_string id) /\
    trace st' = trace st /\ fs st' = fs st.
Proof.
  eexists. eexists. split; [reflexivity|].
  destruct (draw_hex_spec env 16 (rng st)) as [Hlen Hall].
  split; [exact Hlen|]. split; [exact Hall|]. split; reflexivity.
Qed.

(** ** The processes the engine starts *)

Ltac respects_walk refl trans :=
  repeat lazymatch goal with
  | |- respects _ (bind _ _) => apply (respects_bind _ trans); [|intros ?]
  | |- respects _ (try_catch _ _) => apply (respects_try_catch _ trans); [|intros ?]
  | |- respects _ (if _ then _ else _) => apply respects_if
  | |- respects _ (ret _) => apply (respects_ret _ refl)
  | |- respects _ (lift_throwing _) => apply (respects_lift_throwing _ refl)
  | |- respects _ (now _) => apply (respects_now _ refl)
  | |- respects _ (fs_exists _) => apply (respects_fs_exists _ refl)
  | |- respects _ (match ?x with _ => _ end) => destruct x
  end.

(** A bind whose continuation is only followed from the values the first
    computation can return. *)
Lemma respects_bind_ensures {A B} (R : State -> State -> Prop) (Q : A -> Prop)
    (m : M A) (k : A -> M B) :
  (forall a b c, R a b -> R b c -> R a c) ->
  respects R m -> ensures Q m -> (forall a, Q a -> respects R (k a)) ->
  respects R (bind m k).
Proof.
  intros Htrans Hm HQ Hk st. unfold bind. specialize (Hm st).
  destruct (m st) as [[a|what| |sig] s] eqn:Hrun; cbn [snd] in *; try exact Hm.
  eapply Htrans; [exact Hm | apply Hk]. eapply HQ. exact Hrun.
Qed.

Lemma buildCompileCommand_compiler_command
    (env : Env) (n : nat) (compiler standard optimization : string)
    (debug_info : bool) (extra_flags : list string) :
  compiler_command env
    (buildCompileCommand env (("temp/" ++ draw_hex env 16 n) ++ "/main.cpp")
                         (("temp/" ++ draw_hex env 16 n) ++ "/main")
                         compiler standard optimization debug_info extra_flags).
Proof.
  unfold compiler_command, buildCompileCommand.
  exists (if String.eqb compiler "clang++" then clang_path (config env)
          else compiler_path (config env)),
         (List.app ["-std=" ++ standard; "-" ++ optimization]
            (List.app (if debug_info then ["-g"] else [])
               (List.app ["-Wall"; "-Wextra"; "-pedantic"] extra_flags))),
         n.
  split.
  - cbn [app]. rewrite <- !app_assoc. reflexivity.
  - destruct (String.eqb compiler "clang++"); [right | left]; reflexivity.
Qed.

(** When [compile] reports success, the path it returns is the binary of
    a session. *)
Lemma compile_returns_session_binary (env : Env) (code : string) (options : json) :
  ensures (fun cr => cr_success cr = true -> session_binary env [cr_executable_path cr])
          (compile env code options).
Proof.
  intros st cr st' Hrun Hsuccess. apply compile_cases in Hrun.
  destruct Hrun as [[message ->] | (args & pr & sa & _ & _ & _ & Hs & Hpath & _)];
    [discriminate Hsuccess|].
  rewrite Hsuccess in Hs. rewrite <- Hs in Hpath. rewrite Hpath.
  exists (rng st). reflexivity.
Qed.

Section Starts.

Variable P : Event -> Prop.
Variable env : Env.

Hypothesis P_other : forall e, is_fork e = false -> P e.

Ltac other_event := eapply extends_one; [|reflexivity]; apply P_other; reflexivity.

Lemma sys_pipe_other (c : Chan) : respects (extends P) (sys_pipe env c).
Proof. intros st. other_event. Qed.

Lemma sys_close_other (fd : Fd) : respects (extends P) (sys_close fd).
Proof. intros st. other_event. Qed.

Lemma sys_alarm_other (seconds : Z) : respects (extends P) (sys_alarm seconds).
Proof. intros st. other_event. Qed.

Lemma sys_waitpid_other (pid : Z) : respects (extends P) (sys_waitpid env pid).
Proof.
  intros st. unfold sys_waitpid. cbv zeta.
  destruct (child (log (EWaitpid pid) st)) as [cp|]; [|other_event].
  destruct (cp_killed_by cp); [other_event|].
  destruct (_ || _); [destruct (lifetime _); other_event|].
  destruct (signals env SIGALRM); try destruct (lifetime _); other_event.
Qed.

Lemma sys_kill_other (pid : Z) (sig : Signal) : respects (extends P) (sys_kill pid sig).
Proof.
  intros st. unfold sys_kill. cbv zeta.
  destruct (child (log (EKill pid sig) st)) as [cp|]; [|other_event].
  destruct (fatal sig (cp_behaviour cp)); other_event.
Qed.

Lemma sys_read_other (c : Chan) : respects (extends P) (sys_read c).
Proof. intros st. other_event. Qed.

Lemma generateSessionId_other : respects (extends P) (generateSessionId env).
Proof. intros st. exists []. split; [cbn; now rewrite app_nil_r | constructor]. Qed.

Lemma create_directories_other (p : string) : respects (extends P) (create_directories env p).
Proof.
  intros st. unfold create_directories. cbv zeta.
  destruct (create_directories_error env); other_event.
Qed.

Lemma ofstream_open_other (p : string) : respects (extends P) (ofstream_open env p).
Proof.
  intros st. unfold ofstream_open. cbv zeta. destruct (ofstream_opens env); other_event.
Qed.

Lemma ofstream_write_other (p data : string) : respects (extends P) (ofstream_write p data).
Proof. intros st. other_event. Qed.

Lemma remove_all_other (p : string) : respects (extends P) (remove_all env p).
Proof.
  intros st. unfold remove_all. cbv zeta. destruct (remove_all_error env); other_event.
Qed.

Lemma sys_fork_other (steps : list ChildStep) :
  (forall pid, P (EFork pid steps)) -> respects (extends P) (sys_fork env steps).
Proof.
  intros Hfork st. unfold sys_fork.
  destruct (fork_ok env); (eapply extends_one; [|reflexivity]; apply Hfork).
Qed.

(** The process runner starts nothing but its command line. *)
Lemma executeProcess_other (args : list string) (timeout_seconds : Z) :
  (forall pid, P (EFork pid (child_branch args))) ->
  respects (extends P) (executeProcess env args timeout_seconds).
Proof.
  intros Hfork. unfold executeProcess.
  destruct args as [|arg args]; [apply respects_ret; exact (extends_refl P)|].
  respects_walk (extends_refl P) (extends_trans P);
    auto using sys_pipe_other, sys_close_other, sys_alarm_other, sys_waitpid_other,
      sys_kill_other, sys_fork_other;
    apply (respects_read_output _ (extends_refl P) (extends_trans P)); apply sys_read_other.
Qed.

Hypothesis P_compiler :
  forall pid argv, compiler_command env argv -> P (EFork pid (child_branch argv)).

Lemma compile_other (code : string) (options : json) :
  respects (extends P) (compile env code options).
Proof.
  unfold compile. cbv zeta.
  apply (respects_bind _ (extends_trans P)); [apply (respects_now _ (extends_refl P))|].
  intros start_time.
  apply (respects_try_catch _ (extends_trans P));
    [|intros what; apply (respects_ret _ (extends_refl P))].
  (* the session id is one the random device has drawn *)
  apply (respects_bind_ensures _ (fun id => exists n, id = draw_hex env 16 n) _ _
           (extends_trans P) generateSessionId_other).
  { intros st id st' Hid. apply generateSessionId_returns in Hid.
    destruct Hid as [-> _]. eexists. reflexivity. }
  intros session_id [n ->].
  respects_walk (extends_refl P) (extends_trans P);
    auto using create_directories_other, ofstream_open_other, ofstream_write_other.
  apply executeProcess_other. intros pid. apply P_compiler.
  apply buildCompileCommand_compiler_command.
Qed.

Hypothesis P_binary :
  forall pid argv, session_binary env argv -> P (EFork pid (child_branch argv)).

Lemma execute_other (code input : string) (options : json) :
  respects (extends P) (execute env code input options).
Proof.
  unfold execute. cbv zeta.
  apply (respects_try_catch _ (extends_trans P));
    [|intros what; apply (respects_ret _ (extends_refl P))].
  apply (respects_bind_ensures _ _ _ _ (extends_trans P) (compile_other code options)
           (compile_returns_session_binary env code options)).
  intros cr Hbinary.
  destruct (cr_success cr); cbn [negb]; [|apply (respects_ret _ (extends_refl P))].
  specialize (Hbinary eq_refl).
  assert (Hrun : respects (extends P)
                   (executeProcess env [cr_executable_path cr] (execution_timeout (config env))))
    by (apply executeProcess_other; intros pid; apply P_binary; exact Hbinary).
  apply (respects_bind _ (extends_trans P)); [apply (respects_now _ (extends_refl P))|].
  intros start_time.
  apply (respects_bind _ (extends_trans P)).
  { apply respects_if; [|exact Hrun].
    unfold executeInSandbox. apply (respects_bind _ (extends_trans P)); [|intros mount; exact Hrun].
    unfold absolute. respects_walk (extends_refl P) (extends_trans P). }
  intros pr.
  apply (respects_bind _ (extends_trans P)); [apply (respects_now _ (extends_refl P))|].
  intros end_time.
  apply (respects_bind _ (extends_trans P)); [|intros ?; apply (respects_ret _ (extends_refl P))].
  apply (respects_cleanupSession _ (extends_refl P) (extends_trans P)). apply remove_all_other.
Qed.

End Starts.

(** X9: every process [compile] starts is started by a command line of
    [buildCompileCommand]: its first word is the configured path of g++ or
    of clang++, never a word of the request, and its last three words are
    the source file [temp/<id>/main.cpp] of a session, [-o] and the output
    file [temp/<id>/main] of the same session. *)
Theorem compile_starts_only_compiler (env : Env) (code : string) (options : json) :
  respects (extends (starts_only (compiler_command env))) (compile env code options).
Proof.
  apply compile_other.
  - intros e He pid steps ->. discriminate He.
  - intros pid argv Hcommand pid' steps Heq. injection Heq as _ <-.
    exists argv. split; [reflexivity | exact Hcommand].
Qed.

(** X10: every process [execute] starts is the configured compiler or the
    binary [temp/<id>/main] of a session, whatever the code, the input, the
    options and the sandbox setting; in particular no [docker] command line
    is ever started. *)
Theorem execute_starts_only_compiler_and_binary
    (env : Env) (code input : string) (options : json) :
  respects (extends (starts_only (fun argv => compiler_command env argv \/ session_binary env argv)))
           (execute env code input options).
Proof.
  apply execute_other.
  - intros e He pid steps ->. discriminate He.
  - intros pid argv Hcommand pid' steps Heq. injection Heq as _ <-.
    exists argv. split; [reflexivity | left; exact Hcommand].
  - intros pid argv Hbinary pid' steps Heq. injection Heq as _ <-.
    exists argv. split; [reflexivity | right; exact Hbinary].
Qed.

(** A request that names [rm] as its compiler: the command line still
    starts with the configured path of g++. *)
Example compile_unknown_compiler_runs_gxx :
  In (EFork (Some 1000)
        (child_branch ["/usr/bin/g++"; "-std=c++20"; "-O2"; "-Wall"; "-Wextra"; "-pedantic";
                       "temp/0123456789abcdef/main.cpp"; "-o"; "temp/0123456789abcdef/main"]))
     (trace (snd (compile (Sample.server Sample.gxx_ok Sample.hello) Sample.source
                          (JObject [("compiler", JString "rm")]) initial_state))).
Proof. vm_compute. repeat (first [left; reflexivity | right]). Qed.

(** ** Compilations that do not reach the compiler *)

Lemma value_string_not_object (options : json) (key default_value : string) :
  (forall members, options <> JObject members) ->
  Json.value_string options key default_value = inl (Json.type_error_306 options).
Proof.
  intros Hnot. destruct options; try reflexivity. exfalso. eapply Hnot. reflexivity.
Qed.

(** X11: options that are not a JSON object (null, a number, a string, an
    array).  The first [options.value(...)] throws type error 306 inside
    the [try] block, after the session directory and the source file have
    been written: [compile] returns a failure with no path, it starts no
    process, and, when the directory and the file could be created, its
    only error is the text of the exception and the source file stays on
    disk. *)
Theorem compile_rejects_non_object_options
    (env : Env) (code : string) (options : json) (st : State) :
  (forall members, options <> JObject members) ->
  exists cr st',
    compile env code options st = (Returns cr, st') /\
    cr_success cr = false /\
    cr_executable_path cr = "" /\
    extends (fun e => is_fork e = false) st st' /\
    (create_directories_error env = None -> ofstream_opens env = true ->
     cr_errors cr = ["Internal compilation error: " ++ Json.type_error_306 options] /\
     Fs.mem ("temp/" ++ draw_hex env 16 (rng st) ++ "/main.cpp") (fs st') = true).
Proof.
  intros Hnot.
  unfold compile.
  cbv beta iota zeta delta [bind try_catch now generateSessionId create_directories
                            ofstream_open ofstream_write lift_throwing throw ret].
  rewrite (value_string_not_object options "compiler" _ Hnot).
  destruct (create_directories_error env) as [what|].
  - eexists. eexists. split; [reflexivity|]. split; [reflexivity|]. split; [reflexivity|].
    split; [|discriminate].
    eexists. cbn [trace log set_rng]. split; [reflexivity | repeat constructor].
  - destruct (ofstream_opens env); cbn [negb].
    + eexists. eexists. split; [reflexivity|]. split; [reflexivity|]. split; [reflexivity|].
      split.
      * eexists. cbn [trace log set_rng set_fs]. rewrite <- !app_assoc.
        split; [reflexivity | repeat constructor].
      * intros _ _. split; [reflexivity|].
        cbn [fs log set_fs set_rng]. rewrite Fs_mem_add, String.eqb_refl.
        apply orb_true_r.
    + eexists. eexists. split; [reflexivity|]. split; [reflexivity|]. split; [reflexivity|].
      split; [|discriminate].
      eexists. cbn [trace log set_rng set_fs]. rewrite <- !app_assoc.
      split; [reflexivity | repeat constructor].
Qed.

(** A request whose options are the string [fast]. *)
Lemma compile_rejects_non_object_options_witness :
  exists cr st',
    compile (Sample.server Sample.gxx_ok Sample.hello) Sample.source (JString "fast")
            initial_state = (Returns cr, st') /\
    cr_success cr = false /\
    cr_errors cr = ["Internal compilation error: "
                    ++ "[json.exception.type_error.306] cannot use value() with string"] /\
    filter is_fork (trace st') = [] /\
    Fs.mem (Sample.session ++ "/main.cpp") (fs st') = true.
Proof.
  pose (env := Sample.server Sample.gxx_ok Sample.hello).
  destruct (compile_rejects_non_object_options env Sample.source (JString "fast") initial_state)
    as (cr & st' & Hrun & Hfailed & _ & _ & Hleft).
  - discriminate.
  - destruct (Hleft eq_refl eq_refl) as [Herrors Hfile].
    exists cr, st'. split; [exact Hrun|]. split; [exact Hfailed|].
    split; [exact Herrors|]. split; [|exact Hfile].
    vm_compute in Hrun. injection Hrun as _ <-. reflexivity.
Defined.

(** X12: the session directory cannot be created.  The exception of
    [create_directories] is caught inside [compile]: the result is a
    failure whose only error is "Internal compilation error: " followed by
    the text of the exception; no file is opened and no process started. *)
Theorem compile_directory_failure
    (env : Env) (code : string) (options : json) (st : State) (what : string) :
  create_directories_error env = Some what ->
  exists st',
    compile env code options st =
      (Returns (push_error CompilationResult_default ("Internal compilation error: " ++ what)),
       st') /\
    trace st' = (trace st ++ [ECreateDirectories ("temp/" ++ draw_hex env 16 (rng st))])%list /\
    fs st' = fs st.
Proof.
  intros Hfails. unfold compile.
  cbv beta iota zeta delta [bind try_catch now generateSessionId create_directories ret].
  rewrite Hfails. eexists. split; [reflexivity|]. split; reflexivity.
Qed.

(** The disk is full. *)
Lemma compile_directory_failure_witness :
  exists st',
    compile (with_filesystem (Some "filesystem error: cannot create directories: No space left on device")
                             true (Sample.server Sample.gxx_ok Sample.hello))
            Sample.source (JObject []) initial_state
      = (Returns (push_error CompilationResult_default
                    ("Internal compilation error: "
                     ++ "filesystem error: cannot create directories: No space left on device")),
         st') /\
    trace st' = [ECreateDirectories Sample.session].
Proof.
  pose (env := with_filesystem
                 (Some "filesystem error: cannot create directories: No space left on device")
                 true (Sample.server Sample.gxx_ok Sample.hello)).
  destruct (compile_directory_failure env Sample.source (JObject []) initial_state
              "filesystem error: cannot create directories: No space left on device")
    as (st' & Hrun & Htrace & _).
  - reflexivity.
  - exists st'. split; [exact Hrun | exact Htrace].
Defined.

(** X13: the source file cannot be opened for writing.  [compile] returns
    at once with the single error "Failed to create source file": nothing
    is written, the options are not read (so not even malformed options
    are reported) and no process is started; the session directory that was
    just created stays on disk. *)
Theorem compile_source_file_failure
    (env : Env) (code : string) (options : json) (st : State) :
  create_directories_error env = None ->
  ofstream_opens env = false ->
  exists st',
    compile env code options st =
      (Returns (push_error CompilationResult_default "Failed to create source file"), st') /\
    trace st' =
      (trace st ++ [ECreateDirectories ("temp/" ++ draw_hex env 16 (rng st));
                    EOpen ("temp/" ++ draw_hex env 16 (rng st) ++ "/main.cpp") false])%list /\
    Fs.mem ("temp/" ++ draw_hex env 16 (rng st)) (fs st') = true.
Proof.
  intros Hdirectory Hopen. unfold compile.
  cbv beta iota zeta delta [bind try_catch now generateSessionId create_directories
                            ofstream_open ret].
  rewrite Hdirectory, Hopen. cbn [negb].
  eexists. split; [reflexivity|]. split.
  - cbn [trace log set_fs set_rng]. rewrite <- !app_assoc. reflexivity.
  - cbn [fs log set_fs set_rng]. apply Fs_mem_create_directories.
Qed.

(** A session directory in which no file can be created: even with
    options that are not an object, the only error reported is the one
    about the source file. *)
Lemma compile_source_file_failure_witness :
  exists st',
    compile (with_filesystem None false (Sample.server Sample.gxx_ok Sample.hello))
            Sample.source JNull initial_state
      = (Returns (push_error CompilationResult_default "Failed to create source file"), st') /\
    Fs.mem Sample.session (fs st') = true /\
    Fs.mem (Sample.session ++ "/main.cpp") (fs st') = false.
Proof.
  pose (env := with_filesystem None false (Sample.server Sample.gxx_ok Sample.hello)).
  destruct (compile_source_file_failure env Sample.source JNull initial_state)
    as (st' & Hrun & _ & Hdir).
  - reflexivity.
  - reflexivity.
  - exists st'. split; [exact Hrun|]. split; [exact Hdir|].
    vm_compute in Hrun. injection Hrun as <-. reflexivity.
Defined.

(** ** Start-up *)

Lemma create_missing_grows (env : Env) (directories : list string) :
  respects grows (create_missing env directories).
Proof.
  induction directories as [|dir rest IH]; cbn [create_missing].
  - apply (respects_ret _ grows_refl).
  - respects_walk grows_refl grows_trans;
      auto using create_directories_grows.
Qed.

Lemma create_missing_creates (env : Env) (directories : list string) (st st' : State) :
  create_missing env directories st = (Returns tt, st') ->
  forall dir, In dir directories -> Fs.mem dir (fs st') = true.
Proof.
  revert st; induction directories as [|d rest IH]; intros st Hrun dir Hin; [contradiction|].
  cbn [create_missing] in Hrun.
  apply bind_returns in Hrun. destruct Hrun as (present & s1 & Hexists & Hrun).
  unfold fs_exists in Hexists. injection Hexists as <- <-.
  apply bind_returns in Hrun. destruct Hrun as ([] & s2 & Hcreate & Hrun).
  destruct Hin as [<- | Hin]; [|exact (IH s2 Hrun dir Hin)].
  assert (Hthere : Fs.mem d (fs s2) = true).
  { destruct (Fs.mem d (fs st)) eqn:Hpresent; cbn [negb] in Hcreate.
    - apply ret_returns in Hcreate. destruct Hcreate as [_ ->]. exact Hpresent.
    - apply create_directories_returns in Hcreate. subst s2.
      cbn [fs set_fs log]. apply Fs_mem_create_directories. }
  pose proof (create_missing_grows env rest s2) as G. rewrite Hrun in G.
  apply G. exact Hthere.
Qed.

Lemma create_missing_present (env : Env) (directories : list string) (st : State) :
  (forall dir, In dir directories -> Fs.mem dir (fs st) = true) ->
  create_missing env directories st = (Returns tt, st).
Proof.
  induction directories as [|d rest IH]; intros Hall; [reflexivity|].
  cbn [create_missing]. unfold bind at 1. unfold fs_exists.
  rewrite (Hall d (or_introl eq_refl)). cbn [negb]. unfold bind, ret.
  fold (@ret unit). apply IH. intros dir Hin. apply Hall. right. exact Hin.
Qed.

(** X14: when [createDirectories] returns, the three working directories
    [temp], [cache] and [logs] exist, and every path that existed before
    still exists. *)
Theorem createDirectories_creates (env : Env) (st st' : State) :
  createDirectories env st = (Returns tt, st') ->
  Fs.mem "temp" (fs st') = true /\
  Fs.mem "cache" (fs st') = true /\
  Fs.mem "logs" (fs st') = true /\
  grows st st'.
Proof.
  intros Hrun. unfold createDirectories in Hrun.
  pose proof (create_missing_creates env _ st st' Hrun) as Hall.
  split; [apply Hall; cbn; tauto|]. split; [apply Hall; cbn; tauto|].
  split; [apply Hall; cbn; tauto|].
  pose proof (create_missing_grows env ["temp"; "cache"; "logs"] st) as G.
  unfold createDirectories in G. rewrite Hrun in G. exact G.
Qed.

(** A fresh working directory: only [logs] is there. *)
Lemma createDirectories_creates_witness :
  exists st',
    createDirectories (Sample.server Sample.gxx_ok Sample.hello)
                      (set_fs ["logs"; "logs/engine.log"] initial_state) = (Returns tt, st') /\
    Fs.mem "temp" (fs st') = true /\
    Fs.mem "cache" (fs st') = true /\
    Fs.mem "logs/engine.log" (fs st') = true /\
    trace st' = [ECreateDirectories "temp"; ECreateDirectories "cache"].
Proof.
  pose (env := Sample.server Sample.gxx_ok Sample.hello).
  pose (st := set_fs ["logs"; "logs/engine.log"] initial_state).
  assert (Hrun : exists st', createDirectories env st = (Returns tt, st') /\
                             trace st' = [ECreateDirectories "temp"; ECreateDirectories "cache"]).
  { eexists. split; vm_compute; reflexivity. }
  destruct Hrun as (st' & Hrun & Htrace).
  destruct (createDirectories_creates env st st' Hrun) as (Htemp & Hcache & _ & Hgrows).
  exists st'. split; [exact Hrun|]. split; [exact Htemp|]. split; [exact Hcache|].
  split; [apply Hgrows; reflexivity | exact Htrace].
Defined.

(** X15: [createDirectories] is idempotent.  After a call that returned,
    a second call finds the three directories and makes no system call: it
    returns in the state it was started in. *)
Theorem createDirectories_idempotent (env : Env) (st st' : State) :
  createDirectories env st = (Returns tt, st') ->
  createDirectories env st' = (Returns tt, st').
Proof.
  intros Hrun. unfold createDirectories in *.
  apply create_missing_present. apply (create_missing_creates env _ st st' Hrun).
Qed.

Lemma createDirectories_idempotent_witness :
  exists st',
    createDirectories (Sample.server Sample.gxx_ok Sample.hello) (set_fs [] initial_state)
      = (Returns tt, st') /\
    List.length (trace st') = 3%nat /\
    createDirectories (Sample.server Sample.gxx_ok Sample.hello) st' = (Returns tt, st').
Proof.
  pose (env := Sample.server Sample.gxx_ok Sample.hello).
  assert (Hrun : exists st', createDirectories env (set_fs [] initial_state) = (Returns tt, st') /\
                             List.length (trace st') = 3%nat).
  { eexists. split; vm_compute; reflexivity. }
  destruct Hrun as (st' & Hrun & Htrace).
  exists st'. split; [exact Hrun|]. split; [exact Htrace|].
  exact (createDirectories_idempotent env _ st' Hrun).
Defined.

Lemma ensures_throw_bind {A B} (Q : B -> Prop) (what : string) (k : A -> M B) :
  ensures Q (bind (throw what) k).
Proof. intros st b st' H. discriminate H. Qed.

(** With the options [null], [compile] never reports success. *)
Lemma compile_null_fails (env : Env) (code : string) :
  ensures (fun cr => cr_success cr = false) (compile env code JNull).
Proof.
  unfold compile. cbv zeta.
  apply ensures_bind; intros start_time.
  apply ensures_try_catch; [|intros what; apply ensures_ret; reflexivity].
  apply ensures_bind; intros session_id.
  apply ensures_bind; intros ?.
  apply ensures_bind; intros opened.
  apply ensures_if; [apply ensures_ret; reflexivity|].
  apply ensures_bind; intros ?.
  apply ensures_throw_bind.
Qed.

Lemma testCompilation_false (env : Env) : ensures (fun b => b = false) (testCompilation env).
Proof.
  unfold testCompilation. cbv zeta.
  apply ensures_try_catch; [|intros what; apply ensures_ret; reflexivity].
  apply (ensures_bind_with (fun cr => cr_success cr = false)); [apply compile_null_fails|].
  intros cr Hfailed. rewrite Hfailed. apply ensures_ret. reflexivity.
Qed.

(** X16: the self-test of the engine always fails.  [testCompilation]
    passes a default-constructed [nlohmann::json], which is [null], and
    [compile] calls [value()] on it: the type error is caught inside
    [compile] and reported as a failed compilation.  On every machine,
    whatever the compiler would have said, [testCompilation] returns false,
    and it does so without starting a process. *)
Theorem testCompilation_always_fails (env : Env) (st : State) :
  exists st',
    testCompilation env st = (Returns false, st') /\
    extends (fun e => is_fork e = false) st st'.
Proof.
  unfold testCompilation, compile.
  cbv beta iota zeta delta [bind try_catch now generateSessionId create_directories
                            ofstream_open ofstream_write lift_throwing throw ret
                            Json.value_string].
  destruct (create_directories_error env) as [what|].
  - eexists. split; [reflexivity|].
    eexists. cbn [trace log set_rng]. split; [reflexivity | repeat constructor].
  - destruct (ofstream_opens env); cbn [negb].
    + eexists. split; [reflexivity|].
      eexists. cbn [trace log set_rng set_fs]. rewrite <- !app_assoc.
      split; [reflexivity | repeat constructor].
    + eexists. split; [reflexivity|].
      eexists. cbn [trace log set_rng set_fs]. rewrite <- !app_assoc.
      split; [reflexivity | repeat constructor].
Qed.

(** X17: [initialize] cannot succeed.  Started with [initialized_] false
    it reaches [testCompilation] or fails before; either way it returns
    false and leaves [initialized_] false, on every machine, so the start-up
    of main.cpp, which requires it, always aborts. *)
Theorem initialize_never_succeeds (env : Env) (st : State) (r : bool * bool) (st' : State) :
  initialize env false st = (Returns r, st') ->
  r = (false, false).
Proof.
  revert st r st'.
  change (ensures (fun r => r = (false, false)) (initialize env false)).
  unfold initialize.
  apply ensures_try_catch; [|intros what; apply ensures_ret; reflexivity].
  apply ensures_bind; intros ?.
  apply ensures_bind; intros valid.
  apply ensures_if; [apply ensures_ret; reflexivity|].
  apply ensures_bind; intros ?.
  apply (ensures_bind_with (fun b => b = false)); [apply testCompilation_false|].
  intros tested ->. apply ensures_ret. reflexivity.
Qed.

(** A machine with g++ installed and a compiler that accepts every
    source: [initialize] checks for docker, runs its self-test without
    starting the compiler, and returns false. *)
Lemma initialize_never_succeeds_witness :
  exists st',
    initialize (Sample.server Sample.gxx_ok Sample.hello) false
               (with_file "/usr/bin/g++" initial_state) = (Returns (false, false), st') /\
    filter is_fork (trace st') = [EFork (Some 1000) (child_branch ["docker"; "--version"])].
Proof.
  pose (env := Sample.server Sample.gxx_ok Sample.hello).
  pose (st := with_file "/usr/bin/g++" initial_state).
  assert (Hrun : exists r st', initialize env false st = (Returns r, st') /\
             filter is_fork (trace st')
               = [EFork (Some 1000) (child_branch ["docker"; "--version"])]).
  { eexists. eexists. split; vm_compute; reflexivity. }
  destruct Hrun as (r & st' & Hrun & Htrace).
  exists st'. split; [|exact Htrace].
  pose proof (initialize_never_succeeds env st r st' Hrun) as Hr.
  rewrite Hr in Hrun. exact Hrun.
Defined.

(** A command line for which [execvp] finds no program never yields exit
    code 0, whichever system call fails. *)
Lemma executeProcess_not_found_nonzero
    (env : Env) (args : list string) (timeout_seconds : Z) (st : State) :
  args <> [] -> programs env args = None ->
  exists pr st',
    executeProcess env args timeout_seconds st = (Returns pr, st') /\
    pr_exit_code pr <> 0.
Proof.
  intros Hargs Hnone.
  destruct (pipe_ok env OutPipe) eqn:Hout;
    [destruct (pipe_ok env ErrPipe) eqn:Herr; [destruct (fork_ok env) eqn:Hfork|]|].
  - destruct (executeProcess_child_ends env args timeout_seconds st (exits_at_once 127) 0
                Hargs Hout Herr Hfork)
      as (out & err & st' & Hrun & _).
    + rewrite child_branch_behaviour, Hnone. reflexivity.
    + reflexivity.
    + reflexivity.
    + reflexivity.
    + assert (0 <= timeout_seconds mod 2 ^ 32) by (apply Z.mod_pos_bound; lia).
      change (Z.of_nat 0) with 0. lia.
    + eexists. exists st'. split; [exact Hrun | discriminate].
  - destruct args as [|arg args]; [contradiction|].
    unfold executeProcess, bind, sys_pipe, sys_fork, sys_close, ret.
    rewrite Hout, Herr, Hfork. cbn [negb].
    eexists. eexists. split; [reflexivity | discriminate].
  - destruct args as [|arg args]; [contradiction|].
    unfold executeProcess, bind, sys_pipe, ret. rewrite Hout, Herr. cbn [negb].
    eexists. eexists. split; [reflexivity | discriminate].
  - destruct args as [|arg args]; [contradiction|].
    unfold executeProcess, bind, sys_pipe, ret. rewrite Hout. cbn [negb].
    eexists. eexists. split; [reflexivity | discriminate].
Qed.

(** X18: on a machine where [execvp] finds no [docker], [initializeDocker]
    returns false after the version check alone: it never asks for the
    sandbox image, and it returns false also when the pipes or the fork of
    the check fail. *)
Theorem initializeDocker_without_docker (env : Env) (st : State) :
  programs env ["docker"; "--version"] = None ->
  exists st',
    initializeDocker env st = (Returns false, st') /\
    extends (starts_only (fun argv => argv = ["docker"; "--version"])) st st'.
Proof.
  intros Hnone.
  destruct (executeProcess_not_found_nonzero env ["docker"; "--version"] 5 st)
    as (pr & st' & Hrun & Hcode); [discriminate | exact Hnone |].
  exists st'. split.
  - unfold initializeDocker, try_catch, bind. rewrite Hrun.
    apply Z.eqb_neq in Hcode. rewrite Hcode. reflexivity.
  - pose proof (executeProcess_other (starts_only (fun argv => argv = ["docker"; "--version"]))
                  env) as Hstarts.
    specialize (Hstarts ltac:(intros e He pid steps ->; discriminate He)
                        ["docker"; "--version"] 5).
    specialize (Hstarts ltac:(intros pid pid' steps Heq; injection Heq as _ <-;
                              eexists; split; reflexivity) st).
    rewrite Hrun in Hstarts. exact Hstarts.
Qed.

(** The sample machine has no docker. *)
Lemma initializeDocker_without_docker_witness :
  exists st',
    initializeDocker (Sample.server Sample.gxx_ok Sample.hello) initial_state
      = (Returns false, st') /\
    filter is_fork (trace st') = [EFork (Some 1000) (child_branch ["docker"; "--version"])].
Proof.
  pose (env := Sample.server Sample.gxx_ok Sample.hello).
  destruct (initializeDocker_without_docker env initial_state) as (st' & Hrun & _).
  - reflexivity.
  - exists st'. split; [exact Hrun|].
    vm_compute in Hrun. injection Hrun as <-. reflexivity.
Defined.

(** ** The options of a compilation *)

(** X19: a member [flags] that is not an array (a single string, say) is
    ignored without an error: the compilation is the one of the same
    options without that member. *)
Theorem compile_ignores_flags_that_are_no_array
    (env : Env) (code : string) (members : list (string * json)) (flags : json) (st : State) :
  Json.is_array flags = false ->
  Json.lookup "flags" members = None ->
  compile env code (JObject (("flags", flags) :: members)) st =
  compile env code (JObject members) st.
Proof.
  intros Hlist Habsent.
  assert (Hstring : forall key default_value, String.eqb "flags" key = false ->
            Json.value_string (JObject (("flags", flags) :: members)) key default_value =
            Json.value_string (JObject members) key default_value).
  { intros key default_value Hkey. cbn [Json.value_string Json.lookup]. rewrite Hkey. reflexivity. }
  assert (Hbool : Json.value_bool (JObject (("flags", flags) :: members)) "debug" false =
                  Json.value_bool (JObject members) "debug" false) by reflexivity.
  assert (Hflags : Json.contains (JObject (("flags", flags) :: members)) "flags"
                   && Json.is_array (Json.at_key (JObject (("flags", flags) :: members)) "flags")
                   = false).
  { cbn [Json.contains Json.at_key Json.lookup]. rewrite String.eqb_refl, Hlist. reflexivity. }
  assert (Hnone : Json.contains (JObject members) "flags" = false).
  { cbn [Json.contains]. rewrite Habsent. reflexivity. }
  unfold compile. cbv zeta.
  rewrite Hflags, Hnone, Hbool, !Hstring by reflexivity.
  reflexivity.
Qed.

(** The request gives ["-O3"] as a string instead of an array of strings:
    the compiler is started without it. *)
Lemma compile_ignores_flags_that_are_no_array_witness :
  compile (Sample.server Sample.gxx_ok Sample.hello) Sample.source
          (JObject [("flags", JString "-O3"); ("standard", JString "c++17")]) initial_state =
  compile (Sample.server Sample.gxx_ok Sample.hello) Sample.source
          (JObject [("standard", JString "c++17")]) initial_state /\
  In (EFork (Some 1000)
        (child_branch ["/usr/bin/g++"; "-std=c++17"; "-O2"; "-Wall"; "-Wextra"; "-pedantic";
                       "temp/0123456789abcdef/main.cpp"; "-o"; "temp/0123456789abcdef/main"]))
     (trace (snd (compile (Sample.server Sample.gxx_ok Sample.hello) Sample.source
                          (JObject [("flags", JString "-O3"); ("standard", JString "c++17")])
                          initial_state))).
Proof.
  split.
  - apply (compile_ignores_flags_that_are_no_array (Sample.server Sample.gxx_ok Sample.hello)
             Sample.source [("standard", JString "c++17")] (JString "-O3") initial_state);
      reflexivity.
  - vm_compute. repeat (first [left; reflexivity | right]).
Defined.

(** ** A run from the request to the result *)



(** ** Output with NUL bytes *)

Lemma take_all (n : nat) (s : string) : (String.length s <= n)%nat -> take n s = s.
Proof.
  revert s; induction n as [|n IH]; intros [|c s] Hlen; cbn in *; try reflexivity; [lia|].
  rewrite IH by lia. reflexivity.
Qed.

Lemma drop_all (n : nat) (s : string) : (String.length s <= n)%nat -> drop n s = "".
Proof.
  revert s; induction n as [|n IH]; intros [|c s] Hlen; cbn in *; try reflexivity; [lia|].
  apply IH. lia.
Qed.

(** X21: what the runner returns of an output that fits one [read] (at
    most 4095 bytes) is the output up to its first NUL byte: the buffer is
    appended as a C string, so a NUL and everything after it are lost. *)
Theorem read_output_stops_at_nul (c : Chan) (st : State) :
  c <> InPipe ->
  (String.length (pipe_data c st) <= buffer_room)%nat ->
  fst (read_output c st) = Returns (Str.c_str (pipe_data c st)).
Proof.
  intros Hchan Hfits. unfold read_output.
  cbn [read_loop]. unfold bind at 1. unfold sys_read.
  rewrite (take_all _ _ Hfits), (drop_all _ _ Hfits).
  destruct (pipe_data c st) as [|x data] eqn:Hdata; cbn [Str.empty].
  - reflexivity.
  - cbn [String.length read_loop]. unfold bind at 1. unfold sys_read.
    rewrite pipe_data_set_pipe.
    destruct c; [|  |contradiction]; cbn [take Str.empty]; reflexivity.
Qed.

(** A program that writes a NUL between [ab] and [cd]: only [ab] is
    returned. *)
Lemma read_output_stops_at_nul_witness :
  fst (read_output OutPipe (set_pipe OutPipe ("ab" ++ String Str.nul "cd") initial_state))
    = Returns "ab".
Proof.
  apply (read_output_stops_at_nul OutPipe
           (set_pipe OutPipe ("ab" ++ String Str.nul "cd") initial_state)).
  - discriminate.
  - cbn. unfold buffer_room. lia.
Defined.

(** ** The handlers of /api/compile and /api/execute *)

Section HandlerFacts.

Variable env : Env.
Variable json_parse : string -> string + json.
Variable dump_throws : json -> option string.
Variable system_clock_ms : nat -> Z.

Lemma sendErrorResponse_cases (res : Response) (status_code : Z) (message : string)
    (st : State) :
  (exists body,
     sendErrorResponse dump_throws system_clock_ms res status_code message st =
       (Returns {| res_status := status_code; res_body := body;
                   res_content_type := "application/json" |}, st)) \/
  (exists what,
     sendErrorResponse dump_throws system_clock_ms res status_code message st = (Throws what, st)).
Proof.
  unfold sendErrorResponse, set_content_json. cbv zeta.
  destruct (dump_throws _) as [what|].
  - right. exists what. reflexivity.
  - left. eexists. reflexivity.
Qed.

(** A handler body that answers with an error or throws, followed by the
    clause for [std::exception]. *)
Lemma turned_down_answer (res : Response) (message : string) (prefix : string)
    (body : M Response) (st : State) :
  (body st = sendErrorResponse dump_throws system_clock_ms res 400 message st \/
   exists what, body st = (Throws what, st)) ->
  snd (try_catch body
         (fun what => sendErrorResponse dump_throws system_clock_ms res 500 (prefix ++ what)) st)
    = st /\
  forall res' st',
    try_catch body
      (fun what => sendErrorResponse dump_throws system_clock_ms res 500 (prefix ++ what)) st
      = (Returns res', st') ->
    res_status res' = 400 \/ res_status res' = 500.
Proof.
  intros Hbody. unfold try_catch.
  assert (Hhandler : forall what,
            snd (sendErrorResponse dump_throws system_clock_ms res 500 (prefix ++ what) st) = st /\
            forall res' st',
              sendErrorResponse dump_throws system_clock_ms res 500 (prefix ++ what) st
                = (Returns res', st') -> res_status res' = 400 \/ res_status res' = 500).
  { intros what.
    destruct (sendErrorResponse_cases res 500 (prefix ++ what) st) as [[b ->] | [w ->]].
    - split; [reflexivity|]. intros res' st' H. injection H as <- _. right. reflexivity.
    - split; [reflexivity|]. intros res' st' H. discriminate H. }
  destruct Hbody as [-> | [what ->]]; [|apply Hhandler].
  destruct (sendErrorResponse_cases res 400 message st) as [[b ->] | [w ->]].
  - split; [reflexivity|]. intros res' st' H. injection H as <- _. left. reflexivity.
  - apply Hhandler.
Qed.

End HandlerFacts.

(** X22: a request whose body is no JSON, or has no member [code], or has
    one that is not a string, is answered by both handlers without a call of
    the engine: the state of the system is the one before the request, and
    a response that is returned has status 400 or 500. *)
Theorem handlers_turn_down_without_engine
    (env : Env) (json_parse : string -> string + json) (dump_throws : json -> option string)
    (system_clock_ms : nat -> Z) (req : Request) (res : Response) (st : State) :
  turned_down json_parse req ->
  (snd (handleCompile env json_parse dump_throws system_clock_ms req res st) = st /\
   forall res' st',
     handleCompile env json_parse dump_throws system_clock_ms req res st = (Returns res', st') ->
     res_status res' = 400 \/ res_status res' = 500) /\
  (snd (handleExecute env json_parse dump_throws system_clock_ms req res st) = st /\
   forall res' st',
     handleExecute env json_parse dump_throws system_clock_ms req res st = (Returns res', st') ->
     res_status res' = 400 \/ res_status res' = 500).
Proof.
  unfold turned_down, handleCompile, handleExecute.
  destruct (json_parse (req_body req)) as [parse_error | request_json].
  - intros _.
    destruct (sendErrorResponse_cases dump_throws system_clock_ms res 400
                "Invalid JSON in request body" st) as [[b ->] | [w ->]].
    + split; (split; [reflexivity|]); intros res' st' H; injection H as <- _; left; reflexivity.
    + split; (split; [reflexivity|]); intros res' st' H; discriminate H.
  - intros Hdown.
    split; apply turned_down_answer with (message := "Missing 'code' field in request body").
    + destruct Hdown as [-> | Hcode]; [left; reflexivity|].
      destruct (Json.contains request_json "code"); [|left; reflexivity].
      right. cbn [negb]. unfold bind, lift_throwing.
      destruct (Json.at_key request_json "code") eqn:Hkey;
        try (eexists; reflexivity).
      exfalso. apply (Hcode s). reflexivity.
    + destruct Hdown as [-> | Hcode]; [left; reflexivity|].
      destruct (Json.contains request_json "code"); [|left; reflexivity].
      right. cbn [negb]. unfold bind, lift_throwing.
      destruct (Json.at_key request_json "code") eqn:Hkey;
        try (eexists; reflexivity).
      exfalso. apply (Hcode s). reflexivity.
Qed.

(** A request with the number 42 as its code: status 500, and the type
    error of the JSON library in the message. *)
Lemma handlers_turn_down_without_engine_witness :
  exists res',
    handleCompile (Sample.server Sample.gxx_ok Sample.hello)
                  (fun _ => inr (JObject [("code", JNumber 42)])) (fun _ => None)
                  (fun _ => 1700000000000)
                  {| req_body := "" |} fresh_response initial_state
      = (Returns res', initial_state) /\
    res_status res' = 500 /\
    Json.at_key (res_body res') "message" =
      JString ("Compilation failed: "
               ++ "[json.exception.type_error.302] type must be string, but is number").
Proof.
  pose (env := Sample.server Sample.gxx_ok Sample.hello).
  pose (parse := fun _ : string => @inr string json (JObject [("code", JNumber 42)])).
  pose (req := {| req_body := "" |}).
  destruct (handlers_turn_down_without_engine env parse (fun _ => None)
              (fun _ => 1700000000000) req fresh_response initial_state)
    as [[Hstate _] _].
  - right. intros code H. discriminate H.
  - eexists. split; [|split]; vm_compute; reflexivity.
Defined.

(** X23: once the request is read (a string as [code], the options as
    given or an empty object), [handleCompile] carries out the compilation
    and then takes one of two ways.  When the result can be dumped, it
    answers with the six members of the result in the body, content type
    JSON, and the status it was handed, also for a failed compilation and
    for an error inside [compile].  When [dump] throws (a string of the
    result, the compiler output say, is not UTF-8), the clause for
    [std::exception] answers through [sendErrorResponse] with status 500
    and "Compilation failed: " followed by the text of the exception, in
    the state the compilation left. *)
Theorem handleCompile_returns_compilation
    (env : Env) (json_parse : string -> string + json) (dump_throws : json -> option string)
    (system_clock_ms : nat -> Z) (req : Request) (res : Response) (st : State)
    (request_json : json) (code : string) (options : json)
    (cr : CompilationResult) (st1 : State) :
  json_parse (req_body req) = inr request_json ->
  Json.contains request_json "code" = true ->
  Json.at_key request_json "code" = JString code ->
  value_json request_json "options" (JObject []) = inr options ->
  compile env code options st = (Returns cr, st1) ->
  handleCompile env json_parse dump_throws system_clock_ms req res st =
    match dump_throws (compile_response cr) with
    | None =>
        (Returns {| res_status := res_status res;
                    res_body := compile_response cr;
                    res_content_type := "application/json" |}, st1)
    | Some what =>
        sendErrorResponse dump_throws system_clock_ms res 500 ("Compilation failed: " ++ what)
                          st1
    end.
Proof.
  intros Hparse Hcontains Hcode Hoptions Hcompile.
  unfold handleCompile. rewrite Hparse, Hcontains. cbn [negb].
  unfold try_catch, bind. rewrite Hcode, Hoptions. cbn [Json.get_string lift_throwing ret].
  rewrite Hcompile. unfold set_content_json at 1.
  destruct (dump_throws (compile_response cr)); reflexivity.
Qed.

(** The missing semicolon over HTTP.  With a [dump] that accepts every
    text the status is left as it was, and the body says [success: false]
    and carries the diagnostic; with a [dump] that rejects the result the
    answer is the error 500. *)
Lemma handleCompile_returns_compilation_witness :
  (exists res' st',
     handleCompile (Sample.server (Sample.gxx_fails Sample.missing_semicolon) Sample.hello)
                   (fun _ => inr (JObject [("code", JString Sample.source)])) (fun _ => None)
                   (fun _ => 1700000000000)
                   {| req_body := "" |} fresh_response initial_state
       = (Returns res', st') /\
     res_status res' = -1 /\
     Json.at_key (res_body res') "success" = JBool false /\
     Json.at_key (res_body res') "errors" =
       JArray [JString "main.cpp:4:44: error: expected ';' before 'return'"]) /\
  (exists res' st',
     handleCompile (Sample.server (Sample.gxx_fails Sample.missing_semicolon) Sample.hello)
                   (fun _ => inr (JObject [("code", JString Sample.source)]))
                   (fun j => if Json.contains j "compiler_output"
                             then Some "[json.exception.type_error.316] invalid UTF-8 byte"
                             else None)
                   (fun _ => 1700000000000)
                   {| req_body := "" |} fresh_response initial_state
       = (Returns res', st') /\
     res_status res' = 500 /\
     Json.at_key (res_body res') "message" =
       JString ("Compilation failed: "
                ++ "[json.exception.type_error.316] invalid UTF-8 byte")).
Proof.
  pose (env := Sample.server (Sample.gxx_fails Sample.missing_semicolon) Sample.hello).
  pose (parse := fun _ : string => @inr string json (JObject [("code", JString Sample.source)])).
  pose (req := {| req_body := "" |}).
  assert (Hcompile : exists cr st1,
            compile env Sample.source (JObject []) initial_state = (Returns cr, st1)).
  { eexists. eexists. vm_compute. reflexivity. }
  destruct Hcompile as (cr & st1 & Hcompile).
  split.
  - pose proof (handleCompile_returns_compilation env parse (fun _ => None)
                  (fun _ => 1700000000000) req fresh_response initial_state
                  (JObject [("code", JString Sample.source)]) Sample.source (JObject [])
                  cr st1 eq_refl eq_refl eq_refl eq_refl Hcompile) as Hanswer.
    cbv beta iota in Hanswer.
    eexists. exists st1. split; [exact Hanswer|].
    vm_compute in Hcompile. injection Hcompile as <- _.
    split; [reflexivity|]. split; vm_compute; reflexivity.
  - pose proof (handleCompile_returns_compilation env parse
                  (fun j => if Json.contains j "compiler_output"
                            then Some "[json.exception.type_error.316] invalid UTF-8 byte"
                            else None)
                  (fun _ => 1700000000000) req fresh_response initial_state
                  (JObject [("code", JString Sample.source)]) Sample.source (JObject [])
                  cr st1 eq_refl eq_refl eq_refl eq_refl Hcompile) as Hanswer.
    eexists. exists st1. split; [refine (eq_trans Hanswer _); cbv; reflexivity|].
    split; reflexivity.
Defined.

(** X24: once the request is read, [handleExecute] carries out the run
    and then takes one of two ways.  When the result can be dumped, it
    answers with the result of [execute] and the status it was handed; the
    body has the member [error] exactly when the result is not a success,
    and then it holds the error message of the result (which may be
    empty).  When [dump] throws (the program wrote bytes that are not
    UTF-8), the clause for [std::exception] answers through
    [sendErrorResponse] with status 500 and "Execution failed: " followed by
    the text of the exception, in the state the run left. *)
Theorem handleExecute_returns_execution
    (env : Env) (json_parse : string -> string + json) (dump_throws : json -> option string)
    (system_clock_ms : nat -> Z) (req : Request) (res : Response) (st : State)
    (request_json : json) (code input : string) (options : json)
    (r : ExecutionResult) (st1 : State) :
  json_parse (req_body req) = inr request_json ->
  Json.contains request_json "code" = true ->
  Json.at_key request_json "code" = JString code ->
  Json.value_string request_json "input" "" = inr input ->
  value_json request_json "options" (JObject []) = inr options ->
  execute env code input options st = (Returns r, st1) ->
  handleExecute env json_parse dump_throws system_clock_ms req res st =
    match dump_throws (execute_response r) with
    | None =>
        (Returns {| res_status := res_status res;
                    res_body := execute_response r;
                    res_content_type := "application/json" |}, st1)
    | Some what =>
        sendErrorResponse dump_throws system_clock_ms res 500 ("Execution failed: " ++ what)
                          st1
    end /\
  Json.contains (execute_response r) "error" = negb (er_success r) /\
  (er_success r = false ->
   Json.at_key (execute_response r) "error" = JString (er_error_message r)).
Proof.
  intros Hparse Hcontains Hcode Hinput Hoptions Hexecute. split; [|split].
  - unfold handleExecute. rewrite Hparse, Hcontains. cbn [negb].
    unfold try_catch, bind. rewrite Hcode, Hinput, Hoptions.
    cbn [Json.get_string lift_throwing ret].
    rewrite Hexecute. unfold set_content_json at 1.
    destruct (dump_throws (execute_response r)); reflexivity.
  - unfold execute_response. destruct (er_success r); reflexivity.
  - intros Hfailed. unfold execute_response. rewrite Hfailed. reflexivity.
Qed.

(** A program that writes to standard error and exits with 3: the body
    has the member [error], and it is the empty string. *)
Lemma handleExecute_returns_execution_witness :
  exists res' st',
    handleExecute (Sample.server Sample.gxx_ok Sample.complains)
                  (fun _ => inr (JObject [("code", JString Sample.source)])) (fun _ => None)
                  (fun _ => 1700000000000)
                  {| req_body := "" |} fresh_response initial_state
      = (Returns res', st') /\
    res_status res' = -1 /\
    Json.at_key (res_body res') "exit_code" = JNumber 3 /\
    Json.at_key (res_body res') "error" = JString "".
Proof.
  pose (env := Sample.server Sample.gxx_ok Sample.complains).
  pose (parse := fun _ : string => @inr string json (JObject [("code", JString Sample.source)])).
  pose (req := {| req_body := "" |}).
  assert (Hexecute : exists r st1,
            execute env Sample.source "" (JObject []) initial_state = (Returns r, st1)).
  { eexists. eexists. vm_compute. reflexivity. }
  destruct Hexecute as (r & st1 & Hexecute).
  destruct (handleExecute_returns_execution env parse (fun _ => None)
              (fun _ => 1700000000000) req fresh_response initial_state
              (JObject [("code", JString Sample.source)]) Sample.source "" (JObject [])
              r st1 eq_refl eq_refl eq_refl eq_refl eq_refl Hexecute) as (Hanswer & _ & Herror).
  cbv beta iota in Hanswer.
  eexists. exists st1. split; [exact Hanswer|].
  vm_compute in Hexecute. injection Hexecute as <- _.
  split; [reflexivity|]. split; [reflexivity|].
  cbn [res_body]. rewrite Herror; reflexivity.
Defined.

(** ** Sessions that are never cleaned up *)

Lemma ofstream_write_grows (p data : string) : respects grows (ofstream_write p data).
Proof. intros st. apply grows_same_fs. reflexivity. Qed.

Lemma generateSessionId_grows (env : Env) : respects grows (generateSessionId env).
Proof. intros st. apply grows_same_fs. reflexivity. Qed.

(** Once the session directory is created, it is there when [compile]
    ends, however it ends. *)
Lemma compile_keeps_directory (env : Env) (code : string) (options : json) (st : State) :
  create_directories_error env = None ->
  Fs.mem ("temp/" ++ draw_hex env 16 (rng st)) (fs (snd (compile env code options st))) = true.
Proof.
  intros Hcreate. unfold compile. cbv zeta.
  unfold bind at 1. cbv beta iota delta [now].
  unfold try_catch. unfold bind at 1. cbv beta iota delta [generateSessionId].
  unfold bind at 1. unfold create_directories at 1. cbv zeta. rewrite Hcreate.
  set (dir := "temp/" ++ draw_hex env 16 (rng st)).
  match goal with
  | |- context [bind (ofstream_open env ?p) ?k ?s] =>
      assert (G : respects grows (bind (ofstream_open env p) k));
        [|specialize (G s); set (s1 := s) in *; set (rest := bind (ofstream_open env p) k) in *]
  end.
  { respects_walk grows_refl grows_trans;
      auto using ofstream_open_grows, ofstream_write_grows, executeProcess_grows;
      intros s0; apply grows_same_fs; reflexivity. }
  assert (Hdir : Fs.mem dir (fs s1) = true) by apply Fs_mem_create_directories.
  clearbody s1 rest.
  destruct (rest s1) as [[cr|what| |sig] s2]; cbn [snd] in *; apply G; exact Hdir.
Qed.

(** X25: a failed compilation leaves its session behind.  When [compile]
    reports a failure after the session directory was created, [execute]
    returns in the state [compile] left: the directory [temp/<id>] is still
    on disk and no [remove_all] was issued, so every request with a
    compilation error adds a directory under [temp] that the engine never
    removes. *)
Theorem execute_leaves_session_of_failed_compilation
    (env : Env) (code input : string) (options : json) (st : State)
    (cr : CompilationResult) (st1 : State) :
  compile env code options st = (Returns cr, st1) ->
  cr_success cr = false ->
  create_directories_error env = None ->
  exists r,
    execute env code input options st = (Returns r, st1) /\
    er_success r = false /\
    Fs.mem ("temp/" ++ draw_hex env 16 (rng st)) (fs st1) = true /\
    extends (fun e => is_removal e = false) st st1.
Proof.
  intros Hcompile Hfailed Hcreate.
  exists (with_error_message ExecutionResult_default (compilation_failed (cr_errors cr))).
  split; [|split; [reflexivity|split]].
  - cbv beta delta [execute try_catch bind] iota zeta. rewrite Hcompile, Hfailed. reflexivity.
  - pose proof (compile_keeps_directory env code options st Hcreate) as Hdir.
    rewrite Hcompile in Hdir. exact Hdir.
  - pose proof (compile_removes_nothing env code options st) as Hquiet.
    rewrite Hcompile in Hquiet. exact Hquiet.
Qed.

(** The missing semicolon: after the request the session directory and
    the source file are still there. *)
Lemma execute_leaves_session_of_failed_compilation_witness :
  exists r st1,
    execute (Sample.server (Sample.gxx_fails Sample.missing_semicolon) Sample.hello)
            Sample.source "" (JObject []) initial_state = (Returns r, st1) /\
    er_success r = false /\
    Fs.mem Sample.session (fs st1) = true /\
    filter is_removal (trace st1) = [].
Proof.
  pose (env := Sample.server (Sample.gxx_fails Sample.missing_semicolon) Sample.hello).
  edestruct (execute_leaves_session_of_failed_compilation env Sample.source ""
               (JObject []) initial_state)
    as (r & Hrun & Hfailed & Hdir & _).
  - vm_compute. reflexivity.
  - reflexivity.
  - reflexivity.
  - exists r. eexists. split; [exact Hrun|]. split; [exact Hfailed|].
    split; [exact Hdir | reflexivity].
Defined.

(** X26: with the sandbox enabled, [executeInSandbox] first builds the
    docker command line it never uses, and for that asks for the absolute
    path of the binary.  When the current directory cannot be determined
    that call throws: the program is not started, [execute] reports
    "Internal execution error: " with the text of the exception, and the
    session is not cleaned up. *)
Theorem execute_sandbox_path_failure
    (env : Env) (code input : string) (options : json) (st : State)
    (cr : CompilationResult) (st1 : State) (what : string) :
  compile env code options st = (Returns cr, st1) ->
  cr_success cr = true ->
  sandbox_enabled (config env) = true ->
  current_path env = inl what ->
  execute env code input options st =
    (Returns (with_error_message ExecutionResult_default ("Internal execution error: " ++ what)),
     st1).
Proof.
  intros Hcompile Hsuccess Hsandbox Hcwd.
  assert (Hpath : String.prefix "/" (cr_executable_path cr) = false).
  { destruct (compile_returns_session_binary env code options st cr st1 Hcompile Hsuccess)
      as [n Hn].
    injection Hn as ->. reflexivity. }
  cbv beta delta [execute try_catch bind now] iota zeta.
  rewrite Hcompile, Hsuccess, Hsandbox. cbv beta iota delta [negb].
  unfold executeInSandbox, absolute. rewrite Hpath.
  unfold bind, lift_throwing, throw. rewrite Hcwd. reflexivity.
Qed.

(** The working directory of the server has been removed: the compiled
    Hello-World is never run. *)
Lemma execute_sandbox_path_failure_witness :
  exists st1,
    execute (with_filesystem_cwd (inl "filesystem error: cannot get current path")
                                 (Sample.server Sample.gxx_ok Sample.hello))
            Sample.source "" (JObject []) initial_state
      = (Returns (with_error_message ExecutionResult_default
                    ("Internal execution error: "
                     ++ "filesystem error: cannot get current path")), st1) /\
    List.length (filter is_fork (trace st1)) = 1%nat /\
    Fs.mem Sample.session (fs st1) = true.
Proof.
  pose (env := with_filesystem_cwd (inl "filesystem error: cannot get current path")
                                   (Sample.server Sample.gxx_ok Sample.hello)).
  eexists. split.
  - eapply (execute_sandbox_path_failure env Sample.source "" (JObject []) initial_state).
    + vm_compute. reflexivity.
    + reflexivity.
    + reflexivity.
    + reflexivity.
  - split; vm_compute; reflexivity.
Defined.

(** ** A deadline of zero *)

(** X27: [alarm(0)] arms nothing.  With a timeout of 0 seconds (or any
    multiple of 2^32 after the conversion to [unsigned]) there is no
    deadline: a program that never ends keeps the runner in [waitpid] for
    ever, under every signal disposition, and nothing is sent to it. *)
Theorem executeProcess_without_deadline_blocks
    (env : Env) (args : list string) (timeout_seconds : Z) (st : State)
    (program : Context -> Behaviour) :
  args <> [] ->
  pipe_ok env OutPipe = true -> pipe_ok env ErrPipe = true -> fork_ok env = true ->
  programs env args = Some program ->
  lifetime (program (inherited env)) = None ->
  timeout_seconds mod 2 ^ 32 = 0 ->
  exists st',
    executeProcess env args timeout_seconds st = (Blocks, st') /\
    extends (fun e => match e with EKill _ _ => False | _ => True end) st st'.
Proof.
  intros Hargs Hout Herr Hfork Hprogram Hloops Hzero.
  destruct args as [|arg args]; [contradiction|].
  unfold executeProcess.
  cbv beta iota zeta delta [bind sys_pipe sys_fork sys_close sys_alarm ret negb].
  rewrite Hout, Herr, Hfork.
  rewrite child_branch_behaviour, Hprogram.
  generalize (next_pid (log (EPipe ErrPipe true) (log (EPipe OutPipe true) st))).
  intros pid.
  match goal with |- context [sys_waitpid env pid ?s] => set (s0 := s) end.
  match goal with
  | s0 := context [spawn _ ?running _ _ _] |- _ =>
      pose (cp := {| cp_pid := pid; cp_behaviour := running; cp_killed_by := None |});
      assert (Hstays : lifetime running = None)
        by (apply lifetime_behind_pipes; exact Hloops)
  end.
  assert (Hchild : child s0 = Some cp) by reflexivity.
  assert (Hquiet : alarm_armed s0 = 0) by exact Hzero.
  assert (Htrace : extends (fun e => match e with EKill _ _ => False | _ => True end) st s0).
  { eexists. cbn [s0 trace log set_alarm set_fs spawn]. rewrite <- !app_assoc.
    split; [reflexivity | repeat constructor]. }
  clearbody s0.
  rewrite (sys_waitpid_forever env pid s0 cp Hchild eq_refl Hquiet Hstays).
  eexists. split; [reflexivity|].
  eapply extends_trans; [exact Htrace|].
  eapply extends_one; [|reflexivity]. exact I.
Qed.

(** A compilation timeout of 0 in the configuration and a compiler that
    hangs: the compilation never returns. *)
Lemma executeProcess_without_deadline_blocks_witness :
  exists st',
    executeProcess (Sample.server Sample.loops Sample.hello)
                   ["/usr/bin/g++"; "main.cpp"; "-o"; "main"] 0 initial_state = (Blocks, st') /\
    filter (fun e => match e with EKill _ _ => true | _ => false end) (trace st') = [].
Proof.
  pose (env := Sample.server Sample.loops Sample.hello).
  destruct (executeProcess_without_deadline_blocks env
              ["/usr/bin/g++"; "main.cpp"; "-o"; "main"] 0 initial_state (fun _ => Sample.loops))
    as (st' & Hrun & _).
  - discriminate.
  - reflexivity.
  - reflexivity.
  - reflexivity.
  - reflexivity.
  - reflexivity.
  - reflexivity.
  - exists st'. split; [exact Hrun|].
    vm_compute in Hrun. injection Hrun as <-. reflexivity.
Defined.

(** ** More output than a pipe holds *)

(** X28: the runner reads its two pipes only after [waitpid] has
    returned.  A program that writes more on its standard output or its
    standard error than a pipe holds therefore stays blocked in [write] and
    is never reaped, however short its own run would be: under the signal
    dispositions of main.cpp (no handler for SIGALRM) the alarm of the
    deadline terminates the calling process. *)
Theorem executeProcess_full_pipe_is_never_reaped
    (env : Env) (args : list string) (timeout_seconds : Z) (st : State)
    (program : Context -> Behaviour) :
  args <> [] ->
  pipe_ok env OutPipe = true -> pipe_ok env ErrPipe = true -> fork_ok env = true ->
  programs env args = Some program ->
  fits (writes_stdout (program (inherited env)))
    && fits (writes_stderr (program (inherited env))) = false ->
  0 < timeout_seconds < 2 ^ 32 ->
  signals env SIGALRM = SigDefault ->
  exists st',
    executeProcess env args timeout_seconds st = (Killed SIGALRM, st') /\
    extends (fun e => match e with ERead _ _ => False | _ => True end) st st'.
Proof.
  intros Hargs Hout Herr Hfork Hprogram Hfull Hrange Hdefault.
  destruct args as [|arg args]; [contradiction|].
  unfold executeProcess.
  cbv beta iota zeta delta [bind sys_pipe sys_fork sys_close sys_alarm ret negb].
  rewrite Hout, Herr, Hfork.
  rewrite child_branch_behaviour, Hprogram.
  destruct (child_branch_reaches env (arg :: args) (program (inherited env)))
    as [Hreach_out Hreach_err].
  rewrite Hreach_out, Hreach_err. clear Hreach_out Hreach_err.
  unfold behind_pipes. rewrite Hfull.
  generalize (held (writes_stdout (program (inherited env))))
             (held (writes_stderr (program (inherited env)))).
  intros held_out held_err.
  generalize (next_pid (log (EPipe ErrPipe true) (log (EPipe OutPipe true) st))).
  intros pid.
  match goal with |- context [sys_waitpid env pid ?s] => set (s0 := s) end.
  pose (cp := {| cp_pid := pid; cp_behaviour := blocked_in_write (program (inherited env));
                 cp_killed_by := None |}).
  assert (Hchild : child s0 = Some cp) by reflexivity.
  assert (Harmed : alarm_armed s0 = timeout_seconds) by (apply Z.mod_small; lia).
  assert (Htrace : extends (fun e => match e with ERead _ _ => False | _ => True end) st s0).
  { eexists. cbn [s0 trace log set_alarm set_fs spawn]. rewrite <- !app_assoc.
    split; [reflexivity | repeat constructor]. }
  clearbody s0.
  rewrite (sys_waitpid_alarm env pid s0 cp Hchild eq_refl)
    by (rewrite Harmed; first [lia | reflexivity]).
  rewrite Hdefault.
  eexists. split; [reflexivity|].
  eapply extends_trans; [exact Htrace|].
  eapply extends_one; [|reflexivity]. exact I.
Qed.

(** A program that prints 70000 characters and returns: compiled and
    started by the server, it is never waited for; the alarm of the
    execution timeout ends the server. *)
Lemma executeProcess_full_pipe_is_never_reaped_witness :
  exists st',
    executeProcess (Sample.server Sample.gxx_ok floods) [Sample.session ++ "/main"] 10
                   initial_state = (Killed SIGALRM, st').
Proof.
  pose (env := Sample.server Sample.gxx_ok floods).
  destruct (executeProcess_full_pipe_is_never_reaped env [Sample.session ++ "/main"] 10
              initial_state (fun _ => floods))
    as (st' & Hrun & _).
  - discriminate.
  - reflexivity.
  - reflexivity.
  - reflexivity.
  - reflexivity.
  - vm_compute. reflexivity.
  - split; reflexivity.
  - reflexivity.
  - exists st'. exact Hrun.
Defined.

(** A command line that compiles some other file into some other place
    is no compiler command of the engine. *)
Example compiler_command_names_the_session :
  ~ compiler_command (Sample.server Sample.gxx_ok Sample.hello)
      ["/usr/bin/g++"; "payload.cpp"; "-o"; "/etc/cron.d/job"].
Proof.
  intros (exe & middle & n & Hargv & _).
  injection Hargv as _ Hrest.
  destruct middle as [|a [|b [|c middle]]]; cbn [List.app] in Hrest.
  - injection Hrest as Hsource _ _. cbn [append] in Hsource. discriminate Hsource.
  - injection Hrest as _ _ _ Hnil. discriminate Hnil.
  - injection Hrest as _ _ _ Hnil. discriminate Hnil.
  - injection Hrest as _ _ _ Hnil. destruct middle; discriminate Hnil.
Qed.
